(** * Gig marketplace: entity store, routes and chat relay

    A shallow embedding of the server of the marketplace: the in-memory
    entity store ([MemStorage], server/storage.ts), the request handlers that
    drive the task and application state machine ([registerRoutes],
    server/routes.ts) and the Socket.IO chat relay set up in the same
    function.

    Conventions of the embedding.
    - A JavaScript [Map<number, V>] is an insertion-ordered list of entries
      ([JsMap.t]): [Map.prototype.set] overwrites an entry in place or
      appends a new one, and [values()] lists the entries in insertion order.
    - Numeric ids are [Z], standing for the integers that JavaScript's
      numbers hold exactly (below 2^53 in absolute value); a route parameter
      is the number [parseInt] made of it.  Timestamps are [Z]
      (milliseconds); the clock reading of a request comes from its
      environment.  Amounts of money are rationals.
    - An [async] method of the store is a computation in [M], a state monad
      over [MemStorage.t] with exceptions; a [throw] leaves the writes done
      so far in place, as in the source, where nothing is ever rolled back.
    - Every [await] of a handler is on a method of [MemStorage], which
      settles without input or output; a handler thus runs to its end
      before the next request is taken up, and requests are handled one
      after the other ([run]).
    - A request body is given at the types its schema demands; the schema
      check that remains ([z.enum] on a status) is modelled by the [parse]
      functions.
    - The store comes in two layers: [MemStorage.t] with the seven maps the
      task and application flow works on, and [Store.t], which adds the maps
      of messages and reports.  The session store and the routes of
      server/auth.ts are left out.
    - Of the client, the profile page's conversion of the skills between a
      list and a line of text is embedded ([Profile]); it builds the body
      of PATCH /api/users/:id. *)

From Stdlib Require Import QArith Sorted.
From stdpp Require Import base numbers list strings pretty gmap.

Local Open Scope string_scope.
Local Open Scope list_scope.
Local Open Scope Z_scope.

(** ** JavaScript [Map] keyed by numbers *)

Module JsMap.

Section Defs.
Context {V : Type}.

Definition t : Type := list (Z * V).

Definition empty : t := [].

(** [Map.prototype.get]: [None] stands for [undefined]. *)
Fixpoint get (m : t) (k : Z) : option V :=
  match m with
  | [] => None
  | (k', v) :: m' => if bool_decide (k = k') then Some v else get m' k
  end.

(** [Map.prototype.set]: an existing key keeps its position. *)
Fixpoint set (m : t) (k : Z) (v : V) : t :=
  match m with
  | [] => [(k, v)]
  | (k', v') :: m' =>
      if bool_decide (k = k') then (k, v) :: m' else (k', v') :: set m' k v
  end.

(** [Array.from(m.values())]. *)
Definition values (m : t) : list V := map snd m.

Definition keys (m : t) : list Z := map fst m.

(** The entries of a [Map] have pairwise distinct keys. *)
Fixpoint distinct_keys (m : t) : bool :=
  match m with
  | [] => true
  | (k, _) :: m' => negb (bool_decide (k ∈ keys m')) && distinct_keys m'
  end.
End Defs.

Arguments t : clear implicits.

End JsMap.

(** ** Computations over a store: state with exceptions *)

Inductive outcome (A : Type) : Type :=
  | Ret (a : A)
  | Throw (e : string).
Arguments Ret {A} a.
Arguments Throw {A} e.

(** A computation reads and writes the store and returns or throws; the
    store it leaves behind is kept in both cases. *)
Definition M (S A : Type) : Type := S → outcome A * S.

Definition ret {S A} (a : A) : M S A := λ s, (Ret a, s).

Definition throw {S A} (e : string) : M S A := λ s, (Throw e, s).

Definition bind {S A B} (m : M S A) (k : A → M S B) : M S B :=
  λ s, match m s with
       | (Ret a, s') => k a s'
       | (Throw e, s') => (Throw e, s')
       end.

Definition gets {S A} (f : S → A) : M S A := λ s, (Ret (f s), s).

Definition modify {S} (f : S → S) : M S unit := λ s, (Ret tt, f s).

(** The sequencing notations [x ← m; k] and [m ;; k] are stdpp's. *)
#[global] Instance M_bind {S} : MBind (M S) := λ A B k m, bind m k.
#[global] Instance M_ret {S} : MRet (M S) := λ A a, ret a.

(** ** Entities (shared/schema.ts) *)

(** A JSON value of a notification's [metadata] object. *)
Inductive JsVal : Type :=
  | JNum (n : Z)
  | JStr (s : string).

Module User.
Record t : Type := mk {
  id : Z;
  username : string;
  password : string;
  email : string;
  fullName : string;
  role : string;
  profilePicture : option string;
  bio : option string;
  skills : option (list string);
  createdAt : Z
}.

(** [InsertUser]: the schema omits [id]; [skills] is optional. *)
Record insert : Type := mkInsert {
  i_username : string;
  i_password : string;
  i_email : string;
  i_fullName : string;
  i_role : string;
  i_profilePicture : option string;
  i_bio : option string;
  i_skills : option (list string)
}.

(** [Partial<User>]: every field may be absent ([None]). *)
Record partial : Type := mkPartial {
  p_id : option Z;
  p_username : option string;
  p_password : option string;
  p_email : option string;
  p_fullName : option string;
  p_role : option string;
  p_profilePicture : option (option string);
  p_bio : option (option string);
  p_skills : option (option (list string));
  p_createdAt : option Z
}.

(** [{ ...user, ...userData }]: a field of the patch wins. *)
Definition spread (user : t) (userData : partial) : t :=
  {| id := default (id user) (p_id userData);
     username := default (username user) (p_username userData);
     password := default (password user) (p_password userData);
     email := default (email user) (p_email userData);
     fullName := default (fullName user) (p_fullName userData);
     role := default (role user) (p_role userData);
     profilePicture := default (profilePicture user) (p_profilePicture userData);
     bio := default (bio user) (p_bio userData);
     skills := default (skills user) (p_skills userData);
     createdAt := default (createdAt user) (p_createdAt userData) |}.

Definition no_change : partial :=
  mkPartial None None None None None None None None None None.
End User.

Module Task.
Record t : Type := mk {
  id : Z;
  title : string;
  description : string;
  budget : Q;
  deadline : Z;
  requiredSkills : list string;
  employerId : Z;
  status : string;
  createdAt : Z
}.

(** [InsertTask]: the schema omits [id] and [createdAt]. *)
Record insert : Type := mkInsert {
  i_title : string;
  i_description : string;
  i_budget : Q;
  i_deadline : Z;
  i_requiredSkills : list string;
  i_employerId : Z;
  i_status : string
}.

(** [Partial<Task>]. *)
Record partial : Type := mkPartial {
  p_id : option Z;
  p_title : option string;
  p_description : option string;
  p_budget : option Q;
  p_deadline : option Z;
  p_requiredSkills : option (list string);
  p_employerId : option Z;
  p_status : option string;
  p_createdAt : option Z
}.

(** [{ ...task, ...taskData }]. *)
Definition spread (task : t) (taskData : partial) : t :=
  {| id := default (id task) (p_id taskData);
     title := default (title task) (p_title taskData);
     description := default (description task) (p_description taskData);
     budget := default (budget task) (p_budget taskData);
     deadline := default (deadline task) (p_deadline taskData);
     requiredSkills := default (requiredSkills task) (p_requiredSkills taskData);
     employerId := default (employerId task) (p_employerId taskData);
     status := default (status task) (p_status taskData);
     createdAt := default (createdAt task) (p_createdAt taskData) |}.

(** The object literal [{ status: st }]. *)
Definition only_status (st : string) : partial :=
  mkPartial None None None None None None None (Some st) None.
End Task.

Module Application.
Record t : Type := mk {
  id : Z;
  taskId : Z;
  studentId : Z;
  coverLetter : string;
  status : string;
  appliedAt : Z
}.

(** [InsertApplication]: the schema omits [id] and [appliedAt]. *)
Record insert : Type := mkInsert {
  i_taskId : Z;
  i_studentId : Z;
  i_coverLetter : string;
  i_status : string
}.

(** [{ ...application, status }]. *)
Definition with_status (application : t) (st : string) : t :=
  {| id := id application;
     taskId := taskId application;
     studentId := studentId application;
     coverLetter := coverLetter application;
     status := st;
     appliedAt := appliedAt application |}.
End Application.

Module Payment.
Record t : Type := mk {
  id : Z;
  applicationId : Z;
  amount : Q;
  status : string;
  createdAt : Z
}.

(** [InsertPayment]. *)
Record insert : Type := mkInsert {
  i_applicationId : Z;
  i_amount : Q;
  i_status : string
}.
End Payment.

Module Badge.
Record t : Type := mk {
  id : Z;
  name : string;
  description : string;
  category : string;
  level : string;
  icon : string
}.

(** [InsertBadge]. *)
Record insert : Type := mkInsert {
  i_name : string;
  i_description : string;
  i_category : string;
  i_level : string;
  i_icon : string
}.
End Badge.

Module UserBadge.
Record t : Type := mk {
  id : Z;
  userId : Z;
  badgeId : Z;
  awardedAt : Z
}.

(** [InsertUserBadge]. *)
Record insert : Type := mkInsert {
  i_userId : Z;
  i_badgeId : Z
}.
End UserBadge.

Module Notification.
Record t : Type := mk {
  id : Z;
  userId : Z;
  type : string;
  content : string;
  isRead : bool;
  createdAt : Z;
  metadata : list (string * JsVal)
}.

(** [InsertNotification]. *)
Record insert : Type := mkInsert {
  i_userId : Z;
  i_type : string;
  i_content : string;
  i_metadata : list (string * JsVal)
}.
End Notification.

(** ** The in-memory store (server/storage.ts, [class MemStorage]) *)

Module MemStorage.

Record t : Type := mk {
  users : JsMap.t User.t;
  tasks : JsMap.t Task.t;
  applications : JsMap.t Application.t;
  payments : JsMap.t Payment.t;
  badges : JsMap.t Badge.t;
  userBadges : JsMap.t UserBadge.t;
  notifications : JsMap.t Notification.t;
  currentUserId : Z;
  currentTaskId : Z;
  currentApplicationId : Z;
  currentPaymentId : Z;
  currentBadgeId : Z;
  currentUserBadgeId : Z;
  currentNotificationId : Z
}.

(** Assignments to one field of [this]. *)
Definition set_users v (s : t) : t :=
  mk v (tasks s) (applications s) (payments s) (badges s) (userBadges s)
     (notifications s) (currentUserId s) (currentTaskId s)
     (currentApplicationId s) (currentPaymentId s) (currentBadgeId s)
     (currentUserBadgeId s) (currentNotificationId s).
Definition set_tasks v (s : t) : t :=
  mk (users s) v (applications s) (payments s) (badges s) (userBadges s)
     (notifications s) (currentUserId s) (currentTaskId s)
     (currentApplicationId s) (currentPaymentId s) (currentBadgeId s)
     (currentUserBadgeId s) (currentNotificationId s).
Definition set_applications v (s : t) : t :=
  mk (users s) (tasks s) v (payments s) (badges s) (userBadges s)
     (notifications s) (currentUserId s) (currentTaskId s)
     (currentApplicationId s) (currentPaymentId s) (currentBadgeId s)
     (currentUserBadgeId s) (currentNotificationId s).
Definition set_payments v (s : t) : t :=
  mk (users s) (tasks s) (applications s) v (badges s) (userBadges s)
     (notifications s) (currentUserId s) (currentTaskId s)
     (currentApplicationId s) (currentPaymentId s) (currentBadgeId s)
     (currentUserBadgeId s) (currentNotificationId s).
Definition set_badges v (s : t) : t :=
  mk (users s) (tasks s) (applications s) (payments s) v (userBadges s)
     (notifications s) (currentUserId s) (currentTaskId s)
     (currentApplicationId s) (currentPaymentId s) (currentBadgeId s)
     (currentUserBadgeId s) (currentNotificationId s).
Definition set_userBadges v (s : t) : t :=
  mk (users s) (tasks s) (applications s) (payments s) (badges s) v
     (notifications s) (currentUserId s) (currentTaskId s)
     (currentApplicationId s) (currentPaymentId s) (currentBadgeId s)
     (currentUserBadgeId s) (currentNotificationId s).
Definition set_notifications v (s : t) : t :=
  mk (users s) (tasks s) (applications s) (payments s) (badges s)
     (userBadges s) v (currentUserId s) (currentTaskId s)
     (currentApplicationId s) (currentPaymentId s) (currentBadgeId s)
     (currentUserBadgeId s) (currentNotificationId s).
Definition set_currentUserId v (s : t) : t :=
  mk (users s) (tasks s) (applications s) (payments s) (badges s)
     (userBadges s) (notifications s) v (currentTaskId s)
     (currentApplicationId s) (currentPaymentId s) (currentBadgeId s)
     (currentUserBadgeId s) (currentNotificationId s).
Definition set_currentTaskId v (s : t) : t :=
  mk (users s) (tasks s) (applications s) (payments s) (badges s)
     (userBadges s) (notifications s) (currentUserId s) v
     (currentApplicationId s) (currentPaymentId s) (currentBadgeId s)
     (currentUserBadgeId s) (currentNotificationId s).
Definition set_currentApplicationId v (s : t) : t :=
  mk (users s) (tasks s) (applications s) (payments s) (badges s)
     (userBadges s) (notifications s) (currentUserId s) (currentTaskId s)
     v (currentPaymentId s) (currentBadgeId s)
     (currentUserBadgeId s) (currentNotificationId s).
Definition set_currentPaymentId v (s : t) : t :=
  mk (users s) (tasks s) (applications s) (payments s) (badges s)
     (userBadges s) (notifications s) (currentUserId s) (currentTaskId s)
     (currentApplicationId s) v (currentBadgeId s)
     (currentUserBadgeId s) (currentNotificationId s).
Definition set_currentBadgeId v (s : t) : t :=
  mk (users s) (tasks s) (applications s) (payments s) (badges s)
     (userBadges s) (notifications s) (currentUserId s) (currentTaskId s)
     (currentApplicationId s) (currentPaymentId s) v
     (currentUserBadgeId s) (currentNotificationId s).
Definition set_currentUserBadgeId v (s : t) : t :=
  mk (users s) (tasks s) (applications s) (payments s) (badges s)
     (userBadges s) (notifications s) (currentUserId s) (currentTaskId s)
     (currentApplicationId s) (currentPaymentId s) (currentBadgeId s)
     v (currentNotificationId s).
Definition set_currentNotificationId v (s : t) : t :=
  mk (users s) (tasks s) (applications s) (payments s) (badges s)
     (userBadges s) (notifications s) (currentUserId s) (currentTaskId s)
     (currentApplicationId s) (currentPaymentId s) (currentBadgeId s)
     (currentUserBadgeId s) v.

(** *** User methods *)

Definition getUser (id : Z) : M t (option User.t) :=
  gets (λ s, JsMap.get (users s) id).

(** [const id = this.currentUserId++]; [skills: insertUser.skills || []]. *)
Definition createUser (now : Z) (insertUser : User.insert) : M t User.t :=
  id ← gets currentUserId;
  modify (set_currentUserId (id + 1)) ;;
  let user :=
    {| User.id := id;
       User.username := User.i_username insertUser;
       User.password := User.i_password insertUser;
       User.email := User.i_email insertUser;
       User.fullName := User.i_fullName insertUser;
       User.role := User.i_role insertUser;
       User.profilePicture := User.i_profilePicture insertUser;
       User.bio := User.i_bio insertUser;
       User.skills := Some (default [] (User.i_skills insertUser));
       User.createdAt := now |} in
  modify (λ s, set_users (JsMap.set (users s) id user) s) ;;
  ret user.

Definition updateUser (id : Z) (userData : User.partial) : M t User.t :=
  user ← getUser id;
  match user with
  | None => throw ("User with ID " +:+ pretty id +:+ " not found")
  | Some user =>
      let updatedUser := User.spread user userData in
      modify (λ s, set_users (JsMap.set (users s) id updatedUser) s) ;;
      ret updatedUser
  end.

(** *** Task methods *)

Definition getTask (id : Z) : M t (option Task.t) :=
  gets (λ s, JsMap.get (tasks s) id).

Definition createTask (now : Z) (insertTask : Task.insert) : M t Task.t :=
  id ← gets currentTaskId;
  modify (set_currentTaskId (id + 1)) ;;
  let task :=
    {| Task.id := id;
       Task.title := Task.i_title insertTask;
       Task.description := Task.i_description insertTask;
       Task.budget := Task.i_budget insertTask;
       Task.deadline := Task.i_deadline insertTask;
       Task.requiredSkills := Task.i_requiredSkills insertTask;
       Task.employerId := Task.i_employerId insertTask;
       Task.status := Task.i_status insertTask;
       Task.createdAt := now |} in
  modify (λ s, set_tasks (JsMap.set (tasks s) id task) s) ;;
  ret task.

Definition updateTask (id : Z) (taskData : Task.partial) : M t Task.t :=
  task ← getTask id;
  match task with
  | None => throw ("Task with ID " +:+ pretty id +:+ " not found")
  | Some task =>
      let updatedTask := Task.spread task taskData in
      modify (λ s, set_tasks (JsMap.set (tasks s) id updatedTask) s) ;;
      ret updatedTask
  end.

(** *** Application methods *)

Definition getApplication (id : Z) : M t (option Application.t) :=
  gets (λ s, JsMap.get (applications s) id).

Definition getApplicationsByTaskId (taskId : Z) : M t (list Application.t) :=
  gets (λ s, List.filter
               (λ application, bool_decide (Application.taskId application = taskId))
               (JsMap.values (applications s))).

Definition getApplicationByStudentAndTask (studentId taskId : Z)
    : M t (option Application.t) :=
  gets (λ s, List.find
               (λ application,
                  bool_decide (Application.studentId application = studentId)
                  && bool_decide (Application.taskId application = taskId))
               (JsMap.values (applications s))).

Definition createApplication (now : Z) (insertApplication : Application.insert)
    : M t Application.t :=
  id ← gets currentApplicationId;
  modify (set_currentApplicationId (id + 1)) ;;
  let application :=
    {| Application.id := id;
       Application.taskId := Application.i_taskId insertApplication;
       Application.studentId := Application.i_studentId insertApplication;
       Application.coverLetter := Application.i_coverLetter insertApplication;
       Application.status := Application.i_status insertApplication;
       Application.appliedAt := now |} in
  modify (λ s, set_applications (JsMap.set (applications s) id application) s) ;;
  ret application.

Definition updateApplicationStatus (id : Z) (status : string)
    : M t Application.t :=
  application ← getApplication id;
  match application with
  | None => throw ("Application with ID " +:+ pretty id +:+ " not found")
  | Some application =>
      let updatedApplication := Application.with_status application status in
      modify (λ s, set_applications
                     (JsMap.set (applications s) id updatedApplication) s) ;;
      ret updatedApplication
  end.

(** *** Payment methods *)

Definition createPayment (now : Z) (insertPayment : Payment.insert)
    : M t Payment.t :=
  id ← gets currentPaymentId;
  modify (set_currentPaymentId (id + 1)) ;;
  let payment :=
    {| Payment.id := id;
       Payment.applicationId := Payment.i_applicationId insertPayment;
       Payment.amount := Payment.i_amount insertPayment;
       Payment.status := Payment.i_status insertPayment;
       Payment.createdAt := now |} in
  modify (λ s, set_payments (JsMap.set (payments s) id payment) s) ;;
  ret payment.

(** *** Badge methods *)

Definition getBadge (id : Z) : M t (option Badge.t) :=
  gets (λ s, JsMap.get (badges s) id).

Definition createBadge (insertBadge : Badge.insert) : M t Badge.t :=
  id ← gets currentBadgeId;
  modify (set_currentBadgeId (id + 1)) ;;
  let badge :=
    {| Badge.id := id;
       Badge.name := Badge.i_name insertBadge;
       Badge.description := Badge.i_description insertBadge;
       Badge.category := Badge.i_category insertBadge;
       Badge.level := Badge.i_level insertBadge;
       Badge.icon := Badge.i_icon insertBadge |} in
  modify (λ s, set_badges (JsMap.set (badges s) id badge) s) ;;
  ret badge.

(** The predicate of the [find] in [awardBadgeToUser]. *)
Definition same_award (insertUserBadge : UserBadge.insert)
    (userBadge : UserBadge.t) : bool :=
  bool_decide (UserBadge.userId userBadge = UserBadge.i_userId insertUserBadge)
  && bool_decide (UserBadge.badgeId userBadge = UserBadge.i_badgeId insertUserBadge).

Definition awardBadgeToUser (now : Z) (insertUserBadge : UserBadge.insert)
    : M t UserBadge.t :=
  existingUserBadge ←
    gets (λ s, List.find (same_award insertUserBadge)
                 (JsMap.values (userBadges s)));
  match existingUserBadge with
  | Some existingUserBadge => ret existingUserBadge
  | None =>
      id ← gets currentUserBadgeId;
      modify (set_currentUserBadgeId (id + 1)) ;;
      let userBadge :=
        {| UserBadge.id := id;
           UserBadge.userId := UserBadge.i_userId insertUserBadge;
           UserBadge.badgeId := UserBadge.i_badgeId insertUserBadge;
           UserBadge.awardedAt := now |} in
      modify (λ s, set_userBadges (JsMap.set (userBadges s) id userBadge) s) ;;
      ret userBadge
  end.

(** *** Notification methods *)

Definition createNotification (now : Z)
    (insertNotification : Notification.insert) : M t Notification.t :=
  id ← gets currentNotificationId;
  modify (set_currentNotificationId (id + 1)) ;;
  let notification :=
    {| Notification.id := id;
       Notification.userId := Notification.i_userId insertNotification;
       Notification.type := Notification.i_type insertNotification;
       Notification.content := Notification.i_content insertNotification;
       Notification.isRead := false;
       Notification.createdAt := now;
       Notification.metadata := Notification.i_metadata insertNotification |} in
  modify (λ s, set_notifications
                 (JsMap.set (notifications s) id notification) s) ;;
  ret notification.

(** *** The constructor *)

Definition blank : t :=
  mk JsMap.empty JsMap.empty JsMap.empty JsMap.empty JsMap.empty JsMap.empty
     JsMap.empty 1 1 1 1 1 1 1.

(** [new MemStorage()]: empty maps, counters at 1, then the four badges
    of the catalogue. *)
Definition new : t :=
  snd ((createBadge (Badge.mkInsert "JavaScript" "JavaScript programming skills"
                       "skill" "beginner" "code") ;;
        createBadge (Badge.mkInsert "UI Design" "User Interface design skills"
                       "skill" "beginner" "palette") ;;
        createBadge (Badge.mkInsert "Python" "Python programming skills"
                       "skill" "beginner" "code") ;;
        createBadge (Badge.mkInsert "First Task Completed"
                       "Completed your first task" "achievement" "beginner"
                       "award")) blank).

End MemStorage.

(** ** The routes (server/routes.ts, [registerRoutes]) *)

Module Stripe.
(** What [stripe.paymentIntents.retrieve(id)] resolves to, or the message
    of the error it rejects with. *)
Inductive retrieved : Type :=
  | Intent (status : string) (amount : Z) (id : string)
  | Rejected (message : string).
End Stripe.

(** What a request sees of the world outside the store.
    - [now]: the reading of the clock ([new Date()]).
    - [notification_fault]: the routes call the store through the [IStorage]
      interface; [MemStorage.createNotification] never throws, an
      implementation that persists elsewhere can.  The predicate tells for
      which notifications the call rejects; [λ _, false] is plain
      [MemStorage].
    - [stripe]: the gateway client, [None] without [STRIPE_SECRET_KEY].
    - [number_to_string]: how a template literal prints an amount.
    - [zod_error]: the [message] of the [ZodError] that [z.enum(options)]
      raises for a [status] that is none of the options; the wording is the
      library's. *)
Record Env : Type := mkEnv {
  now : Z;
  notification_fault : Notification.insert → bool;
  stripe : option (string → Stripe.retrieved);
  number_to_string : Q → string;
  zod_error : list string → string → string
}.

(** The body given to [res.json]. *)
Inductive Json : Type :=
  | JMessage (message : string)
  | JMessageStatus (message status : string)
  | JMessageError (message error : string)
  | JUser (user : User.t)
  | JTask (task : Task.t)
  | JApplication (application : Application.t)
  | JPayment (payment : Payment.t)
  | JUserBadge (userBadge : UserBadge.t)
  | JPaymentConfirmed (success : bool) (message : string) (payment : Payment.t).

Record Response : Type := mkResponse {
  code : Z;
  json : Json
}.

(** What a handler makes of a store: the response sent and the store left. *)
Definition Handler : Type := MemStorage.t → Response * MemStorage.t.

(** The double quote inside a template literal. *)
Definition dq : string := String (Ascii.ascii_of_nat 34) EmptyString.

Section Routes.
Variable env : Env.

(** [storage.createNotification] as the routes reach it.  With
    [notification_fault env = λ _, false] this is
    [MemStorage.createNotification], which always returns; the failing
    branch is there for statements that are to hold of any store behind
    [IStorage], and no statement about the store of the repository rests
    on it. *)
Definition storage_createNotification (insertNotification : Notification.insert)
    : M MemStorage.t Notification.t :=
  if notification_fault env insertNotification
  then throw "Failed to create notification"
  else MemStorage.createNotification (now env) insertNotification.

(** The outer [try { ... } catch (error) { res.status(500)... }] of a
    handler. *)
Definition route (body : M MemStorage.t Response) (failure : string → Response)
    : Handler :=
  λ s, match body s with
       | (Ret response, s') => (response, s')
       | (Throw e, s') => (failure e, s')
       end.

Definition respond (code : Z) (message : string) : M MemStorage.t Response :=
  ret (mkResponse code (JMessage message)).

(** The middleware; [caller] is [req.user] when [req.isAuthenticated()]. *)
Definition requireAuth (caller : option User.t) (next : User.t → Handler)
    : Handler :=
  match caller with
  | None => λ s, (mkResponse 401 (JMessage "Unauthorized"), s)
  | Some user => next user
  end.

Definition requireRole (roles : list string) (caller : option User.t)
    (next : User.t → Handler) : Handler :=
  match caller with
  | None => λ s, (mkResponse 401 (JMessage "Unauthorized"), s)
  | Some user =>
      if bool_decide (User.role user ∈ roles) then next user
      else λ s, (mkResponse 403 (JMessage "Forbidden"), s)
  end.

(** [task.employerId !== req.user!.id && req.user!.role !== 'admin']. *)
Definition neither_owner_nor_admin (task : Task.t) (user : User.t) : bool :=
  bool_decide (Task.employerId task ≠ User.id user)
  && bool_decide (User.role user ≠ "admin").

(** *** PATCH /api/users/:id *)
Definition patch_user (caller : option User.t) (userId : Z)
    (body : User.partial) : Handler :=
  requireAuth caller (λ user,
    route
      (if bool_decide (User.id user ≠ userId)
          && bool_decide (User.role user ≠ "admin")
       then respond 403 "Forbidden"
       else
         updatedUser ← MemStorage.updateUser userId body;
         ret (mkResponse 200 (JUser updatedUser)))
      (λ _, mkResponse 500 (JMessage "Failed to update user"))).

(** *** POST /api/tasks *)

(** The body of the request: [deadline] is [None] when [new Date(...)] of
    the field gives an invalid date. *)
Record TaskBody : Type := mkTaskBody {
  tb_title : string;
  tb_description : string;
  tb_budget : Q;
  tb_deadline : option Z;
  tb_requiredSkills : list string;
  tb_employerId : Z;
  tb_status : string
}.

(** [insertTaskSchema.parse]. *)
Definition parse_task_status (status : string) : bool :=
  bool_decide (status ∈ ["open"; "in-progress"; "completed"]).

Definition post_task (caller : option User.t) (body : TaskBody) : Handler :=
  requireRole ["employer"; "admin"] caller (λ user,
    route
      (match tb_deadline body with
       | None => respond 400 "Invalid deadline date format"
       | Some deadline =>
           if negb (parse_task_status (tb_status body))
           then respond 400
                  (zod_error env ["open"; "in-progress"; "completed"]
                     (tb_status body))
           else
             let taskData :=
               Task.mkInsert (tb_title body) (tb_description body)
                 (tb_budget body) deadline (tb_requiredSkills body)
                 (User.id user) (tb_status body) in
             newTask ← MemStorage.createTask (now env) taskData;
             ret (mkResponse 201 (JTask newTask))
       end)
      (λ _, mkResponse 500 (JMessage "Failed to create task"))).

(** *** PATCH /api/tasks/:id *)
Definition patch_task (caller : option User.t) (taskId : Z)
    (body : Task.partial) : Handler :=
  requireRole ["employer"; "admin"] caller (λ user,
    route
      (task ← MemStorage.getTask taskId;
       match task with
       | None => respond 404 "Task not found"
       | Some task =>
           if neither_owner_nor_admin task user
           then respond 403 "Forbidden"
           else
             updatedTask ← MemStorage.updateTask taskId body;
             ret (mkResponse 200 (JTask updatedTask))
       end)
      (λ _, mkResponse 500 (JMessage "Failed to update task"))).

(** *** POST /api/applications *)

(** [insertApplicationSchema.parse]. *)
Definition parse_application_status (status : string) : bool :=
  bool_decide (status ∈ ["applied"; "accepted"; "rejected"]).

Definition post_application (caller : option User.t)
    (body : Application.insert) : Handler :=
  requireRole ["student"] caller (λ user,
    route
      (if negb (parse_application_status (Application.i_status body))
       then respond 400
              (zod_error env ["applied"; "accepted"; "rejected"]
                 (Application.i_status body))
       else
         existing ← MemStorage.getApplicationByStudentAndTask
                      (User.id user) (Application.i_taskId body);
         match existing with
         | Some _ => respond 400 "You have already applied to this task"
         | None =>
             let applicationData :=
               Application.mkInsert (Application.i_taskId body) (User.id user)
                 (Application.i_coverLetter body) (Application.i_status body) in
             newApplication ← MemStorage.createApplication (now env) applicationData;
             task ← MemStorage.getTask (Application.i_taskId body);
             match task with
             | Some task =>
                 storage_createNotification
                   (Notification.mkInsert (Task.employerId task) "new_application"
                      ("New application received for " +:+ dq +:+ Task.title task +:+ dq)
                      [("taskId", JNum (Task.id task));
                       ("applicationId", JNum (Application.id newApplication))]) ;;
                 ret tt
             | None => ret tt
             end ;;
             ret (mkResponse 201 (JApplication newApplication))
         end)
      (λ _, mkResponse 500 (JMessage "Failed to create application"))).

(** *** PATCH /api/applications/:id/status *)

(** The loop over [otherApplications]. *)
Fixpoint reject_others (task : Task.t) (applicationId : Z)
    (otherApplications : list Application.t) : M MemStorage.t unit :=
  match otherApplications with
  | [] => ret tt
  | app :: rest =>
      (if bool_decide (Application.id app ≠ applicationId)
          && bool_decide (Application.status app = "applied")
       then
         MemStorage.updateApplicationStatus (Application.id app) "rejected" ;;
         storage_createNotification
           (Notification.mkInsert (Application.studentId app) "application_rejected"
              ("Your application for " +:+ dq +:+ Task.title task +:+ dq
               +:+ " has been rejected")
              [("taskId", JNum (Task.id task));
               ("applicationId", JNum (Application.id app))]) ;;
         ret tt
       else ret tt) ;;
      reject_others task applicationId rest
  end.

Definition patch_application_status (caller : option User.t)
    (applicationId : Z) (status : string) : Handler :=
  requireRole ["employer"; "admin"] caller (λ user,
    route
      (if negb (bool_decide (status ∈ ["applied"; "accepted"; "rejected"]))
       then respond 400 "Invalid status"
       else
         application ← MemStorage.getApplication applicationId;
         match application with
         | None => respond 404 "Application not found"
         | Some application =>
             task ← MemStorage.getTask (Application.taskId application);
             match task with
             | None => respond 404 "Task not found"
             | Some task =>
                 if neither_owner_nor_admin task user
                 then respond 403 "Forbidden"
                 else
                   updatedApplication ←
                     MemStorage.updateApplicationStatus applicationId status;
                   (if bool_decide (status = "accepted")
                    then
                      MemStorage.updateTask (Task.id task)
                        (Task.only_status "in-progress") ;;
                      otherApplications ←
                        MemStorage.getApplicationsByTaskId (Task.id task);
                      reject_others task applicationId otherApplications
                    else ret tt) ;;
                   storage_createNotification
                     (Notification.mkInsert (Application.studentId application)
                        ("application_" +:+ status)
                        ("Your application for " +:+ dq +:+ Task.title task +:+ dq
                         +:+ " has been " +:+ status)
                        [("taskId", JNum (Task.id task));
                         ("applicationId", JNum (Application.id application))]) ;;
                   ret (mkResponse 200 (JApplication updatedApplication))
             end
         end)
      (λ _, mkResponse 500 (JMessage "Failed to update application status"))).

(** *** POST /api/payments (the legacy path) *)

(** [insertPaymentSchema.parse]. *)
Definition parse_payment_status (status : string) : bool :=
  bool_decide (status ∈ ["pending"; "completed"]).

Definition post_payment (caller : option User.t) (body : Payment.insert)
    : Handler :=
  requireRole ["employer"; "admin"] caller (λ user,
    route
      (if negb (parse_payment_status (Payment.i_status body))
       then respond 400
              (zod_error env ["pending"; "completed"] (Payment.i_status body))
       else
         let applicationId := Payment.i_applicationId body in
         application ← MemStorage.getApplication applicationId;
         match application with
         | None => respond 404 "Application not found"
         | Some application =>
             task ← MemStorage.getTask (Application.taskId application);
             match task with
             | None => respond 404 "Task not found"
             | Some task =>
                 if neither_owner_nor_admin task user
                 then respond 403 "Forbidden"
                 else if bool_decide (Task.status task ≠ "in-progress")
                 then respond 400
                        "Cannot mark payment for a task that is not in progress"
                 else
                   let paymentData := body in
                   newPayment ← MemStorage.createPayment (now env) paymentData;
                   MemStorage.updateTask (Task.id task)
                     (Task.only_status "completed") ;;
                   storage_createNotification
                     (Notification.mkInsert (Application.studentId application)
                        "payment_completed"
                        ("Payment of ₹" +:+ number_to_string env (Payment.i_amount body)
                         +:+ " received for " +:+ dq +:+ Task.title task +:+ dq)
                        [("taskId", JNum (Task.id task));
                         ("applicationId", JNum applicationId);
                         ("paymentId", JNum (Payment.id newPayment))]) ;;
                   ret (mkResponse 201 (JPayment newPayment))
             end
         end)
      (λ _, mkResponse 500 (JMessage "Failed to create payment"))).

(** *** POST /api/badges/award *)
Definition post_badge_award (caller : option User.t) (body : UserBadge.insert)
    : Handler :=
  requireRole ["admin"] caller (λ user,
    route
      (newUserBadge ← MemStorage.awardBadgeToUser (now env) body;
       badge ← MemStorage.getBadge (UserBadge.i_badgeId body);
       match badge with
       | Some badge =>
           storage_createNotification
             (Notification.mkInsert (UserBadge.i_userId body) "badge_awarded"
                ("You've been awarded the " +:+ dq +:+ Badge.name badge +:+ dq
                 +:+ " badge!")
                [("badgeId", JNum (Badge.id badge))]) ;;
           ret tt
       | None => ret tt
       end ;;
       ret (mkResponse 201 (JUserBadge newUserBadge)))
      (λ _, mkResponse 500 (JMessage "Failed to award badge"))).

(** *** POST /api/payment-confirm (the primary path) *)

(** The fields the handler reads off [req.body].  [applicationId] is the
    field when it is a number, as the payment dialog of the dashboard sends
    it, and [None] when the field is absent: [!applicationId] then holds
    of the absent field and of 0, and [parseInt] gives the number back.  A
    field sent as text, as the payment-success page sends it, is outside
    the model.  [paymentIntentId] is [None] when absent. *)
Record ConfirmBody : Type := mkConfirmBody {
  cb_applicationId : option Z;
  cb_amount : Q;
  cb_simulatedPayment : bool;
  cb_paymentIntentId : option string
}.

(** [!applicationId], for a field that is absent or a number. *)
Definition missing_applicationId (body : ConfirmBody) : bool :=
  match cb_applicationId body with
  | None => true
  | Some n => bool_decide (n = 0)
  end.

(** What the block [if (paymentIntentId && stripe) { try ... catch ... }]
    ends in. *)
Inductive verification : Type :=
  | Proceed (paymentAmount : Q) (paymentReference : string)
  | NotCompleted (status : string)
  | Rethrown (message : string).

Definition verify_payment (body : ConfirmBody) : verification :=
  let paymentAmount := cb_amount body in
  let paymentReference := "simulated-payment" in
  match cb_paymentIntentId body, stripe env with
  | Some paymentIntentId, Some retrieve =>
      if bool_decide (paymentIntentId = "")
      then Proceed paymentAmount paymentReference
      else
        match retrieve paymentIntentId with
        | Stripe.Intent status amount id =>
            if bool_decide (status ≠ "succeeded") then NotCompleted status
            else Proceed (inject_Z amount / 100)%Q id
        | Stripe.Rejected message =>
            if negb (cb_simulatedPayment body) then Rethrown message
            else Proceed paymentAmount paymentReference
        end
  | _, _ => Proceed paymentAmount paymentReference
  end.

Definition post_payment_confirm (caller : option User.t) (body : ConfirmBody)
    : Handler :=
  requireAuth caller (λ user,
    route
      (if missing_applicationId body
       then respond 400 "Application ID is required"
       else
         let appId := default 0 (cb_applicationId body) in
         application ← MemStorage.getApplication appId;
         match application with
         | None => respond 404 "Application not found"
         | Some application =>
             task ← MemStorage.getTask (Application.taskId application);
             match task with
             | None => respond 404 "Task not found"
             | Some task =>
                 match verify_payment body with
                 | NotCompleted status =>
                     ret (mkResponse 400
                            (JMessageStatus "Payment has not been completed" status))
                 | Rethrown message => throw message
                 | Proceed paymentAmount paymentReference =>
                     newPayment ← MemStorage.createPayment (now env)
                                    (Payment.mkInsert appId paymentAmount "completed");
                     MemStorage.updateTask (Task.id task)
                       (Task.only_status "completed") ;;
                     storage_createNotification
                       (Notification.mkInsert (Application.studentId application)
                          "payment_completed"
                          ("Payment of ₹" +:+ number_to_string env paymentAmount
                           +:+ " received for " +:+ dq +:+ Task.title task +:+ dq)
                          [("taskId", JNum (Task.id task));
                           ("applicationId", JNum appId);
                           ("paymentId", JNum (Payment.id newPayment));
                           ("referenceId", JStr paymentReference)]) ;;
                     ret (mkResponse 200
                            (JPaymentConfirmed true "Payment confirmed and recorded"
                               newPayment))
                 end
             end
         end)
      (λ e, mkResponse 500 (JMessageError "Error confirming payment" e))).
End Routes.

(** ** Requests and runs *)

(** A request to one of the routes above, with the caller the session
    attaches to it.  The routes left out read the store, or write only its
    messages, badges, reports and notifications. *)
Inductive Call : Type :=
  | PatchUser (caller : option User.t) (userId : Z) (body : User.partial)
  | PostTask (caller : option User.t) (body : TaskBody)
  | PatchTask (caller : option User.t) (taskId : Z) (body : Task.partial)
  | PostApplication (caller : option User.t) (body : Application.insert)
  | PatchApplicationStatus (caller : option User.t) (applicationId : Z)
      (status : string)
  | PostPayment (caller : option User.t) (body : Payment.insert)
  | PostBadgeAward (caller : option User.t) (body : UserBadge.insert)
  | PostPaymentConfirm (caller : option User.t) (body : ConfirmBody).

Definition handle (env : Env) (call : Call) : Handler :=
  match call with
  | PatchUser caller userId body => patch_user caller userId body
  | PostTask caller body => post_task env caller body
  | PatchTask caller taskId body => patch_task caller taskId body
  | PostApplication caller body => post_application env caller body
  | PatchApplicationStatus caller applicationId status =>
      patch_application_status env caller applicationId status
  | PostPayment caller body => post_payment env caller body
  | PostBadgeAward caller body => post_badge_award env caller body
  | PostPaymentConfirm caller body => post_payment_confirm env caller body
  end.

(** The store after a sequence of requests, each with its environment. *)
Fixpoint run (calls : list (Env * Call)) (s : MemStorage.t) : MemStorage.t :=
  match calls with
  | [] => s
  | (env, call) :: calls => run calls (snd (handle env call s))
  end.

(** ** The chat relay ([io.on('connection', ...)] in [registerRoutes])

    The handlers are the repository's; [join], [emit] and [to_room_emit] stand
    for the Socket.IO calls they make ([socket.join], [socket.emit],
    [socket.to(room).emit]), with the behaviour the library documents: a room
    is a set of connections, and a broadcast from a socket reaches every
    connection of the room but that socket. *)

Module Message.
Record t : Type := mk {
  id : Z;
  applicationId : Z;
  senderId : Z;
  receiverId : Z;
  content : string;
  createdAt : Z;
  isRead : bool
}.
End Message.

Module Relay.

(** The two [TypeError]s the handler of [send_message] can catch: the
    payload cannot be destructured, or [message.id] is read off a message
    that is [null] or [undefined].  The [message] of the error is the
    engine's text, which is never empty, so that [error.message ||
    'Unknown error'] is that text; the model records which error it is. *)
Inductive TypeError : Type :=
  | payload_not_destructurable
  | message_without_id.

(** What the server emits to a client. *)
Inductive Event : Type :=
  | room_joined (room : string) (success : bool) (timestamp : Z)
  | receive_message (message : option Message.t)
  | message_sent (success : bool) (messageId : Z) (timestamp : Z)
  | message_error (error : TypeError) (timestamp : Z).

(** The rooms of the adapter and, for each connection (named by its
    [socket.id]), the events sent to it so far, oldest first. *)
Record t : Type := mk {
  rooms : gmap string (gset string);
  outbox : gmap string (list Event)
}.

Definition empty : t := mk ∅ ∅.

Definition members (st : t) (room : string) : gset string :=
  default ∅ (rooms st !! room).

Definition received (st : t) (socket : string) : list Event :=
  default [] (outbox st !! socket).

(** [socket.emit(event)]. *)
Definition emit (socket : string) (event : Event) (st : t) : t :=
  mk (rooms st) (<[socket := received st socket ++ [event]]> (outbox st)).

(** [socket.join(room)]. *)
Definition join (socket room : string) (st : t) : t :=
  mk (<[room := {[socket]} ∪ members st room]> (rooms st)) (outbox st).

(** The adapter's loop over the connections of a room, skipping the
    excepted one. *)
Fixpoint emit_each (except : string) (event : Event) (sockets : list string)
    (st : t) : t :=
  match sockets with
  | [] => st
  | id :: sockets =>
      emit_each except event sockets
        (if bool_decide (id = except) then st else emit id event st)
  end.

(** [socket.to(room).emit(event)]. *)
Definition to_room_emit (socket room : string) (event : Event) (st : t) : t :=
  emit_each socket event (elements (members st room)) st.

(** [`application_${applicationId}`].  [applicationId] is the text the
    template literal makes of the value the client sent: ["7"] for the
    number 7 and for the string "7" alike. *)
Definition roomName (applicationId : string) : string :=
  "application_" +:+ applicationId.

(** [socket.on('join_application', ...)]. *)
Definition join_application (now : Z) (socket : string) (applicationId : string)
    (st : t) : t :=
  emit socket (room_joined (roomName applicationId) true now)
    (join socket (roomName applicationId) st).

(** The payload of [send_message]: [applicationId] as the template literal
    prints it, and [message], [None] for [null] or [undefined]. *)
Record SendData : Type := mkSendData {
  applicationId : string;
  message : option Message.t
}.

(** [socket.on('send_message', ...)]; [data] is [None] for a payload that
    cannot be destructured.  Reading [message.id] off a missing message
    throws after the broadcast has gone out. *)
Definition send_message (now : Z) (socket : string) (data : option SendData)
    (st : t) : t :=
  match data with
  | None => emit socket (message_error payload_not_destructurable now) st
  | Some data =>
      let st := to_room_emit socket (roomName (applicationId data))
                  (receive_message (message data)) st in
      match message data with
      | Some message => emit socket (message_sent true (Message.id message) now) st
      | None => emit socket (message_error message_without_id now) st
      end
  end.

End Relay.

(** ** A small marketplace

    Three students and an employer; the employer posts a task, two of the
    students apply, and the employer accepts the first application. *)

Module Sample.

Definition env0 : Env :=
  mkEnv 1000 (λ _, false) None (λ _, "5000") (λ _ _, "Invalid enum value").

(** An environment in which every notification fails to be stored. *)
Definition env_faulty : Env :=
  mkEnv 1000 (λ _, true) None (λ _, "5000") (λ _ _, "Invalid enum value").

(** An environment with a gateway that knows no succeeded intent. *)
Definition env_gateway : Env :=
  mkEnv 1000 (λ _, false)
    (Some (λ id, Stripe.Intent "requires_payment_method" 500000 id))
    (λ _, "5000") (λ _ _, "Invalid enum value").

Definition alice : User.t :=
  User.mk 1 "alice" "secret" "alice@example.org" "Alice" "student" None None
    (Some []) 0.
Definition bob : User.t :=
  User.mk 2 "bob" "secret" "bob@example.org" "Bob" "employer" None None
    (Some []) 0.
Definition carol : User.t :=
  User.mk 3 "carol" "secret" "carol@example.org" "Carol" "student" None None
    (Some []) 0.
Definition mallory : User.t :=
  User.mk 4 "mallory" "secret" "mallory@example.org" "Mallory" "student" None
    None (Some []) 0.

Definition register (user : User.t) : M MemStorage.t User.t :=
  MemStorage.createUser 0
    (User.mkInsert (User.username user) (User.password user) (User.email user)
       (User.fullName user) (User.role user) None None None).

(** The store once the four have registered. *)
Definition registered : MemStorage.t :=
  snd ((register alice ;; register bob ;; register carol ;; register mallory)
         MemStorage.new).

Definition website : TaskBody :=
  mkTaskBody "Website" "Build the website of the chess club."
    (inject_Z 5000) (Some 604800000) ["JavaScript"] 0 "open".

Definition apply_to (taskId : Z) : Application.insert :=
  Application.mkInsert taskId 0 "I have built three websites like this one."
    "applied".

(** The task is open and has two applications in status applied. *)
Definition posted : MemStorage.t :=
  run [(env0, PostTask (Some bob) website);
       (env0, PostApplication (Some alice) (apply_to 1));
       (env0, PostApplication (Some carol) (apply_to 1))] registered.

(** The task and the two applications as [posted] holds them. *)
Definition website_task : Task.t :=
  Task.mk 1 "Website" "Build the website of the chess club." (inject_Z 5000)
    604800000 ["JavaScript"] 2 "open" 1000.
Definition alice_application : Application.t :=
  Application.mk 1 1 1 "I have built three websites like this one." "applied" 1000.
Definition carol_application : Application.t :=
  Application.mk 2 1 3 "I have built three websites like this one." "applied" 1000.

(** The employer has accepted the first application. *)
Definition accepted : MemStorage.t :=
  run [(env0, PatchApplicationStatus (Some bob) 1 "accepted")] posted.

End Sample.

(** ** Vocabulary of the properties *)

Module Notions.
Import MemStorage.

(** The entities the [create...] methods make of their argument in [s],
    and the store [createNotification] leaves. *)
Definition new_application (now : Z) (ins : Application.insert)
    (s : MemStorage.t) : Application.t :=
  Application.mk (currentApplicationId s) (Application.i_taskId ins)
    (Application.i_studentId ins) (Application.i_coverLetter ins)
    (Application.i_status ins) now.

Definition new_payment (now : Z) (ins : Payment.insert) (s : MemStorage.t)
    : Payment.t :=
  Payment.mk (currentPaymentId s) (Payment.i_applicationId ins)
    (Payment.i_amount ins) (Payment.i_status ins) now.

Definition new_notification (now : Z) (ins : Notification.insert)
    (s : MemStorage.t) : Notification.t :=
  Notification.mk (currentNotificationId s) (Notification.i_userId ins)
    (Notification.i_type ins) (Notification.i_content ins) false now
    (Notification.i_metadata ins).

Definition new_userBadge (now : Z) (ins : UserBadge.insert) (s : MemStorage.t)
    : UserBadge.t :=
  UserBadge.mk (currentUserBadgeId s) (UserBadge.i_userId ins)
    (UserBadge.i_badgeId ins) now.

Definition notified (now : Z) (ins : Notification.insert) (s : MemStorage.t)
    : MemStorage.t :=
  set_notifications
    (JsMap.set (notifications s) (currentNotificationId s)
       (new_notification now ins s))
    (set_currentNotificationId (currentNotificationId s + 1) s).

(** The [find] predicate of [getApplicationByStudentAndTask]. *)
Definition same_pair (studentId taskId : Z) (application : Application.t) : bool :=
  bool_decide (Application.studentId application = studentId)
  && bool_decide (Application.taskId application = taskId).

(** The applications of a student for a task that the store holds. *)
Definition applications_of (s : MemStorage.t) (studentId taskId : Z)
    : list Application.t :=
  List.filter (same_pair studentId taskId) (JsMap.values (applications s)).

(** The student has an application for the task in the store. *)
Definition has_applied (s : MemStorage.t) (studentId taskId : Z) : Prop :=
  ∃ a, a ∈ JsMap.values (applications s)
       ∧ Application.studentId a = studentId ∧ Application.taskId a = taskId.

(** Every application is filed under its own id. *)
Definition filed_under_id (m : JsMap.t Application.t) : bool :=
  forallb (λ entry, bool_decide (Application.id (snd entry) = fst entry)) m.

(** The applications map is a well-formed [Map] of applications: distinct
    keys, each application under its id.  Every store the routes reach is
    such ([run_applications_ok]). *)
Definition applications_ok (s : MemStorage.t) : bool :=
  JsMap.distinct_keys (applications s) && filed_under_id (applications s).

(** What the routes maintain on the applications: a well-formed map, keys
    below the counter, and at most one application per student and task. *)
Definition applications_inv (s : MemStorage.t) : Prop :=
  applications_ok s = true
  ∧ (∀ k, k ∈ JsMap.keys (applications s) → k < currentApplicationId s)
  ∧ (∀ studentId taskId,
       (length (applications_of s studentId taskId) ≤ 1)%nat).

(** The loop of the cascade rejects the application under key [k]. *)
Definition cascaded (applicationId : Z) (others : list Application.t) (k : Z)
    : bool :=
  existsb (λ app, bool_decide (Application.id app = k)
                  && (bool_decide (Application.id app ≠ applicationId)
                      && bool_decide (Application.status app = "applied")))
          others.

(** A computation, or a handler, keeps a property of the store, whether it
    returns or throws. *)
Definition preserves {A} (P : MemStorage.t → Prop) (m : M MemStorage.t A) : Prop :=
  ∀ s, P s → P (snd (m s)).

Definition keeps (P : MemStorage.t → Prop) (h : Handler) : Prop :=
  ∀ s, P s → P (snd (h s)).

(** The associations of a user with a badge that the store holds. *)
Definition awards_of (s : MemStorage.t) (userId badgeId : Z) : list UserBadge.t :=
  List.filter (same_award (UserBadge.mkInsert userId badgeId))
    (JsMap.values (userBadges s)).

(** A sequence of awards, each with the reading of the clock at its time. *)
Fixpoint award_all (awards : list (Z * UserBadge.insert)) (s : MemStorage.t)
    : MemStorage.t :=
  match awards with
  | [] => s
  | (now, insertUserBadge) :: awards =>
      award_all awards (snd (awardBadgeToUser now insertUserBadge s))
  end.

(** The (user, badge) pair of an award. *)
Definition award_pair (award : Z * UserBadge.insert) : Z * Z :=
  (UserBadge.i_userId (snd award), UserBadge.i_badgeId (snd award)).

(** The keys of the associations are below the counter, and no pair is held
    twice. *)
Definition awards_inv (s : MemStorage.t) : Prop :=
  (∀ k, k ∈ JsMap.keys (userBadges s) → k < currentUserBadgeId s)
  ∧ (∀ userId badgeId, (length (awards_of s userId badgeId) ≤ 1)%nat).

(** A property of the users map, as a property of the store. *)
Definition on_users (Q : JsMap.t User.t → Prop) (s : MemStorage.t) : Prop :=
  Q (users s).

(** The user under key [k] has the id and the role given. *)
Definition has_id_role (k id : Z) (role : string) (m : JsMap.t User.t) : Prop :=
  ∃ u, JsMap.get m k = Some u ∧ User.id u = id ∧ User.role u = role.

(** The request is no user update whose body carries an [id] or a [role]
    field. *)
Definition no_id_role (call : Call) : bool :=
  match call with
  | PatchUser _ _ body =>
      bool_decide (User.p_id body = None) && bool_decide (User.p_role body = None)
  | _ => true
  end.

End Notions.

(** ** The rest of the store: messages, reports and the reading methods

    [MemStorage.t] above holds seven of the nine maps of the class;
    [Store.t] adds the maps of messages and reports with their counters.
    A method that touches neither runs on [MemStorage.t] and is lifted by
    [Store.on_core]. *)

Module Report.
Record t : Type := mk {
  id : Z;
  reportedUserId : option Z;
  reportedTaskId : option Z;
  reporterId : Z;
  reason : string;
  status : string;
  createdAt : Z
}.

(** [InsertReport]: the schema omits [id] and [createdAt]; the two reported
    ids are nullable. *)
Record insert : Type := mkInsert {
  i_reportedUserId : option Z;
  i_reportedTaskId : option Z;
  i_reporterId : Z;
  i_reason : string;
  i_status : string
}.

(** [{ ...report, status }]. *)
Definition with_status (report : t) (st : string) : t :=
  {| id := id report;
     reportedUserId := reportedUserId report;
     reportedTaskId := reportedTaskId report;
     reporterId := reporterId report;
     reason := reason report;
     status := st;
     createdAt := createdAt report |}.
End Report.

(** [InsertMessage]: the schema omits [id], [createdAt] and [isRead]. *)
Record InsertMessage : Type := mkInsertMessage {
  m_applicationId : Z;
  m_senderId : Z;
  m_receiverId : Z;
  m_content : string
}.

(** [{ ...message, isRead: true }]. *)
Definition message_read (message : Message.t) : Message.t :=
  {| Message.id := Message.id message;
     Message.applicationId := Message.applicationId message;
     Message.senderId := Message.senderId message;
     Message.receiverId := Message.receiverId message;
     Message.content := Message.content message;
     Message.createdAt := Message.createdAt message;
     Message.isRead := true |}.

(** [{ ...notification, isRead: true }]. *)
Definition notification_read (notification : Notification.t) : Notification.t :=
  {| Notification.id := Notification.id notification;
     Notification.userId := Notification.userId notification;
     Notification.type := Notification.type notification;
     Notification.content := Notification.content notification;
     Notification.isRead := true;
     Notification.createdAt := Notification.createdAt notification;
     Notification.metadata := Notification.metadata notification |}.

(** [Array.prototype.sort(compareFn)].  The sort is stable and puts [a]
    before [b] when [compareFn(a, b)] is negative; for a comparator that
    orders by a key, as the two of the store do, that is insertion of each
    element, from the last to the first, before the first element it does
    not exceed. *)
Section Sort.
Context {A : Type} (compareFn : A → A → Z).

Fixpoint sort_insert (a : A) (sorted : list A) : list A :=
  match sorted with
  | [] => [a]
  | b :: rest =>
      if bool_decide (compareFn a b ≤ 0) then a :: sorted
      else b :: sort_insert a rest
  end.

Definition js_sort (l : list A) : list A := foldr sort_insert [] l.
End Sort.

Module Store.

Record t : Type := mk {
  core : MemStorage.t;
  messages : JsMap.t Message.t;
  reports : JsMap.t Report.t;
  currentMessageId : Z;
  currentReportId : Z
}.

Definition set_core v (s : t) : t :=
  mk v (messages s) (reports s) (currentMessageId s) (currentReportId s).
Definition set_messages v (s : t) : t :=
  mk (core s) v (reports s) (currentMessageId s) (currentReportId s).
Definition set_reports v (s : t) : t :=
  mk (core s) (messages s) v (currentMessageId s) (currentReportId s).
Definition set_currentMessageId v (s : t) : t :=
  mk (core s) (messages s) (reports s) v (currentReportId s).
Definition set_currentReportId v (s : t) : t :=
  mk (core s) (messages s) (reports s) (currentMessageId s) v.

(** A method of the seven maps, run on the whole store. *)
Definition on_core {A} (m : M MemStorage.t A) : M t A :=
  λ s, match m (core s) with
       | (result, c) => (result, set_core c s)
       end.

(** [new MemStorage()]. *)
Definition new : t := mk MemStorage.new JsMap.empty JsMap.empty 1 1.

(** *** User methods *)

Section Case.
(** [String.prototype.toLowerCase]. *)
Variable toLowerCase : string → string.

Definition getUserByUsername (username : string)
    : M MemStorage.t (option User.t) :=
  gets (λ s, List.find
               (λ user, bool_decide (toLowerCase (User.username user)
                                     = toLowerCase username))
               (JsMap.values (MemStorage.users s))).

Definition getUserByEmail (email : string) : M MemStorage.t (option User.t) :=
  gets (λ s, List.find
               (λ user, bool_decide (toLowerCase (User.email user)
                                     = toLowerCase email))
               (JsMap.values (MemStorage.users s))).
End Case.

Definition getUsersByRole (role : string) : M MemStorage.t (list User.t) :=
  gets (λ s, List.filter (λ user, bool_decide (User.role user = role))
               (JsMap.values (MemStorage.users s))).

Definition getAllUsers : M MemStorage.t (list User.t) :=
  gets (λ s, JsMap.values (MemStorage.users s)).

(** *** Task methods *)

Definition getAllTasks : M MemStorage.t (list Task.t) :=
  gets (λ s, JsMap.values (MemStorage.tasks s)).

Definition getTasksByEmployerId (employerId : Z) : M MemStorage.t (list Task.t) :=
  gets (λ s, List.filter (λ task, bool_decide (Task.employerId task = employerId))
               (JsMap.values (MemStorage.tasks s))).

(** *** Application methods *)

Definition getApplicationsByStudentId (studentId : Z)
    : M MemStorage.t (list Application.t) :=
  gets (λ s, List.filter
               (λ application,
                  bool_decide (Application.studentId application = studentId))
               (JsMap.values (MemStorage.applications s))).

(** *** Message methods *)

Definition getMessage (id : Z) : M t (option Message.t) :=
  gets (λ s, JsMap.get (messages s) id).

Definition getMessagesByApplicationId (applicationId : Z)
    : M t (list Message.t) :=
  gets (λ s, js_sort (λ a b, Message.createdAt a - Message.createdAt b)
               (List.filter
                  (λ message,
                     bool_decide (Message.applicationId message = applicationId))
                  (JsMap.values (messages s)))).

Definition createMessage (now : Z) (insertMessage : InsertMessage)
    : M t Message.t :=
  id ← gets currentMessageId;
  modify (set_currentMessageId (id + 1)) ;;
  let message :=
    {| Message.id := id;
       Message.applicationId := m_applicationId insertMessage;
       Message.senderId := m_senderId insertMessage;
       Message.receiverId := m_receiverId insertMessage;
       Message.content := m_content insertMessage;
       Message.createdAt := now;
       Message.isRead := false |} in
  modify (λ s, set_messages (JsMap.set (messages s) id message) s) ;;
  ret message.

Definition markMessageAsRead (id : Z) : M t Message.t :=
  message ← getMessage id;
  match message with
  | None => throw ("Message with ID " +:+ pretty id +:+ " not found")
  | Some message =>
      let updatedMessage := message_read message in
      modify (λ s, set_messages (JsMap.set (messages s) id updatedMessage) s) ;;
      ret updatedMessage
  end.

(** *** Payment methods *)

Definition getPayment (id : Z) : M MemStorage.t (option Payment.t) :=
  gets (λ s, JsMap.get (MemStorage.payments s) id).

Definition getPaymentsByApplicationId (applicationId : Z)
    : M MemStorage.t (list Payment.t) :=
  gets (λ s, List.filter
               (λ payment, bool_decide (Payment.applicationId payment = applicationId))
               (JsMap.values (MemStorage.payments s))).

(** *** Badge methods *)

Definition getAllBadges : M MemStorage.t (list Badge.t) :=
  gets (λ s, JsMap.values (MemStorage.badges s)).

(** A badge with the date of its award, [Badge & { awardedAt: Date }], is
    the pair of the two.  The loop pushes an entry for each association
    whose badge the catalogue holds and skips the others. *)
Definition getUserBadges (userId : Z) : M MemStorage.t (list (Badge.t * Z)) :=
  gets (λ s,
    let userBadgesIds :=
      map (λ userBadge, (UserBadge.badgeId userBadge, UserBadge.awardedAt userBadge))
        (List.filter (λ userBadge, bool_decide (UserBadge.userId userBadge = userId))
           (JsMap.values (MemStorage.userBadges s))) in
    omap (λ '(badgeId, awardedAt),
            match JsMap.get (MemStorage.badges s) badgeId with
            | Some badge => Some (badge, awardedAt)
            | None => None
            end)
      userBadgesIds).

(** *** Report methods *)

Definition getReport (id : Z) : M t (option Report.t) :=
  gets (λ s, JsMap.get (reports s) id).

Definition getAllReports : M t (list Report.t) :=
  gets (λ s, JsMap.values (reports s)).

Definition createReport (now : Z) (insertReport : Report.insert)
    : M t Report.t :=
  id ← gets currentReportId;
  modify (set_currentReportId (id + 1)) ;;
  let report :=
    {| Report.id := id;
       Report.reportedUserId := Report.i_reportedUserId insertReport;
       Report.reportedTaskId := Report.i_reportedTaskId insertReport;
       Report.reporterId := Report.i_reporterId insertReport;
       Report.reason := Report.i_reason insertReport;
       Report.status := Report.i_status insertReport;
       Report.createdAt := now |} in
  modify (λ s, set_reports (JsMap.set (reports s) id report) s) ;;
  ret report.

Definition updateReportStatus (id : Z) (status : string) : M t Report.t :=
  report ← getReport id;
  match report with
  | None => throw ("Report with ID " +:+ pretty id +:+ " not found")
  | Some report =>
      let updatedReport := Report.with_status report status in
      modify (λ s, set_reports (JsMap.set (reports s) id updatedReport) s) ;;
      ret updatedReport
  end.

(** *** Notification methods *)

Definition getNotification (id : Z) : M MemStorage.t (option Notification.t) :=
  gets (λ s, JsMap.get (MemStorage.notifications s) id).

Definition getNotificationsByUserId (userId : Z)
    : M MemStorage.t (list Notification.t) :=
  gets (λ s, js_sort (λ a b, Notification.createdAt b - Notification.createdAt a)
               (List.filter
                  (λ notification,
                     bool_decide (Notification.userId notification = userId))
                  (JsMap.values (MemStorage.notifications s)))).

Definition markNotificationAsRead (id : Z) : M MemStorage.t Notification.t :=
  notification ← getNotification id;
  match notification with
  | None => throw ("Notification with ID " +:+ pretty id +:+ " not found")
  | Some notification =>
      let updatedNotification := notification_read notification in
      modify (λ s, MemStorage.set_notifications
                     (JsMap.set (MemStorage.notifications s) id updatedNotification)
                     s) ;;
      ret updatedNotification
  end.

End Store.

(** ** The other routes (server/routes.ts, [registerRoutes])

    The routes of this part answer with entities and lists of entities; a
    reply is the status with the [{ message }] of a refusal, or the status
    with the body given to [res.json]. *)

Inductive Reply (A : Type) : Type :=
  | Refused (code : Z) (message : string)
  | Sent (code : Z) (body : A).
Arguments Refused {A} code message.
Arguments Sent {A} code body.

Definition status_of {A} (reply : Reply A) : Z :=
  match reply with
  | Refused code _ => code
  | Sent code _ => code
  end.

(** What a route makes of a store of type [S]. *)
Definition Service (S A : Type) : Type := S → Reply A * S.

Module Api.

(** The middleware and the outer [try]/[catch], as above for [Handler]. *)
Definition requireAuth {S A} (caller : option User.t)
    (next : User.t → Service S A) : Service S A :=
  match caller with
  | None => λ s, (Refused 401 "Unauthorized", s)
  | Some user => next user
  end.

Definition requireRole {S A} (roles : list string) (caller : option User.t)
    (next : User.t → Service S A) : Service S A :=
  match caller with
  | None => λ s, (Refused 401 "Unauthorized", s)
  | Some user =>
      if bool_decide (User.role user ∈ roles) then next user
      else λ s, (Refused 403 "Forbidden", s)
  end.

Definition route {S A} (body : M S (Reply A)) (failure : string) : Service S A :=
  λ s, match body s with
       | (Ret reply, s') => (reply, s')
       | (Throw _, s') => (Refused 500 failure, s')
       end.

Definition refuse {S A} (code : Z) (message : string) : M S (Reply A) :=
  ret (Refused code message).

Definition send {S A} (code : Z) (body : A) : M S (Reply A) :=
  ret (Sent code body).

Section Routes.
Variable env : Env.

(** *** GET /api/users *)
Definition get_users (caller : option User.t)
    : Service MemStorage.t (list User.t) :=
  requireAuth caller (λ user,
    route (users ← Store.getAllUsers; send 200 users)
      "Failed to fetch users").

(** *** GET /api/users/:id *)
Definition get_user (caller : option User.t) (userId : Z)
    : Service MemStorage.t User.t :=
  requireAuth caller (λ _,
    route
      (user ← MemStorage.getUser userId;
       match user with
       | None => refuse 404 "User not found"
       | Some user => send 200 user
       end)
      "Failed to fetch user").

(** *** GET /api/tasks *)
Definition get_tasks : Service MemStorage.t (list Task.t) :=
  route (tasks ← Store.getAllTasks; send 200 tasks) "Failed to fetch tasks".

(** *** GET /api/tasks/:id *)
Definition get_task (taskId : Z) : Service MemStorage.t Task.t :=
  route
    (task ← MemStorage.getTask taskId;
     match task with
     | None => refuse 404 "Task not found"
     | Some task => send 200 task
     end)
    "Failed to fetch task".

(** *** GET /api/applications/student *)
Definition get_applications_student (caller : option User.t)
    : Service MemStorage.t (list Application.t) :=
  requireRole ["student"] caller (λ user,
    route
      (applications ← Store.getApplicationsByStudentId (User.id user);
       send 200 applications)
      "Failed to fetch applications").

(** *** GET /api/applications/task/:taskId *)
Definition get_applications_task (caller : option User.t) (taskId : Z)
    : Service MemStorage.t (list Application.t) :=
  requireAuth caller (λ user,
    route
      (task ← MemStorage.getTask taskId;
       match task with
       | None => refuse 404 "Task not found"
       | Some task =>
           if neither_owner_nor_admin task user
           then refuse 403 "Forbidden"
           else
             applications ← MemStorage.getApplicationsByTaskId taskId;
             send 200 applications
       end)
      "Failed to fetch applications").

(** *** GET /api/messages/:applicationId *)

(** [application.studentId !== req.user!.id && task.employerId !== req.user!.id]. *)
Definition neither_student_nor_employer (application : Application.t)
    (task : Task.t) (user : User.t) : bool :=
  bool_decide (Application.studentId application ≠ User.id user)
  && bool_decide (Task.employerId task ≠ User.id user).

Definition get_messages (caller : option User.t) (applicationId : Z)
    : Service Store.t (list Message.t) :=
  requireAuth caller (λ user,
    route
      (application ← Store.on_core (MemStorage.getApplication applicationId);
       match application with
       | None => refuse 404 "Application not found"
       | Some application =>
           task ← Store.on_core
                    (MemStorage.getTask (Application.taskId application));
           match task with
           | None => refuse 404 "Task not found"
           | Some task =>
               if neither_student_nor_employer application task user
                  && bool_decide (User.role user ≠ "admin")
               then refuse 403 "Forbidden"
               else
                 messages ← Store.getMessagesByApplicationId applicationId;
                 send 200 messages
           end
       end)
      "Failed to fetch messages").

(** *** POST /api/messages *)
Definition post_message (caller : option User.t) (body : InsertMessage)
    : Service Store.t Message.t :=
  requireAuth caller (λ user,
    route
      (let applicationId := m_applicationId body in
       application ← Store.on_core (MemStorage.getApplication applicationId);
       match application with
       | None => refuse 404 "Application not found"
       | Some application =>
           task ← Store.on_core
                    (MemStorage.getTask (Application.taskId application));
           match task with
           | None => refuse 404 "Task not found"
           | Some task =>
               if neither_student_nor_employer application task user
               then refuse 403 "Forbidden"
               else
                 let messageData :=
                   mkInsertMessage (m_applicationId body) (User.id user)
                     (m_receiverId body) (m_content body) in
                 newMessage ← Store.createMessage (now env) messageData;
                 Store.on_core
                   (storage_createNotification env
                      (Notification.mkInsert (m_receiverId body) "new_message"
                         "You have a new message"
                         [("taskId", JNum (Task.id task));
                          ("applicationId", JNum applicationId);
                          ("messageId", JNum (Message.id newMessage))])) ;;
                 send 201 newMessage
           end
       end)
      "Failed to create message").

(** *** GET /api/badges *)
Definition get_badges : Service MemStorage.t (list Badge.t) :=
  route (badges ← Store.getAllBadges; send 200 badges) "Failed to fetch badges".

(** *** GET /api/badges/user/:userId *)
Definition get_user_badges (userId : Z)
    : Service MemStorage.t (list (Badge.t * Z)) :=
  route (userBadges ← Store.getUserBadges userId; send 200 userBadges)
    "Failed to fetch user badges".

(** *** POST /api/badges *)
Definition post_badge (caller : option User.t) (body : Badge.insert)
    : Service MemStorage.t Badge.t :=
  requireRole ["admin"] caller (λ _,
    route (newBadge ← MemStorage.createBadge body; send 201 newBadge)
      "Failed to create badge").

(** *** POST /api/reports *)

(** [insertReportSchema.parse]. *)
Definition parse_report_status (status : string) : bool :=
  bool_decide (status ∈ ["pending"; "resolved"; "rejected"]).

(** The loop over [admins]. *)
Fixpoint notify_admins (newReport : Report.t) (admins : list User.t)
    : M MemStorage.t unit :=
  match admins with
  | [] => ret tt
  | admin :: rest =>
      storage_createNotification env
        (Notification.mkInsert (User.id admin) "new_report"
           "A new report has been submitted"
           [("reportId", JNum (Report.id newReport))]) ;;
      notify_admins newReport rest
  end.

Definition post_report (caller : option User.t) (body : Report.insert)
    : Service Store.t Report.t :=
  requireAuth caller (λ user,
    route
      (if negb (parse_report_status (Report.i_status body))
       then refuse 400
              (zod_error env ["pending"; "resolved"; "rejected"]
                 (Report.i_status body))
       else
         let reportData :=
           Report.mkInsert (Report.i_reportedUserId body)
             (Report.i_reportedTaskId body) (User.id user)
             (Report.i_reason body) (Report.i_status body) in
         newReport ← Store.createReport (now env) reportData;
         admins ← Store.on_core (Store.getUsersByRole "admin");
         Store.on_core (notify_admins newReport admins) ;;
         send 201 newReport)
      "Failed to create report").

(** *** PATCH /api/reports/:id/status *)
Definition patch_report_status (caller : option User.t) (reportId : Z)
    (status : string) : Service Store.t Report.t :=
  requireRole ["admin"] caller (λ _,
    route
      (if negb (bool_decide (status ∈ ["pending"; "resolved"; "rejected"]))
       then refuse 400 "Invalid status"
       else
         updatedReport ← Store.updateReportStatus reportId status;
         send 200 updatedReport)
      "Failed to update report status").

(** *** GET /api/notifications *)
Definition get_notifications (caller : option User.t)
    : Service MemStorage.t (list Notification.t) :=
  requireAuth caller (λ user,
    route
      (notifications ← Store.getNotificationsByUserId (User.id user);
       send 200 notifications)
      "Failed to fetch notifications").

(** *** PATCH /api/notifications/:id/read *)
Definition patch_notification_read (caller : option User.t)
    (notificationId : Z) : Service MemStorage.t Notification.t :=
  requireAuth caller (λ user,
    route
      (notification ← Store.getNotification notificationId;
       match notification with
       | None => refuse 404 "Notification not found"
       | Some notification =>
           if bool_decide (Notification.userId notification ≠ User.id user)
           then refuse 403 "Forbidden"
           else
             updatedNotification ← Store.markNotificationAsRead notificationId;
             send 200 updatedNotification
       end)
      "Failed to mark notification as read").

End Routes.

(** *** Requests to the whole server *)

(** A request to a route that can write: one of [Call], or one of the
    routes of this part that can.  The routes left out are the [GET]s,
    which read the store, and POST /api/create-payment-intent, which asks
    the gateway for an intent and reads the store. *)
Inductive Request : Type :=
  | Core (call : Call)
  | PostMessage (caller : option User.t) (body : InsertMessage)
  | PostBadge (caller : option User.t) (body : Badge.insert)
  | PostReport (caller : option User.t) (body : Report.insert)
  | PatchReportStatus (caller : option User.t) (reportId : Z) (status : string)
  | PatchNotificationRead (caller : option User.t) (notificationId : Z).

(** The store a request leaves. *)
Definition serve (env : Env) (request : Request) (s : Store.t) : Store.t :=
  match request with
  | Core call => Store.set_core (snd (handle env call (Store.core s))) s
  | PostMessage caller body => snd (post_message env caller body s)
  | PostBadge caller body =>
      Store.set_core (snd (post_badge caller body (Store.core s))) s
  | PostReport caller body => snd (post_report env caller body s)
  | PatchReportStatus caller reportId status =>
      snd (patch_report_status caller reportId status s)
  | PatchNotificationRead caller notificationId =>
      Store.set_core
        (snd (patch_notification_read caller notificationId (Store.core s))) s
  end.

(** The store after a sequence of requests, each with its environment. *)
Fixpoint serve_all (requests : list (Env * Request)) (s : Store.t) : Store.t :=
  match requests with
  | [] => s
  | (env, request) :: requests => serve_all requests (serve env request s)
  end.

End Api.

(** ** The profile page (the page [Profile], a caller of PATCH /api/users/:id)

    The form shows the skills of the user as one line of text, and the
    mutation turns the line back into a list before it sends the body.  A
    string is the sequence of the bytes of its UTF-8 encoding; the white
    space that [trim] removes is given by the encodings of its code
    points. *)

Module Profile.

(** [String.prototype.split(',')]: the pieces between the commas; the empty
    string has one piece, the empty one. *)
Fixpoint split_comma (s : string) : list string :=
  match s with
  | EmptyString => [EmptyString]
  | String c rest =>
      if bool_decide (c = Ascii.ascii_of_nat 44) then EmptyString :: split_comma rest
      else match split_comma rest with
           | piece :: pieces => String c piece :: pieces
           | [] => [String c EmptyString]
           end
  end.

(** [Array.prototype.join(separator)]. *)
Fixpoint join (separator : string) (l : list string) : string :=
  match l with
  | [] => EmptyString
  | [s] => s
  | s :: rest => s +:+ separator +:+ join separator rest
  end.

(** The white space and the line terminators of the language: U+0009 to
    U+000D and U+0020 in one byte, U+00A0 in two, and in three U+1680,
    U+2000 to U+200A, U+2028, U+2029, U+202F, U+205F, U+3000 and U+FEFF. *)
Definition white1 (a : N) : bool :=
  ((9 <=? a) && (a <=? 13) || (a =? 32))%N.

Definition white2 (a b : N) : bool :=
  ((a =? 194) && (b =? 160))%N.

Definition white3 (a b c : N) : bool :=
  ((a =? 225) && (b =? 154) && (c =? 128)
   || (a =? 226) && (b =? 128)
      && ((128 <=? c) && (c <=? 138) || (c =? 168) || (c =? 169) || (c =? 175))
   || (a =? 226) && (b =? 129) && (c =? 159)
   || (a =? 227) && (b =? 128) && (c =? 128)
   || (a =? 239) && (b =? 187) && (c =? 191))%N.

(** Removes the white space a string starts with; [w2] and [w3] recognise
    the encodings of two and of three bytes. *)
Fixpoint strip (w2 : N → N → bool) (w3 : N → N → N → bool) (s : string)
    : string :=
  match s with
  | EmptyString => s
  | String a s1 =>
      if white1 (Ascii.N_of_ascii a) then strip w2 w3 s1
      else
        match s1 with
        | EmptyString => s
        | String b s2 =>
            if w2 (Ascii.N_of_ascii a) (Ascii.N_of_ascii b) then strip w2 w3 s2
            else
              match s2 with
              | EmptyString => s
              | String c s3 =>
                  if w3 (Ascii.N_of_ascii a) (Ascii.N_of_ascii b)
                       (Ascii.N_of_ascii c)
                  then strip w2 w3 s3
                  else s
              end
        end
  end.

(** [String.prototype.trim]: the white space at the start, then, read from
    the end, the white space at the end. *)
Definition trim (s : string) : string :=
  String.rev
    (strip (λ a b, white2 b a) (λ a b c, white3 c b a)
       (String.rev (strip white2 white3 s))).

(** The values of the form. *)
Record FormValues : Type := mkFormValues {
  fullName : string;
  email : string;
  bio : option string;
  skills : option string
}.

(** [x || ""] for a nullable string. *)
Definition or_empty (x : option string) : string := default "" x.

(** [defaultValues]: what the form shows for the user of the session. *)
Definition defaultValues (user : option User.t) : FormValues :=
  {| fullName := or_empty (User.fullName <$> user);
     email := or_empty (User.email <$> user);
     bio := Some (or_empty (user ≫= User.bio));
     skills := Some (match user ≫= User.skills with
                     | Some skills => join ", " skills
                     | None => ""
                     end) |}.

(** [data.skills ? data.skills.split(',').map(skill => skill.trim())
    .filter(Boolean) : []]. *)
Definition skills_of_line (line : option string) : list string :=
  match line with
  | None => []
  | Some line =>
      if bool_decide (line = "") then []
      else List.filter (λ skill, negb (bool_decide (skill = "")))
             (map trim (split_comma line))
  end.

(** The body the mutation sends: [{ ...data, skills }]. *)
Definition mutation_body (data : FormValues) : User.partial :=
  {| User.p_id := None;
     User.p_username := None;
     User.p_password := None;
     User.p_email := Some (email data);
     User.p_fullName := Some (fullName data);
     User.p_role := None;
     User.p_profilePicture := None;
     User.p_bio := Some <$> bio data;
     User.p_skills := Some (Some (skills_of_line (skills data)));
     User.p_createdAt := None |}.

End Profile.

(** ** Vocabulary of the properties of the whole server *)

Module Ledger.
Import MemStorage.

(** The keys of a map are 1, 2, ... in the order of insertion, and the
    counter is the next one. *)
Definition numbered {V} (m : JsMap.t V) (counter : Z) : Prop :=
  1 ≤ counter ∧ JsMap.keys m = seqZ 1 (counter - 1).

Definition numbered_core (s : MemStorage.t) : Prop :=
  numbered (users s) (currentUserId s)
  ∧ numbered (tasks s) (currentTaskId s)
  ∧ numbered (applications s) (currentApplicationId s)
  ∧ numbered (payments s) (currentPaymentId s)
  ∧ numbered (badges s) (currentBadgeId s)
  ∧ numbered (userBadges s) (currentUserBadgeId s)
  ∧ numbered (notifications s) (currentNotificationId s).

Definition numbered_store (s : Store.t) : Prop :=
  numbered_core (Store.core s)
  ∧ numbered (Store.messages s) (Store.currentMessageId s)
  ∧ numbered (Store.reports s) (Store.currentReportId s).

(** A property of a map that survives the addition of an entry under a key
    the map does not have. *)
Definition survives_addition {V} (Q : JsMap.t V → Prop) : Prop :=
  ∀ m k v, k ∉ JsMap.keys m → Q m → Q (JsMap.set m k v).

(** A numbered store whose payments, badges, awards and messages have the
    properties given. *)
Definition kept_core (Qpayments : JsMap.t Payment.t → Prop)
    (Qbadges : JsMap.t Badge.t → Prop) (Qawards : JsMap.t UserBadge.t → Prop)
    (s : MemStorage.t) : Prop :=
  numbered_core s
  ∧ Qpayments (payments s) ∧ Qbadges (badges s) ∧ Qawards (userBadges s).

Definition kept_store (Qpayments : JsMap.t Payment.t → Prop)
    (Qbadges : JsMap.t Badge.t → Prop) (Qawards : JsMap.t UserBadge.t → Prop)
    (Qmessages : JsMap.t Message.t → Prop) (s : Store.t) : Prop :=
  kept_core Qpayments Qbadges Qawards (Store.core s)
  ∧ numbered (Store.messages s) (Store.currentMessageId s)
  ∧ numbered (Store.reports s) (Store.currentReportId s)
  ∧ Qmessages (Store.messages s).

(** PATCH /api/notifications/:id/read from [caller] for [notificationId]
    marks the notification [n] under key [k]. *)
Definition marks (caller : option User.t) (notificationId k : Z)
    (n : Notification.t) : bool :=
  match caller with
  | Some user =>
      bool_decide (k = notificationId)
      && bool_decide (Notification.userId n = User.id user)
  | None => false
  end.

(** The message [createMessage] makes in [s] of a body sent by [senderId],
    and the notification POST /api/messages addresses to its receiver. *)
Definition new_message (now senderId : Z) (body : InsertMessage) (s : Store.t)
    : Message.t :=
  Message.mk (Store.currentMessageId s) (m_applicationId body) senderId
    (m_receiverId body) (m_content body) now false.

Definition message_notice (body : InsertMessage) (task : Task.t)
    (newMessage : Message.t) : Notification.insert :=
  Notification.mkInsert (m_receiverId body) "new_message"
    "You have a new message"
    [("taskId", JNum (Task.id task));
     ("applicationId", JNum (m_applicationId body));
     ("messageId", JNum (Message.id newMessage))].

(** The report [createReport] makes in [s] of a body sent by [reporterId],
    and the notifications POST /api/reports makes for a list of admins,
    from the id [nextId] on. *)
Definition new_report (now reporterId : Z) (body : Report.insert) (s : Store.t)
    : Report.t :=
  Report.mk (Store.currentReportId s) (Report.i_reportedUserId body)
    (Report.i_reportedTaskId body) reporterId (Report.i_reason body)
    (Report.i_status body) now.

Fixpoint report_notices (now reportId nextId : Z) (admins : list User.t)
    : list Notification.t :=
  match admins with
  | [] => []
  | admin :: rest =>
      Notification.mk nextId (User.id admin) "new_report"
        "A new report has been submitted" false now [("reportId", JNum reportId)]
      :: report_notices now reportId (nextId + 1) rest
  end.

(** The user [createUser] makes in [s] of its argument. *)
Definition new_user (now : Z) (ins : User.insert) (s : MemStorage.t) : User.t :=
  User.mk (currentUserId s) (User.i_username ins) (User.i_password ins)
    (User.i_email ins) (User.i_fullName ins) (User.i_role ins)
    (User.i_profilePicture ins) (User.i_bio ins)
    (Some (default [] (User.i_skills ins))) now.

(** The caller passes the checks of PATCH /api/tasks/:id for the task. *)
Definition may_edit (caller : option User.t) (task : Task.t) : bool :=
  match caller with
  | Some user =>
      bool_decide (User.role user = "admin")
      || (bool_decide (User.role user = "employer")
          && bool_decide (Task.employerId task = User.id user))
  | None => false
  end.

(** The task POST /api/tasks makes in [s] for an employer. *)
Definition new_task (now employerId deadline : Z) (body : TaskBody)
    (s : MemStorage.t) : Task.t :=
  Task.mk (currentTaskId s) (tb_title body) (tb_description body)
    (tb_budget body) deadline (tb_requiredSkills body) employerId
    (tb_status body) now.

(** The session user of a request. *)
Definition caller_of (call : Call) : option User.t :=
  match call with
  | PatchUser caller _ _ | PostTask caller _ | PatchTask caller _ _
  | PostApplication caller _ | PatchApplicationStatus caller _ _
  | PostPayment caller _ | PostBadgeAward caller _
  | PostPaymentConfirm caller _ => caller
  end.

Definition is_payment_confirm (call : Call) : bool :=
  match call with
  | PostPaymentConfirm _ _ => true
  | _ => false
  end.

(** The applications the cascade rejects when the application under
    [applicationId] is accepted for [task]: the others for the task that
    are in status applied, in the order of the store. *)
Definition rivals (task : Task.t) (applicationId : Z) (s : MemStorage.t)
    : list Application.t :=
  List.filter
    (λ app, bool_decide (Application.id app ≠ applicationId)
            && bool_decide (Application.status app = "applied"))
    (List.filter
       (λ application, bool_decide (Application.taskId application = Task.id task))
       (JsMap.values (applications s))).

(** The notifications the cascade makes for the applications it rejects,
    from the id [nextId] on, and the one the route makes for the decision
    itself. *)
Fixpoint rejection_notices (now : Z) (task : Task.t) (nextId : Z)
    (rejected : list Application.t) : list Notification.t :=
  match rejected with
  | [] => []
  | app :: rest =>
      Notification.mk nextId (Application.studentId app) "application_rejected"
        ("Your application for " +:+ dq +:+ Task.title task +:+ dq
         +:+ " has been rejected")
        false now
        [("taskId", JNum (Task.id task));
         ("applicationId", JNum (Application.id app))]
      :: rejection_notices now task (nextId + 1) rest
  end.

Definition decision_notice (now : Z) (task : Task.t) (id : Z)
    (application : Application.t) (status : string) : Notification.t :=
  Notification.mk id (Application.studentId application)
    ("application_" +:+ status)
    ("Your application for " +:+ dq +:+ Task.title task +:+ dq
     +:+ " has been " +:+ status)
    false now
    [("taskId", JNum (Task.id task));
     ("applicationId", JNum (Application.id application))].

(** The caller passes the check of PATCH /api/users/:id for the id. *)
Definition may_edit_user (caller : option User.t) (userId : Z) : bool :=
  match caller with
  | Some user =>
      bool_decide (User.id user = userId) || bool_decide (User.role user = "admin")
  | None => false
  end.

(** The badge [createBadge] makes in [s] of its argument. *)
Definition new_badge (ins : Badge.insert) (s : MemStorage.t) : Badge.t :=
  Badge.mk (currentBadgeId s) (Badge.i_name ins) (Badge.i_description ins)
    (Badge.i_category ins) (Badge.i_level ins) (Badge.i_icon ins).

(** No message of the store is marked as read. *)
Definition all_unread (s : Store.t) : Prop :=
  ∀ message, message ∈ JsMap.values (Store.messages s) →
             Message.isRead message = false.

(** A skill that the line of the profile form gives back as it is: not
    empty, without a comma, and without white space around it. *)
Fixpoint no_comma (s : string) : bool :=
  match s with
  | EmptyString => true
  | String c rest =>
      negb (bool_decide (c = Ascii.ascii_of_nat 44)) && no_comma rest
  end.

Definition clean_skill (skill : string) : bool :=
  negb (bool_decide (skill = "")) && no_comma skill
  && bool_decide (Profile.trim skill = skill).

(** A computation, or a route, keeps a property of a store of any type,
    whether it returns or throws. *)
Definition stable {S A} (P : S → Prop) (m : M S A) : Prop :=
  ∀ s, P s → P (snd (m s)).

Definition upholds {S A} (P : S → Prop) (h : Service S A) : Prop :=
  ∀ s, P s → P (snd (h s)).

End Ledger.

(** ** The marketplace, with its messages and reports *)

Module Scene.
Import Sample.

Definition dave : User.t :=
  User.mk 5 "dave" "secret" "dave@example.org" "Dave" "admin" None None
    (Some []) 0.

(** The whole store once the employer has accepted the first application
    and an admin has registered. *)
Definition staffed : Store.t :=
  Store.mk (snd (register dave accepted)) JsMap.empty JsMap.empty 1 1.

Definition hello : InsertMessage :=
  mkInsertMessage 1 0 2 "When can I start?".

Definition answer : InsertMessage :=
  mkInsertMessage 1 0 1 "On Monday.".

(** A later reading of the clock. *)
Definition env1 : Env :=
  mkEnv 2000 (λ _, false) None (λ _, "5000") (λ _ _, "Invalid enum value").

(** The student and the employer have exchanged a message each. *)
Definition chatted : Store.t :=
  Api.serve_all [(env1, Api.PostMessage (Some alice) hello);
                 (env0, Api.PostMessage (Some bob) answer)] staffed.

(** [toLowerCase] on the letters A to Z. *)
Definition lower_letter (c : Ascii.ascii) : Ascii.ascii :=
  let n := Ascii.nat_of_ascii c in
  if ((65 <=? n) && (n <=? 90))%nat then Ascii.ascii_of_nat (n + 32) else c.

Fixpoint lower (s : string) : string :=
  match s with
  | EmptyString => EmptyString
  | String c s => String (lower_letter c) (lower s)
  end.

(** A student with two skills, and the store with that student alone. *)
Definition erin : User.t :=
  User.mk 1 "erin" "secret" "erin@example.org" "Erin" "student" None None
    (Some ["React"; "Node.js"]) 0.

Definition erin_alone : MemStorage.t :=
  snd (MemStorage.createUser 0
         (User.mkInsert "erin" "secret" "erin@example.org" "Erin" "student"
            None None (Some ["React"; "Node.js"])) MemStorage.new).

Definition complaint : Report.insert :=
  Report.mkInsert (Some 4) None 0 "Spam in the cover letter" "pending".

End Scene.

(** * Properties *)

Import MemStorage Notions Sample.

(** ** Facts about [JsMap] *)

Section JsMapFacts.
Context {V : Type}.
Implicit Types (m : JsMap.t V) (k : Z) (v : V).

Lemma jm_get_set_eq m k v : JsMap.get (JsMap.set m k v) k = Some v.
Proof.
  induction m as [|[k' v'] m IH]; simpl.
  - by rewrite bool_decide_eq_true_2.
  - case_bool_decide; simpl.
    + by rewrite bool_decide_eq_true_2.
    + by rewrite bool_decide_eq_false_2.
Qed.

Lemma jm_get_set_ne m k k' v :
  k ≠ k' → JsMap.get (JsMap.set m k v) k' = JsMap.get m k'.
Proof.
  intros Hne. induction m as [|[k0 v0] m IH]; simpl.
  - by rewrite bool_decide_eq_false_2.
  - case_bool_decide; simpl; subst.
    + by rewrite !bool_decide_eq_false_2.
    + by rewrite IH.
Qed.

Lemma jm_get_set m k k' v :
  JsMap.get (JsMap.set m k v) k'
  = if bool_decide (k = k') then Some v else JsMap.get m k'.
Proof.
  case_bool_decide; subst; [apply jm_get_set_eq | by apply jm_get_set_ne].
Qed.

Lemma jm_get_Some_elem m k v : JsMap.get m k = Some v → (k, v) ∈ m.
Proof.
  induction m as [|[k' v'] m IH]; simpl; [done|].
  case_bool_decide; subst.
  - intros [= ->]. left.
  - intros Hg. right. auto.
Qed.

Lemma jm_get_None_keys m k : JsMap.get m k = None ↔ k ∉ JsMap.keys m.
Proof.
  induction m as [|[k' v'] m IH]; simpl.
  - split; [intros _; apply not_elem_of_nil | done].
  - rewrite not_elem_of_cons. case_bool_decide; subst.
    + split; [done | by intros [? _]].
    + rewrite IH. split; [by intros ? | by intros [_ ?]].
Qed.

Lemma jm_get_Some_keys m k v : JsMap.get m k = Some v → k ∈ JsMap.keys m.
Proof.
  intros Hget. destruct (decide (k ∈ JsMap.keys m)) as [|Hnin]; [done|].
  apply jm_get_None_keys in Hnin. congruence.
Qed.

Lemma jm_distinct_keys_cons m k v :
  JsMap.distinct_keys ((k, v) :: m) = true
  ↔ (k ∉ JsMap.keys m) ∧ JsMap.distinct_keys m = true.
Proof.
  simpl. rewrite andb_true_iff, negb_true_iff, bool_decide_eq_false. done.
Qed.

(** In a map with distinct keys an entry is what [get] finds. *)
Lemma jm_elem_get m k v :
  JsMap.distinct_keys m = true → (k, v) ∈ m → JsMap.get m k = Some v.
Proof.
  induction m as [|[k' v'] m IH]; [by intros _ ?%elem_of_nil|].
  rewrite jm_distinct_keys_cons. intros [Hk Hd] Hin. simpl.
  apply elem_of_cons in Hin as [[= <- <-]|Hin].
  - by rewrite bool_decide_eq_true_2.
  - case_bool_decide; subst; [|by apply IH].
    exfalso. apply Hk. unfold JsMap.keys. apply list_elem_of_fmap.
    by exists (k', v).
Qed.

Lemma jm_keys_set m k v :
  JsMap.keys (JsMap.set m k v)
  = if bool_decide (k ∈ JsMap.keys m) then JsMap.keys m else JsMap.keys m ++ [k].
Proof.
  induction m as [|[k' v'] m IH]; [done|].
  cbn [JsMap.set]. destruct (decide (k = k')) as [->|Hne].
  - rewrite bool_decide_eq_true_2 by done. cbn [JsMap.keys map fst].
    rewrite bool_decide_eq_true_2; [done | left].
  - rewrite bool_decide_eq_false_2 by done. cbn [JsMap.keys map fst].
    fold (JsMap.keys m) (JsMap.keys (JsMap.set m k v)). rewrite IH.
    destruct (decide (k ∈ JsMap.keys m)) as [Hin|Hin].
    + rewrite !bool_decide_eq_true_2; [done | by right | done].
    + rewrite !bool_decide_eq_false_2; [done | | done].
      rewrite not_elem_of_cons. done.
Qed.

Lemma jm_distinct_keys_NoDup m :
  JsMap.distinct_keys m = true ↔ NoDup (JsMap.keys m).
Proof.
  induction m as [|[k v] m IH].
  - split; [intros _; constructor | done].
  - rewrite jm_distinct_keys_cons. simpl. rewrite NoDup_cons, IH. done.
Qed.

Lemma jm_distinct_keys_set m k v :
  JsMap.distinct_keys m = true → JsMap.distinct_keys (JsMap.set m k v) = true.
Proof.
  rewrite !jm_distinct_keys_NoDup, jm_keys_set.
  case_bool_decide as Hin; [done|].
  intros Hnd. apply NoDup_app. split_and!; [done | | apply NoDup_singleton].
  intros x Hx ->%list_elem_of_singleton. done.
Qed.

Lemma jm_elem_values m v : v ∈ JsMap.values m ↔ ∃ k, (k, v) ∈ m.
Proof.
  unfold JsMap.values. rewrite list_elem_of_fmap. split.
  - intros [[k v'] [-> Hin]]. by exists k.
  - intros [k Hin]. by exists (k, v).
Qed.

(** An entry of [set m k v] is the one written or an entry of [m]. *)
Lemma jm_elem_set m k v k' v' :
  (k', v') ∈ JsMap.set m k v → (k' = k ∧ v' = v) ∨ (k', v') ∈ m.
Proof.
  induction m as [|[k0 v0] m IH]; simpl.
  - intros [= -> ->]%list_elem_of_singleton. by left.
  - case_bool_decide; subst.
    + intros [[= -> ->]|Hin]%elem_of_cons; [by left|]. right. by right.
    + intros [[= -> ->]|Hin]%elem_of_cons; [right; left|].
      destruct (IH Hin) as [?|?]; [by left|]. right. by right.
Qed.

(** A new key goes to the end. *)
Lemma jm_set_fresh m k v : k ∉ JsMap.keys m → JsMap.set m k v = m ++ [(k, v)].
Proof.
  induction m as [|[k0 v0] m IH]; [done|].
  cbn [JsMap.keys map fst]. fold (JsMap.keys m).
  intros [Hne Hnin]%not_elem_of_cons. cbn [JsMap.set].
  rewrite bool_decide_eq_false_2 by done. by rewrite IH.
Qed.

(** Overwriting an entry with a value the filter treats alike leaves the
    filtered values as many. *)
Lemma jm_filter_values_set (p : V → bool) m k v v0 :
  JsMap.get m k = Some v0 → p v = p v0 →
  length (List.filter p (JsMap.values (JsMap.set m k v)))
  = length (List.filter p (JsMap.values m)).
Proof.
  intros Hget Hp. unfold JsMap.values.
  induction m as [|[k1 v1] m IH]; [done|].
  cbn [JsMap.get] in Hget. cbn [JsMap.set].
  destruct (bool_decide (k = k1)).
  - injection Hget as ->. cbn. rewrite Hp. by destruct (p v0).
  - cbn. destruct (p v1); cbn; rewrite IH; done.
Qed.
End JsMapFacts.

Lemma find_none_iff {A} (f : A → bool) (l : list A) :
  List.find f l = None ↔ ∀ x, x ∈ l → f x = false.
Proof.
  induction l as [|a l IH]; simpl.
  - split; [by intros _ x ?%elem_of_nil | done].
  - destruct (f a) eqn:Hfa.
    + split; [done|]. intros Hall. specialize (Hall a). rewrite Hfa in Hall.
      discriminate Hall. left.
    + rewrite IH. split.
      * intros Hall x [->|Hx]%elem_of_cons; auto.
      * intros Hall x Hx. apply Hall. by right.
Qed.

Lemma find_none_filter {A} (f : A → bool) (l : list A) :
  List.find f l = None ↔ List.filter f l = [].
Proof.
  induction l as [|a l IH]; [done|]. cbn. destruct (f a); [done | apply IH].
Qed.

(** ** Running the store's methods *)

Section StoreRuns.
Implicit Types (s : MemStorage.t).

Lemma bind_run {S A B} (m : M S A) (k : A → M S B) (s : S) :
  (x ← m; k x) s = match m s with
                   | (Ret a, s') => k a s'
                   | (Throw e, s') => (Throw e, s')
                   end.
Proof. reflexivity. Qed.

Lemma ret_run {S A} (a : A) (s : S) : ret a s = (Ret a, s).
Proof. reflexivity. Qed.

Lemma throw_run {S A} (e : string) (s : S) : throw (A:=A) e s = (Throw e, s).
Proof. reflexivity. Qed.

Lemma getUser_run id s : getUser id s = (Ret (JsMap.get (users s) id), s).
Proof. reflexivity. Qed.

Lemma getTask_run id s : getTask id s = (Ret (JsMap.get (tasks s) id), s).
Proof. reflexivity. Qed.

Lemma getApplication_run id s :
  getApplication id s = (Ret (JsMap.get (applications s) id), s).
Proof. reflexivity. Qed.

Lemma getBadge_run id s : getBadge id s = (Ret (JsMap.get (badges s) id), s).
Proof. reflexivity. Qed.

Lemma getApplicationsByTaskId_run taskId s :
  getApplicationsByTaskId taskId s =
  (Ret (List.filter
          (λ application, bool_decide (Application.taskId application = taskId))
          (JsMap.values (applications s))), s).
Proof. reflexivity. Qed.

Lemma getApplicationByStudentAndTask_run studentId taskId s :
  getApplicationByStudentAndTask studentId taskId s =
  (Ret (List.find (same_pair studentId taskId) (JsMap.values (applications s))), s).
Proof. reflexivity. Qed.

Lemma updateUser_run id userData s :
  updateUser id userData s =
  match JsMap.get (users s) id with
  | None => (Throw ("User with ID " +:+ pretty id +:+ " not found"), s)
  | Some user =>
      (Ret (User.spread user userData),
       set_users (JsMap.set (users s) id (User.spread user userData)) s)
  end.
Proof.
  unfold updateUser. rewrite bind_run, getUser_run.
  destruct (JsMap.get _ _); reflexivity.
Qed.

Lemma updateTask_run id taskData s :
  updateTask id taskData s =
  match JsMap.get (tasks s) id with
  | None => (Throw ("Task with ID " +:+ pretty id +:+ " not found"), s)
  | Some task =>
      (Ret (Task.spread task taskData),
       set_tasks (JsMap.set (tasks s) id (Task.spread task taskData)) s)
  end.
Proof.
  unfold updateTask. rewrite bind_run, getTask_run.
  destruct (JsMap.get _ _); reflexivity.
Qed.

Lemma updateApplicationStatus_run id status s :
  updateApplicationStatus id status s =
  match JsMap.get (applications s) id with
  | None => (Throw ("Application with ID " +:+ pretty id +:+ " not found"), s)
  | Some application =>
      (Ret (Application.with_status application status),
       set_applications
         (JsMap.set (applications s) id
            (Application.with_status application status)) s)
  end.
Proof.
  unfold updateApplicationStatus. rewrite bind_run, getApplication_run.
  destruct (JsMap.get _ _); reflexivity.
Qed.

Lemma createApplication_run now ins s :
  createApplication now ins s =
  (Ret (new_application now ins s),
   set_applications
     (JsMap.set (applications s) (currentApplicationId s)
        (new_application now ins s))
     (set_currentApplicationId (currentApplicationId s + 1) s)).
Proof. reflexivity. Qed.

Lemma createPayment_run now ins s :
  createPayment now ins s =
  (Ret (new_payment now ins s),
   set_payments
     (JsMap.set (payments s) (currentPaymentId s) (new_payment now ins s))
     (set_currentPaymentId (currentPaymentId s + 1) s)).
Proof. reflexivity. Qed.

Lemma awardBadgeToUser_run now ins s :
  awardBadgeToUser now ins s =
  match List.find (same_award ins) (JsMap.values (userBadges s)) with
  | Some existingUserBadge => (Ret existingUserBadge, s)
  | None =>
      (Ret (new_userBadge now ins s),
       set_userBadges
         (JsMap.set (userBadges s) (currentUserBadgeId s)
            (new_userBadge now ins s))
         (set_currentUserBadgeId (currentUserBadgeId s + 1) s))
  end.
Proof.
  unfold awardBadgeToUser. rewrite bind_run. unfold gets.
  by destruct (List.find _ _).
Qed.

Lemma storage_createNotification_run env ins s :
  storage_createNotification env ins s =
  if notification_fault env ins
  then (Throw "Failed to create notification", s)
  else (Ret (new_notification (now env) ins s), notified (now env) ins s).
Proof.
  unfold storage_createNotification. by destruct (notification_fault _ _).
Qed.

(** [createNotification] writes nothing but the notifications. *)
Lemma applications_notified now ins s :
  applications (notified now ins s) = applications s.
Proof. reflexivity. Qed.

Lemma tasks_notified now ins s : tasks (notified now ins s) = tasks s.
Proof. reflexivity. Qed.

Lemma users_notified now ins s : users (notified now ins s) = users s.
Proof. reflexivity. Qed.

Lemma payments_notified now ins s : payments (notified now ins s) = payments s.
Proof. reflexivity. Qed.
End StoreRuns.

Create Rewrite HintDb store.
#[global] Hint Rewrite applications_notified tasks_notified users_notified
  payments_notified : store.

(** Replaces the calls on the store at the head of a route by what they
    do. *)
Ltac run_store :=
  repeat (progress
            (rewrite ?bind_run, ?ret_run, ?throw_run, ?getApplication_run,
               ?getTask_run, ?getUser_run, ?getBadge_run,
               ?updateApplicationStatus_run, ?updateTask_run, ?updateUser_run,
               ?createPayment_run, ?createApplication_run,
               ?storage_createNotification_run, ?getApplicationsByTaskId_run,
               ?getApplicationByStudentAndTask_run;
             cbv beta iota zeta)).

(** ** The middleware and the duplicate check *)

Lemma requireRole_pass roles user next :
  User.role user ∈ roles → requireRole roles (Some user) next = next user.
Proof. intros Hin. unfold requireRole. by rewrite bool_decide_eq_true_2. Qed.

Lemma find_application_None studentId taskId s :
  ¬ has_applied s studentId taskId →
  List.find (same_pair studentId taskId) (JsMap.values (applications s)) = None.
Proof.
  intros Hnone. apply find_none_iff. intros a Ha.
  apply not_true_is_false. intros [H1 H2]%andb_true_iff.
  apply bool_decide_eq_true in H1, H2. apply Hnone. by exists a.
Qed.

Lemma find_application_Some studentId taskId s :
  has_applied s studentId taskId →
  is_Some (List.find (same_pair studentId taskId) (JsMap.values (applications s))).
Proof.
  intros (a & Ha & H1 & H2).
  destruct (List.find _ _) as [a'|] eqn:Hfind; [by eexists|].
  rewrite find_none_iff in Hfind. specialize (Hfind a Ha).
  unfold same_pair in Hfind. by rewrite !bool_decide_eq_true_2 in Hfind.
Qed.

Lemma missing_applicationId_false body appId :
  cb_applicationId body = Some appId → appId ≠ 0 →
  missing_applicationId body = false.
Proof.
  intros Hid Hne. unfold missing_applicationId. rewrite Hid.
  by apply bool_decide_eq_false_2.
Qed.

(** ** Submitting an application *)

(** C4, as amended.  A student's submission with a valid body, for a task
    they have not applied to and that does not exist, succeeds with 201: the
    application is stored under the next id, and no notification is made. *)
Theorem submit_unknown_task_succeeds env user body s :
  User.role user = "student" →
  parse_application_status (Application.i_status body) = true →
  ¬ has_applied s (User.id user) (Application.i_taskId body) →
  JsMap.get (tasks s) (Application.i_taskId body) = None →
  let created :=
    new_application (now env)
      (Application.mkInsert (Application.i_taskId body) (User.id user)
         (Application.i_coverLetter body) (Application.i_status body)) s in
  ∃ s', post_application env (Some user) body s
        = (mkResponse 201 (JApplication created), s')
        ∧ JsMap.get (applications s') (currentApplicationId s) = Some created
        ∧ notifications s' = notifications s.
Proof.
  intros Hrole Hparse Hnew Htask created.
  unfold post_application.
  rewrite requireRole_pass by (rewrite Hrole; repeat constructor).
  unfold route. rewrite Hparse. cbn [negb].
  run_store. rewrite find_application_None by done.
  run_store. cbn [tasks set_applications set_currentApplicationId].
  rewrite Htask. run_store.
  eexists. split; [reflexivity|]. split; [apply jm_get_set_eq | done].
Qed.

Lemma submit_unknown_task_succeeds_witness :
  User.role alice = "student"
  ∧ parse_application_status (Application.i_status (apply_to 99)) = true
  ∧ ¬ has_applied registered (User.id alice) (Application.i_taskId (apply_to 99))
  ∧ JsMap.get (tasks registered) 99 = None
  ∧ ∃ s', post_application env0 (Some alice) (apply_to 99) registered
          = (mkResponse 201
               (JApplication
                  (Application.mk 1 99 1
                     "I have built three websites like this one." "applied" 1000)),
             s')
          ∧ JsMap.get (applications s') 1
            = Some (Application.mk 1 99 1
                      "I have built three websites like this one." "applied" 1000)
          ∧ notifications s' = notifications registered.
Proof.
  assert (Hnone : ¬ has_applied registered (User.id alice)
                      (Application.i_taskId (apply_to 99))).
  { intros (a & Ha & _). vm_compute in Ha. by apply elem_of_nil in Ha. }
  split_and!; [reflexivity | reflexivity | exact Hnone | reflexivity |].
  apply (submit_unknown_task_succeeds env0 alice (apply_to 99) registered);
    [reflexivity | reflexivity | exact Hnone | reflexivity].
Defined.

(** C4, as stated, fails: no task 99 exists, and the submission for it is
    answered 201 and stored. *)
Lemma submit_unknown_task_creates :
  let r := post_application env0 (Some alice) (apply_to 99) registered in
  JsMap.get (tasks registered) 99 = None
  ∧ code (fst r) = 201
  ∧ Application.taskId <$> JsMap.get (applications (snd r)) 1 = Some 99.
Proof. vm_compute. done. Qed.

(** ** Accepting an application *)

Lemma filed_under_id_spec (m : JsMap.t Application.t) :
  filed_under_id m = true ↔ ∀ k a, (k, a) ∈ m → Application.id a = k.
Proof.
  unfold filed_under_id. rewrite forallb_forall. split.
  - intros Hall k a Hin. apply list_elem_of_In in Hin.
    specialize (Hall _ Hin). by apply bool_decide_eq_true in Hall.
  - intros Hall [k a] Hin. apply bool_decide_eq_true. apply Hall.
    by apply list_elem_of_In.
Qed.

Lemma filed_under_id_set (m : JsMap.t Application.t) k a :
  Application.id a = k → filed_under_id m = true →
  filed_under_id (JsMap.set m k a) = true.
Proof.
  rewrite !filed_under_id_spec. intros Hid Hm k' a' Hin.
  apply jm_elem_set in Hin as [[-> ->]|Hin]; auto.
Qed.

Lemma cascaded_true applicationId others k :
  cascaded applicationId others k = true ↔
  ∃ app, app ∈ others ∧ Application.id app = k ∧ k ≠ applicationId
         ∧ Application.status app = "applied".
Proof.
  unfold cascaded. rewrite existsb_exists. split.
  - intros (app & Hin & Hc). exists app.
    apply andb_true_iff in Hc as [H1 [H2 H3]%andb_true_iff].
    apply bool_decide_eq_true in H1, H2, H3. subst k.
    by rewrite list_elem_of_In.
  - intros (app & Hin & <- & Hne & Hst). exists app.
    rewrite <- list_elem_of_In. split; [done|].
    by rewrite !bool_decide_eq_true_2.
Qed.

Lemma elem_of_filter_taskId taskId (l : list Application.t) a :
  a ∈ List.filter
        (λ application, bool_decide (Application.taskId application = taskId)) l
  ↔ a ∈ l ∧ Application.taskId a = taskId.
Proof.
  rewrite list_elem_of_In, filter_In, <- list_elem_of_In, bool_decide_eq_true.
  done.
Qed.

Section Cascade.
Variable env : Env.
Variable task : Task.t.
Variable applicationId : Z.

(** The loop writes nothing but applications and notifications, and never
    the application that is being decided. *)
Lemma reject_others_frame others s :
  let s' := snd (reject_others env task applicationId others s) in
  tasks s' = tasks s ∧ users s' = users s ∧ payments s' = payments s
  ∧ JsMap.get (applications s') applicationId
    = JsMap.get (applications s) applicationId.
Proof.
  revert s. induction others as [|app rest IH]; intros s; [done|].
  cbn [reject_others]. rewrite bind_run.
  destruct (bool_decide (Application.id app ≠ applicationId)
            && bool_decide (Application.status app = "applied")) eqn:Hcond.
  - apply andb_true_iff in Hcond as [Hne%bool_decide_eq_true _].
    run_store.
    destruct (JsMap.get (applications s) (Application.id app)) as [a0|]; [|done].
    run_store. destruct (notification_fault env _).
    + cbn. by rewrite jm_get_set_ne.
    + run_store.
      match goal with |- context [reject_others _ _ _ rest ?s1] =>
        destruct (IH s1) as (-> & -> & -> & ->) end.
      autorewrite with store. cbn. by rewrite jm_get_set_ne.
  - run_store. apply IH.
Qed.

(** When the loop runs to its end, it has rejected exactly the applications
    it was to reject. *)
Lemma reject_others_done others s s' :
  reject_others env task applicationId others s = (Ret tt, s') →
  ∀ k, JsMap.get (applications s') k
       = (λ a, if cascaded applicationId others k
               then Application.with_status a "rejected" else a)
         <$> JsMap.get (applications s) k.
Proof.
  revert s. induction others as [|app rest IH]; intros s.
  - intros [= <-] k. cbn. by destruct (JsMap.get _ _).
  - cbn [reject_others]. rewrite bind_run.
    destruct (bool_decide (Application.id app ≠ applicationId)
              && bool_decide (Application.status app = "applied")) eqn:Hcond.
    + run_store.
      destruct (JsMap.get (applications s) (Application.id app)) as [a0|] eqn:Hget;
        [|done].
      run_store. destruct (notification_fault env _); [done|].
      run_store.
      intros Hrest k. rewrite (IH _ Hrest k). cbn [cascaded existsb].
      fold (cascaded applicationId rest k). rewrite Hcond, andb_true_r.
      autorewrite with store. cbn [applications set_applications].
      rewrite jm_get_set. destruct (decide (Application.id app = k)) as [<-|Hk].
      * rewrite !bool_decide_eq_true_2 by done. rewrite Hget. cbn.
        by destruct (cascaded _ _ _).
      * by rewrite !bool_decide_eq_false_2 by done.
    + run_store. intros Hrest k. rewrite (IH _ Hrest k). cbn [cascaded existsb].
      fold (cascaded applicationId rest k). by rewrite Hcond, andb_false_r.
Qed.
End Cascade.

(** A task is stored under its id when it is created; only a
    [PATCH /api/tasks/:id] whose body has an [id] field undoes that. *)
Example patch_task_rewrites_id :
  let body := Task.mkPartial (Some 9) None None None None None None None None in
  Task.id <$> JsMap.get (tasks posted) 1 = Some 1
  ∧ Task.id <$> JsMap.get (tasks (snd (patch_task (Some bob) 1 body posted))) 1
    = Some 9.
Proof. vm_compute. done. Qed.

(** The acceptance, told through the updates the store makes. *)
Lemma accept_cascade env caller applicationId s a t :
  applications_ok s = true →
  JsMap.get (applications s) applicationId = Some a →
  JsMap.get (tasks s) (Task.id t) = Some t →
  Application.taskId a = Task.id t →
  code (fst (patch_application_status env caller applicationId "accepted" s)) = 200 →
  let s' := snd (patch_application_status env caller applicationId "accepted" s) in
  JsMap.get (applications s') applicationId
  = Some (Application.with_status a "accepted")
  ∧ JsMap.get (tasks s') (Task.id t)
    = Some (Task.spread t (Task.only_status "in-progress"))
  ∧ (∀ k b, k ≠ applicationId →
       JsMap.get (applications s) k = Some b →
       Application.taskId b = Task.id t →
       Application.status b = "applied" →
       JsMap.get (applications s') k = Some (Application.with_status b "rejected"))
  ∧ (∀ k b, k ≠ applicationId →
       JsMap.get (applications s) k = Some b →
       Application.status b ≠ "applied" ∨ Application.taskId b ≠ Task.id t →
       JsMap.get (applications s') k = Some b).
Proof.
  intros [Hdist Hfiled]%andb_true_iff Ha Ht Hon.
  unfold patch_application_status, requireRole.
  destruct caller as [user|]; [|done].
  destruct (bool_decide (User.role user ∈ _)); [|done].
  unfold route.
  rewrite (bool_decide_eq_true_2 ("accepted" ∈ _)) by (repeat constructor).
  cbn [negb]. run_store. rewrite Ha. run_store. rewrite Hon, Ht.
  destruct (neither_owner_nor_admin t user); [done|].
  run_store. rewrite Ha.
  rewrite (bool_decide_eq_true_2 ("accepted" = "accepted")) by done.
  run_store. cbn [tasks set_applications]. rewrite Ht. run_store.
  cbn [applications set_tasks set_applications].
  set (apps1 := JsMap.set (applications s) applicationId
                  (Application.with_status a "accepted")).
  set (others := List.filter _ (JsMap.values apps1)).
  set (s2 := set_tasks _ _).
  destruct (reject_others env t applicationId others s2) as [[[]|e] s3] eqn:Hloop;
    [|done].
  run_store. destruct (notification_fault env _); [done|].
  run_store. cbn [fst snd code]. intros _.
  autorewrite with store.
  pose proof (reject_others_done _ _ _ _ _ _ Hloop) as Hdone.
  pose proof (reject_others_frame env t applicationId others s2) as Hframe.
  rewrite Hloop in Hframe. cbn [snd] in Hframe.
  destruct Hframe as (Htasks & _ & _ & _).
  assert (Hdist1 : JsMap.distinct_keys apps1 = true)
    by by apply jm_distinct_keys_set.
  assert (Hfiled1 : ∀ k b, (k, b) ∈ apps1 → Application.id b = k).
  { apply filed_under_id_spec, filed_under_id_set; [|done].
    rewrite filed_under_id_spec in Hfiled.
    apply (Hfiled applicationId a). by apply jm_get_Some_elem. }
  assert (Hother : ∀ k, k ≠ applicationId →
            JsMap.get (applications s2) k = JsMap.get (applications s) k).
  { intros k Hk. unfold s2. cbn. unfold apps1. by rewrite jm_get_set_ne. }
  split_and!.
  - rewrite Hdone. replace (cascaded applicationId others applicationId) with false.
    + unfold s2. cbn. unfold apps1. by rewrite jm_get_set_eq.
    + symmetry. apply not_true_is_false. rewrite cascaded_true.
      by intros (? & _ & _ & ? & _).
  - rewrite Htasks. unfold s2. cbn. by rewrite jm_get_set_eq.
  - intros k b Hk Hb Htask Hst. rewrite Hdone, (Hother k Hk), Hb. cbn.
    replace (cascaded applicationId others k) with true; [done|].
    symmetry. apply cascaded_true. exists b.
    assert (Hin : (k, b) ∈ apps1).
    { apply jm_get_Some_elem. unfold apps1. by rewrite jm_get_set_ne. }
    split_and!; [|by apply Hfiled1|done|done].
    apply elem_of_filter_taskId. split; [|done].
    apply jm_elem_values. by exists k.
  - intros k b Hk Hb Hst. rewrite Hdone, (Hother k Hk), Hb. cbn.
    replace (cascaded applicationId others k) with false; [done|].
    symmetry. apply not_true_is_false. rewrite cascaded_true.
    intros (o & [Hin Hto]%elem_of_filter_taskId & Hid & _ & Host).
    apply jm_elem_values in Hin as [ko Hin].
    pose proof (Hfiled1 _ _ Hin) as Hko. rewrite Hid in Hko. subst ko.
    apply (jm_elem_get _ _ _ Hdist1) in Hin. unfold apps1 in Hin.
    rewrite jm_get_set_ne in Hin by done.
    assert (o = b) as -> by congruence. by destruct Hst.
Qed.

(** C1, as amended.  Let task [t] be stored under its own id and [a] be
    an application on it in status applied, in a store whose applications
    are each stored once, under their own id (as in every store the routes
    reach, [run_applications_ok]).  If the decide call with [accepted] is
    answered 200, then afterwards [a] has the status accepted and [t] the
    status in-progress, their other fields as before; every other
    application on [t] that was in status applied has the status rejected,
    its other fields as before; and every other application that was not
    in status applied (so every sibling that was rejected or accepted) or
    that is on another task is as it was. *)
Theorem accept_application_cascade env caller applicationId s a t :
  applications_ok s = true →
  JsMap.get (applications s) applicationId = Some a →
  Application.status a = "applied" →
  JsMap.get (tasks s) (Task.id t) = Some t →
  Application.taskId a = Task.id t →
  code (fst (patch_application_status env caller applicationId "accepted" s)) = 200 →
  let s' := snd (patch_application_status env caller applicationId "accepted" s) in
  JsMap.get (applications s') applicationId
  = Some (Application.mk (Application.id a) (Application.taskId a)
            (Application.studentId a) (Application.coverLetter a) "accepted"
            (Application.appliedAt a))
  ∧ JsMap.get (tasks s') (Task.id t)
    = Some (Task.mk (Task.id t) (Task.title t) (Task.description t)
              (Task.budget t) (Task.deadline t) (Task.requiredSkills t)
              (Task.employerId t) "in-progress" (Task.createdAt t))
  ∧ (∀ k b, k ≠ applicationId →
       JsMap.get (applications s) k = Some b →
       Application.taskId b = Task.id t →
       Application.status b = "applied" →
       JsMap.get (applications s') k
       = Some (Application.mk (Application.id b) (Application.taskId b)
                 (Application.studentId b) (Application.coverLetter b)
                 "rejected" (Application.appliedAt b)))
  ∧ (∀ k b, k ≠ applicationId →
       JsMap.get (applications s) k = Some b →
       Application.status b ≠ "applied" ∨ Application.taskId b ≠ Task.id t →
       JsMap.get (applications s') k = Some b).
Proof.
  intros Hok Ha _ Ht Hon Hcode s'.
  destruct (accept_cascade env caller applicationId s a t Hok Ha Ht Hon Hcode)
    as (Haccepted & Htask & Hrejected & Hkept).
  split_and!.
  - exact Haccepted.
  - exact Htask.
  - intros k b Hk Hb Htaskb Hstatus. exact (Hrejected k b Hk Hb Htaskb Hstatus).
  - exact Hkept.
Qed.

Lemma accept_application_cascade_witness :
  applications_ok posted = true
  ∧ JsMap.get (applications posted) 1 = Some alice_application
  ∧ Application.status alice_application = "applied"
  ∧ JsMap.get (tasks posted) (Task.id website_task) = Some website_task
  ∧ Application.taskId alice_application = Task.id website_task
  ∧ code (fst (patch_application_status env0 (Some bob) 1 "accepted" posted)) = 200
  ∧ JsMap.get (applications accepted) 1
    = Some (Application.mk 1 1 1 "I have built three websites like this one."
              "accepted" 1000)
  ∧ JsMap.get (tasks accepted) 1
    = Some (Task.mk 1 "Website" "Build the website of the chess club."
              (inject_Z 5000) 604800000 ["JavaScript"] 2 "in-progress" 1000)
  ∧ JsMap.get (applications accepted) 2
    = Some (Application.mk 2 1 3 "I have built three websites like this one."
              "rejected" 1000).
Proof.
  pose proof (accept_application_cascade env0 (Some bob) 1 posted
                alice_application website_task) as H.
  destruct H as (H1 & H2 & H3 & _); [reflexivity..|].
  split_and!; [reflexivity.. | exact H1 | exact H2 |].
  apply (H3 2 carol_application); [done | reflexivity..].
Defined.

(** C1, as stated, fails.  The employer has two tasks; two students have
    applied for task 1 and one for task 2; a PATCH /api/tasks/1 with the
    body [{ id: 2 }] then leaves task 1 stored with the id 2.  The
    acceptance of the first application for task 1 is answered 200 and
    the application is accepted, but task 1 stays open and its other
    application stays applied, while task 2 is set in progress and its
    application is rejected. *)
Lemma accept_with_rewritten_task_id :
  let s := run [(env0, PostTask (Some bob) website);
                (env0, PostTask (Some bob) website);
                (env0, PostApplication (Some alice) (apply_to 1));
                (env0, PostApplication (Some carol) (apply_to 1));
                (env0, PostApplication (Some mallory) (apply_to 2));
                (env0, PatchTask (Some bob) 1
                         (Task.mkPartial (Some 2) None None None None None None
                            None None))] registered in
  let r := patch_application_status env0 (Some bob) 1 "accepted" s in
  let application k :=
    (λ a, (Application.taskId a, Application.status a))
      <$> JsMap.get (applications (snd r)) k in
  (λ a, (Application.taskId a, Application.status a))
    <$> JsMap.get (applications s) 1 = Some (1, "applied")
  ∧ (λ a, (Application.taskId a, Application.status a))
      <$> JsMap.get (applications s) 2 = Some (1, "applied")
  ∧ Task.status <$> JsMap.get (tasks s) 1 = Some "open"
  ∧ code (fst r) = 200
  ∧ application 1 = Some (1, "accepted")
  ∧ Task.status <$> JsMap.get (tasks (snd r)) 1 = Some "open"
  ∧ application 2 = Some (1, "applied")
  ∧ application 3 = Some (2, "rejected")
  ∧ Task.status <$> JsMap.get (tasks (snd r)) 2 = Some "in-progress".
Proof. vm_compute. done. Qed.

(** ** Deciding an application: the target statuses *)

Lemma decide_invalid_status env user applicationId status s :
  User.role user ∈ ["employer"; "admin"] →
  status ∉ ["applied"; "accepted"; "rejected"] →
  patch_application_status env (Some user) applicationId status s
  = (mkResponse 400 (JMessage "Invalid status"), s).
Proof.
  intros Hrole Hstatus. unfold patch_application_status.
  rewrite requireRole_pass by done. unfold route.
  by rewrite bool_decide_eq_false_2.
Qed.

Lemma decide_back_to_applied env user applicationId s application task :
  User.role user ∈ ["employer"; "admin"] →
  JsMap.get (applications s) applicationId = Some application →
  JsMap.get (tasks s) (Application.taskId application) = Some task →
  neither_owner_nor_admin task user = false →
  (∀ n, notification_fault env n = false) →
  ∃ s', patch_application_status env (Some user) applicationId "applied" s
        = (mkResponse 200
             (JApplication (Application.with_status application "applied")), s')
        ∧ JsMap.get (applications s') applicationId
          = Some (Application.with_status application "applied").
Proof.
  intros Hrole Ha Ht Hown Hok. unfold patch_application_status.
  rewrite requireRole_pass by done. unfold route.
  rewrite (bool_decide_eq_true_2 ("applied" ∈ _)) by (repeat constructor).
  cbn [negb].
  run_store. rewrite Ha. run_store. rewrite Ht, Hown. run_store. rewrite Ha.
  rewrite (bool_decide_eq_false_2 ("applied" = "accepted")) by done.
  run_store. rewrite Hok. run_store.
  eexists. split; [reflexivity|]. autorewrite with store. cbn.
  apply jm_get_set_eq.
Qed.

(** C9.  The decide endpoint takes [applied] as a target besides [accepted]
    and [rejected], and answers 400 "Invalid status" to every other value;
    with [applied] it puts an application back to [applied] whatever its
    status was, and there is a store in which an accepted application is
    so reopened. *)
Theorem decide_accepts_applied :
  (∀ env user applicationId status s,
     User.role user ∈ ["employer"; "admin"] →
     status ∉ ["applied"; "accepted"; "rejected"] →
     patch_application_status env (Some user) applicationId status s
     = (mkResponse 400 (JMessage "Invalid status"), s))
  ∧ (∀ env user applicationId s application task,
       User.role user ∈ ["employer"; "admin"] →
       JsMap.get (applications s) applicationId = Some application →
       JsMap.get (tasks s) (Application.taskId application) = Some task →
       neither_owner_nor_admin task user = false →
       (∀ n, notification_fault env n = false) →
       ∃ s', patch_application_status env (Some user) applicationId "applied" s
             = (mkResponse 200
                  (JApplication (Application.with_status application "applied")),
                s')
             ∧ JsMap.get (applications s') applicationId
               = Some (Application.with_status application "applied"))
  ∧ (∃ env user applicationId s application,
       JsMap.get (applications s) applicationId = Some application
       ∧ Application.status application = "accepted"
       ∧ code (fst (patch_application_status env (Some user) applicationId
                      "applied" s)) = 200
       ∧ Application.status
           <$> JsMap.get
                 (applications
                    (snd (patch_application_status env (Some user) applicationId
                            "applied" s)))
                 applicationId
         = Some "applied").
Proof.
  split_and!.
  - apply decide_invalid_status.
  - apply decide_back_to_applied.
  - exists env0, bob, 1, accepted,
      (Application.with_status alice_application "accepted").
    vm_compute. done.
Qed.

Lemma decide_accepts_applied_witness :
  User.role bob ∈ ["employer"; "admin"]
  ∧ ("pending" ∉ ["applied"; "accepted"; "rejected"])
  ∧ patch_application_status env0 (Some bob) 1 "pending" accepted
    = (mkResponse 400 (JMessage "Invalid status"), accepted)
  ∧ JsMap.get (applications accepted) 2
    = Some (Application.with_status carol_application "rejected")
  ∧ ∃ s', patch_application_status env0 (Some bob) 2 "applied" accepted
          = (mkResponse 200
               (JApplication (Application.with_status carol_application "applied")),
             s')
          ∧ JsMap.get (applications s') 2
            = Some (Application.with_status carol_application "applied").
Proof.
  destruct decide_accepts_applied as (Hinvalid & Happlied & _).
  assert (Hrole : User.role bob ∈ ["employer"; "admin"]) by (repeat constructor).
  assert (Hpending : "pending" ∉ ["applied"; "accepted"; "rejected"]).
  { rewrite !not_elem_of_cons. split_and!; [done..|apply not_elem_of_nil]. }
  split_and!; [exact Hrole | exact Hpending | | reflexivity |].
  - by apply Hinvalid.
  - apply (Happlied env0 bob 2 accepted
             (Application.with_status carol_application "rejected")
             (Task.spread website_task (Task.only_status "in-progress")));
      [exact Hrole | reflexivity.. | done].
Defined.

(** ** Paying *)

(** The legacy path keeps the guard: for a task that is not in progress it
    writes nothing, and a caller who passes the checks before the guard is
    answered 400. *)
Lemma post_payment_requires_in_progress env caller body s application task :
  JsMap.get (applications s) (Payment.i_applicationId body) = Some application →
  JsMap.get (tasks s) (Application.taskId application) = Some task →
  Task.status task ≠ "in-progress" →
  snd (post_payment env caller body s) = s
  ∧ code (fst (post_payment env caller body s)) ≠ 201
  ∧ (∀ user, caller = Some user →
       User.role user ∈ ["employer"; "admin"] →
       parse_payment_status (Payment.i_status body) = true →
       neither_owner_nor_admin task user = false →
       fst (post_payment env caller body s)
       = mkResponse 400
           (JMessage "Cannot mark payment for a task that is not in progress")).
Proof.
  intros Ha Ht Hst. unfold post_payment, requireRole.
  destruct caller as [user|]; [|by split_and!; [..|intros ? [=]]].
  case_bool_decide as Hrole;
    [|by split_and!; [..|intros ? [= <-] ?]].
  unfold route. destruct (parse_payment_status _); cbn [negb];
    [|by split_and!; [..|intros ? _ _ [=]]].
  run_store. rewrite Ha. run_store. rewrite Ht.
  destruct (neither_owner_nor_admin task user) eqn:Hown;
    [by split_and!; [..|intros ? [= <-] _ _ ?; congruence]|].
  rewrite (bool_decide_eq_true_2 (Task.status task ≠ _)) by done.
  by split_and!.
Qed.

(** C2 fails on the primary path.  Task 1 is open; the employer's
    confirmation for application 1 is answered 200, a completed payment is
    recorded and the task is set to completed.  The legacy path refuses the
    same request ([post_payment_requires_in_progress]). *)
Theorem payment_confirm_ignores_task_status :
  let body := mkConfirmBody (Some 1) (inject_Z 5000) true None in
  let r := post_payment_confirm env0 (Some bob) body posted in
  Task.status <$> JsMap.get (tasks posted) 1 = Some "open"
  ∧ code (fst r) = 200
  ∧ Payment.status <$> JsMap.get (payments (snd r)) 1 = Some "completed"
  ∧ Task.status <$> JsMap.get (tasks (snd r)) 1 = Some "completed"
  ∧ fst (post_payment env0 (Some bob)
           (Payment.mkInsert 1 (inject_Z 5000) "completed") posted)
    = mkResponse 400
        (JMessage "Cannot mark payment for a task that is not in progress").
Proof. vm_compute. done. Qed.

(** C10, as amended.  The primary path asks for no more than a session: for
    any caller, and any application, sent by its id (a number other than
    0), whose task is in the store, the call is never answered 403; the
    gateway check lets it proceed whenever the body has no paymentIntentId
    or no gateway is configured; and whenever the check lets it proceed,
    it records a completed payment of the amount the check gives, under
    the next payment id; when moreover the task is stored under its own
    id, it sets the task to completed, the other fields of the task as
    they were, and, with the notification stored, answers 200 with the
    payment. *)
Theorem payment_confirm_unchecked env user body s appId application task :
  cb_applicationId body = Some appId →
  appId ≠ 0 →
  JsMap.get (applications s) appId = Some application →
  JsMap.get (tasks s) (Application.taskId application) = Some task →
  let r := post_payment_confirm env (Some user) body s in
  code (fst r) ≠ 403
  ∧ (cb_paymentIntentId body = None ∨ stripe env = None →
     verify_payment env body = Proceed (cb_amount body) "simulated-payment")
  ∧ (∀ paymentAmount paymentReference,
       verify_payment env body = Proceed paymentAmount paymentReference →
       let payment :=
         Payment.mk (currentPaymentId s) appId paymentAmount "completed"
           (now env) in
       JsMap.get (payments (snd r)) (currentPaymentId s) = Some payment
       ∧ (Task.id task = Application.taskId application →
          JsMap.get (tasks (snd r)) (Task.id task)
          = Some (Task.mk (Task.id task) (Task.title task)
                    (Task.description task) (Task.budget task)
                    (Task.deadline task) (Task.requiredSkills task)
                    (Task.employerId task) "completed" (Task.createdAt task))
          ∧ ((∀ n, notification_fault env n = false) →
             fst r
             = mkResponse 200
                 (JPaymentConfirmed true "Payment confirmed and recorded"
                    payment)))).
Proof.
  intros Hid Hne Ha Ht r.
  assert (Hgate : cb_paymentIntentId body = None ∨ stripe env = None →
                  verify_payment env body
                  = Proceed (cb_amount body) "simulated-payment").
  { unfold verify_payment. intros [-> | ->]; [done|].
    by destruct (cb_paymentIntentId body). }
  cut (code (fst r) ≠ 403
       ∧ (∀ paymentAmount paymentReference,
            verify_payment env body = Proceed paymentAmount paymentReference →
            JsMap.get (payments (snd r)) (currentPaymentId s)
            = Some (Payment.mk (currentPaymentId s) appId paymentAmount
                      "completed" (now env))
            ∧ (Task.id task = Application.taskId application →
               JsMap.get (tasks (snd r)) (Task.id task)
               = Some (Task.mk (Task.id task) (Task.title task)
                         (Task.description task) (Task.budget task)
                         (Task.deadline task) (Task.requiredSkills task)
                         (Task.employerId task) "completed"
                         (Task.createdAt task))
               ∧ ((∀ n, notification_fault env n = false) →
                  fst r
                  = mkResponse 200
                      (JPaymentConfirmed true "Payment confirmed and recorded"
                         (Payment.mk (currentPaymentId s) appId paymentAmount
                            "completed" (now env))))))).
  { intros [Hcode Hpaid]. by split_and!. }
  clear Hgate. subst r.
  unfold post_payment_confirm, requireAuth, route.
  rewrite (missing_applicationId_false _ _ Hid Hne), Hid.
  cbn [default from_option id]. cbv zeta.
  run_store. rewrite Ha. run_store. rewrite Ht.
  destruct (verify_payment env body) as [amount reference|status|message];
    [|by split..].
  run_store. cbn [tasks set_payments set_currentPaymentId].
  destruct (JsMap.get (tasks s) (Task.id task)) as [stored|] eqn:Hstored;
    run_store.
  - split; [by destruct (notification_fault env _)|].
    intros ? ? [= <- <-].
    destruct (notification_fault env _) eqn:Hfault; run_store.
    + split; [apply jm_get_set_eq|].
      intros Hown. rewrite Hown, Ht in Hstored. injection Hstored as <-.
      split; [apply jm_get_set_eq|].
      intros Hok. by rewrite Hok in Hfault.
    + autorewrite with store. cbn [fst snd payments tasks set_tasks set_payments].
      split; [apply jm_get_set_eq|].
      intros Hown. rewrite Hown, Ht in Hstored. injection Hstored as <-.
      split; [apply jm_get_set_eq | done].
  - split; [done|]. intros ? ? [= <- <-].
    split; [apply jm_get_set_eq|].
    intros Hown. rewrite Hown, Ht in Hstored. discriminate.
Qed.

Lemma payment_confirm_unchecked_witness :
  let body := mkConfirmBody (Some 1) (inject_Z 5000) true None in
  let r := post_payment_confirm env0 (Some mallory) body accepted in
  cb_applicationId body = Some 1
  ∧ JsMap.get (applications accepted) 1
    = Some (Application.mk 1 1 1 "I have built three websites like this one."
              "accepted" 1000)
  ∧ JsMap.get (tasks accepted) 1
    = Some (Task.mk 1 "Website" "Build the website of the chess club."
              (inject_Z 5000) 604800000 ["JavaScript"] 2 "in-progress" 1000)
  ∧ verify_payment env0 body = Proceed (inject_Z 5000) "simulated-payment"
  ∧ code (fst r) ≠ 403
  ∧ JsMap.get (payments (snd r)) 1
    = Some (Payment.mk 1 1 (inject_Z 5000) "completed" 1000)
  ∧ JsMap.get (tasks (snd r)) 1
    = Some (Task.mk 1 "Website" "Build the website of the chess club."
              (inject_Z 5000) 604800000 ["JavaScript"] 2 "completed" 1000)
  ∧ fst r
    = mkResponse 200
        (JPaymentConfirmed true "Payment confirmed and recorded"
           (Payment.mk 1 1 (inject_Z 5000) "completed" 1000)).
Proof.
  destruct (payment_confirm_unchecked env0 mallory
              (mkConfirmBody (Some 1) (inject_Z 5000) true None) accepted 1
              (Application.mk 1 1 1 "I have built three websites like this one."
                 "accepted" 1000)
              (Task.mk 1 "Website" "Build the website of the chess club."
                 (inject_Z 5000) 604800000 ["JavaScript"] 2 "in-progress" 1000))
    as (Hcode & _ & Hpaid); [reflexivity | done | reflexivity..|].
  destruct (Hpaid (inject_Z 5000) "simulated-payment") as (Hp & Hown);
    [reflexivity|].
  destruct Hown as (Htask & Hanswer); [reflexivity|].
  split_and!;
    [reflexivity.. | exact Hcode | exact Hp | exact Htask | by apply Hanswer].
Defined.

(** C10, as stated, fails: with a gateway configured and an intent that has
    not succeeded, the confirmation is answered 400, no payment is recorded
    and the task stays in progress. *)
Lemma payment_confirm_blocked_by_gateway :
  let body := mkConfirmBody (Some 1) (inject_Z 5000) false (Some "pi_1") in
  let r := post_payment_confirm env_gateway (Some bob) body accepted in
  JsMap.get (applications accepted) 1
  = Some (Application.with_status alice_application "accepted")
  ∧ Task.status <$> JsMap.get (tasks accepted) 1 = Some "in-progress"
  ∧ code (fst r) = 400
  ∧ payments (snd r) = []
  ∧ Task.status <$> JsMap.get (tasks (snd r)) 1 = Some "in-progress".
Proof. vm_compute. done. Qed.

(** Nor does the task end completed when it is not stored under its own
    id.  After a PATCH /api/tasks/1 with the body [{ id: 2 }], the
    confirmation for the application on task 1 records the payment, fails
    in [updateTask] with the id 2, and is answered 500; the task stays
    open. *)
Example payment_confirm_with_rewritten_task_id :
  let s := run [(env0, PostTask (Some bob) website);
                (env0, PostApplication (Some alice) (apply_to 1));
                (env0, PatchTask (Some bob) 1
                         (Task.mkPartial (Some 2) None None None None None None
                            None None))] registered in
  let body := mkConfirmBody (Some 1) (inject_Z 5000) true None in
  let r := post_payment_confirm env0 (Some bob) body s in
  Application.taskId <$> JsMap.get (applications s) 1 = Some 1
  ∧ (λ t, (Task.id t, Task.status t)) <$> JsMap.get (tasks s) 1
    = Some (2, "open")
  ∧ code (fst r) = 500
  ∧ JsMap.get (payments (snd r)) 1
    = Some (Payment.mk 1 1 (inject_Z 5000) "completed" 1000)
  ∧ (λ t, (Task.id t, Task.status t)) <$> JsMap.get (tasks (snd r)) 1
    = Some (2, "open").
Proof. vm_compute. done. Qed.

(** ** Storing a notification *)

(** [MemStorage.createNotification] has no failing path: in every store it
    returns the notification it has stored under the next id. *)
Lemma createNotification_returns now insertNotification s :
  MemStorage.createNotification now insertNotification s
  = (Ret (new_notification now insertNotification s),
     notified now insertNotification s).
Proof. reflexivity. Qed.

(** So do the routes' calls of it over the store of the repository. *)
Lemma storage_createNotification_returns env insertNotification s :
  (∀ n, notification_fault env n = false) →
  storage_createNotification env insertNotification s
  = (Ret (new_notification (now env) insertNotification s),
     notified (now env) insertNotification s).
Proof. intros Hok. unfold storage_createNotification. by rewrite Hok. Qed.

(** No route has a [catch] of its own around the call: behind a store whose
    [createNotification] rejected, the outer [catch] of each route would
    answer 500 after the writes made before the call. *)

Section NotificationFails.
Variable env : Env.
Hypothesis Hfail : ∀ n, notification_fault env n = true.

Lemma submit_fails_after_store user body s task :
  User.role user = "student" →
  parse_application_status (Application.i_status body) = true →
  ¬ has_applied s (User.id user) (Application.i_taskId body) →
  JsMap.get (tasks s) (Application.i_taskId body) = Some task →
  ∃ s', post_application env (Some user) body s
        = (mkResponse 500 (JMessage "Failed to create application"), s')
        ∧ JsMap.get (applications s') (currentApplicationId s)
          = Some (new_application (now env)
                    (Application.mkInsert (Application.i_taskId body)
                       (User.id user) (Application.i_coverLetter body)
                       (Application.i_status body)) s).
Proof.
  intros Hrole Hparse Hnew Htask.
  unfold post_application.
  rewrite requireRole_pass by (rewrite Hrole; repeat constructor).
  unfold route. rewrite Hparse. cbn [negb].
  run_store. rewrite find_application_None by done.
  run_store. cbn [tasks set_applications set_currentApplicationId].
  rewrite Htask. run_store. rewrite Hfail.
  eexists. split; [reflexivity|]. cbn. apply jm_get_set_eq.
Qed.

Lemma decide_fails_after_update user applicationId status s application task :
  User.role user ∈ ["employer"; "admin"] →
  status ∈ ["applied"; "accepted"; "rejected"] →
  JsMap.get (applications s) applicationId = Some application →
  JsMap.get (tasks s) (Task.id task) = Some task →
  Application.taskId application = Task.id task →
  neither_owner_nor_admin task user = false →
  ∃ s', patch_application_status env (Some user) applicationId status s
        = (mkResponse 500 (JMessage "Failed to update application status"), s')
        ∧ JsMap.get (applications s') applicationId
          = Some (Application.with_status application status)
        ∧ (status = "accepted" →
           JsMap.get (tasks s') (Task.id task)
           = Some (Task.spread task (Task.only_status "in-progress"))).
Proof.
  intros Hrole Hstatus Ha Ht Hon Hown. unfold patch_application_status.
  rewrite requireRole_pass by done. unfold route.
  rewrite (bool_decide_eq_true_2 (status ∈ _)) by done. cbn [negb].
  run_store. rewrite Ha. run_store. rewrite Hon, Ht, Hown. run_store. rewrite Ha.
  run_store. case_bool_decide as Hacc.
  - run_store. cbn [tasks set_applications]. rewrite Ht. run_store.
    match goal with |- context [reject_others env task applicationId ?l ?s2] =>
      pose proof (reject_others_frame env task applicationId l s2) as Hframe;
      destruct (reject_others env task applicationId l s2) as [[[]|e] s3]
    end; cbn [snd] in Hframe; destruct Hframe as (Htasks & _ & _ & Happ);
      run_store; rewrite ?Hfail;
      (eexists; split; [reflexivity|]); rewrite Htasks, Happ; cbn;
      rewrite !jm_get_set_eq; done.
  - run_store. rewrite Hfail.
    eexists. split; [reflexivity|]. cbn. by rewrite jm_get_set_eq.
Qed.

Lemma confirm_fails_after_payment user body s appId application task
    paymentAmount paymentReference :
  cb_applicationId body = Some appId →
  appId ≠ 0 →
  JsMap.get (applications s) appId = Some application →
  JsMap.get (tasks s) (Task.id task) = Some task →
  Application.taskId application = Task.id task →
  verify_payment env body = Proceed paymentAmount paymentReference →
  ∃ s', post_payment_confirm env (Some user) body s
        = (mkResponse 500
             (JMessageError "Error confirming payment"
                "Failed to create notification"), s')
        ∧ JsMap.get (payments s') (currentPaymentId s)
          = Some (new_payment (now env)
                    (Payment.mkInsert appId paymentAmount "completed") s)
        ∧ JsMap.get (tasks s') (Task.id task)
          = Some (Task.spread task (Task.only_status "completed")).
Proof.
  intros Hid Hne Ha Ht Hon Hverify.
  unfold post_payment_confirm, requireAuth, route.
  rewrite (missing_applicationId_false _ _ Hid Hne), Hid.
  cbn [default from_option id]. cbv zeta.
  run_store. rewrite Ha. run_store. rewrite Hon, Ht, Hverify.
  run_store. cbn [tasks set_payments set_currentPaymentId]. rewrite Ht.
  run_store. rewrite Hfail.
  eexists. split_and!; [reflexivity | |]; cbn; apply jm_get_set_eq.
Qed.

Lemma legacy_payment_fails_after_payment user body s application task :
  User.role user ∈ ["employer"; "admin"] →
  parse_payment_status (Payment.i_status body) = true →
  JsMap.get (applications s) (Payment.i_applicationId body) = Some application →
  JsMap.get (tasks s) (Task.id task) = Some task →
  Application.taskId application = Task.id task →
  neither_owner_nor_admin task user = false →
  Task.status task = "in-progress" →
  ∃ s', post_payment env (Some user) body s
        = (mkResponse 500 (JMessage "Failed to create payment"), s')
        ∧ JsMap.get (payments s') (currentPaymentId s)
          = Some (new_payment (now env) body s)
        ∧ JsMap.get (tasks s') (Task.id task)
          = Some (Task.spread task (Task.only_status "completed")).
Proof.
  intros Hrole Hparse Ha Ht Hon Hown Hst. unfold post_payment.
  rewrite requireRole_pass by done. unfold route. rewrite Hparse. cbn [negb].
  run_store. rewrite Ha. run_store. rewrite Hon, Ht, Hown.
  rewrite (bool_decide_eq_false_2 (Task.status task ≠ _)) by (by intros []).
  run_store. cbn [tasks set_payments set_currentPaymentId]. rewrite Ht.
  run_store. rewrite Hfail.
  eexists. split_and!; [reflexivity | |]; cbn; apply jm_get_set_eq.
Qed.
End NotificationFails.

(** ** One application per student and task *)

Section Preserves.
Context {P : MemStorage.t → Prop}.

Lemma preserves_ret {A} (a : A) : preserves P (ret a).
Proof. by intros s. Qed.

Lemma preserves_throw {A} e : preserves P (throw (A:=A) e).
Proof. by intros s. Qed.

Lemma preserves_gets {A} (f : MemStorage.t → A) : preserves P (gets f).
Proof. by intros s. Qed.

Lemma preserves_bind {A B} (m : M MemStorage.t A) (k : A → M MemStorage.t B) :
  preserves P m → (∀ a, preserves P (k a)) → preserves P (m ≫= k).
Proof.
  intros Hm Hk s Hs. specialize (Hm s Hs). rewrite bind_run.
  destruct (m s) as [[a|e] s1]; [by apply Hk | done].
Qed.

Lemma route_keeps body failure : preserves P body → keeps P (route body failure).
Proof.
  intros Hbody s Hs. specialize (Hbody s Hs). unfold route.
  by destruct (body s) as [[r|e] s1].
Qed.

Lemma requireAuth_keeps caller next :
  (∀ user, keeps P (next user)) → keeps P (requireAuth caller next).
Proof.
  intros Hnext. unfold requireAuth. destruct caller; [apply Hnext | by intros s].
Qed.

Lemma requireRole_keeps roles caller next :
  (∀ user, keeps P (next user)) → keeps P (requireRole roles caller next).
Proof.
  intros Hnext. unfold requireRole. destruct caller; [|by intros s].
  case_bool_decide; [apply Hnext | by intros s].
Qed.
End Preserves.

(** Splits a goal [preserves P m] along the shape of [m]. *)
Ltac preserves_step :=
  first
    [ apply preserves_ret | apply preserves_throw | apply preserves_gets
    | apply preserves_bind; [|intros ?]
    | match goal with
      | |- preserves _ (if ?b then _ else _) => destruct b
      | |- preserves _ (match ?x with _ => _ end) => destruct x
      | |- preserves _ (let _ := _ in _) => cbv zeta
      | |- preserves _ (respond _ _) => apply preserves_ret
      end ].

Section ApplicationsInv.

(** The methods that do not write applications. *)
Lemma updateUser_preserves id userData :
  preserves applications_inv (updateUser id userData).
Proof. intros s Hs. rewrite updateUser_run. by destruct (JsMap.get _ _). Qed.

Lemma createTask_preserves now ins : preserves applications_inv (createTask now ins).
Proof. by intros s Hs. Qed.

Lemma updateTask_preserves id taskData :
  preserves applications_inv (updateTask id taskData).
Proof. intros s Hs. rewrite updateTask_run. by destruct (JsMap.get _ _). Qed.

Lemma createPayment_preserves now ins :
  preserves applications_inv (createPayment now ins).
Proof. by intros s Hs. Qed.

Lemma storage_createNotification_preserves env ins :
  preserves applications_inv (storage_createNotification env ins).
Proof.
  intros s Hs. rewrite storage_createNotification_run.
  by destruct (notification_fault _ _).
Qed.

Lemma awardBadgeToUser_preserves now ins :
  preserves applications_inv (awardBadgeToUser now ins).
Proof.
  intros s Hs. rewrite awardBadgeToUser_run. by destruct (List.find _ _).
Qed.

(** A change of status keeps the keys, the ids and the pairs. *)
Lemma updateApplicationStatus_preserves id status :
  preserves applications_inv (updateApplicationStatus id status).
Proof.
  intros s (Hok & Hfresh & Hone). rewrite updateApplicationStatus_run.
  destruct (JsMap.get (applications s) id) as [a|] eqn:Hget; [|done].
  apply andb_true_iff in Hok as [Hdist Hfiled].
  split_and!; cbn [snd applications currentApplicationId set_applications].
  - unfold applications_ok. cbn [applications set_applications].
    apply andb_true_iff. split; [by apply jm_distinct_keys_set|].
    apply filed_under_id_set; [|done].
    rewrite filed_under_id_spec in Hfiled.
    apply (Hfiled id a). by apply jm_get_Some_elem.
  - intros k.
    rewrite jm_keys_set, bool_decide_eq_true_2 by by eapply jm_get_Some_keys.
    apply Hfresh.
  - intros studentId taskId. unfold applications_of.
    cbn [applications set_applications].
    rewrite (jm_filter_values_set _ _ _ _ a Hget); [apply Hone | done].
Qed.

Lemma reject_others_preserves env task applicationId others :
  preserves applications_inv (reject_others env task applicationId others).
Proof.
  induction others as [|app rest IH]; cbn [reject_others].
  - apply preserves_ret.
  - apply preserves_bind; [|done].
    destruct (_ && _); [|apply preserves_ret].
    apply preserves_bind; [apply updateApplicationStatus_preserves|intros _].
    apply preserves_bind; [apply storage_createNotification_preserves|intros _].
    apply preserves_ret.
Qed.

(** Storing an application for a pair that has none keeps the invariant. *)
Lemma createApplication_preserves now ins s :
  applications_inv s →
  applications_of s (Application.i_studentId ins) (Application.i_taskId ins) = [] →
  applications_inv (snd (createApplication now ins s)).
Proof.
  intros (Hok & Hfresh & Hone) Hnil. rewrite createApplication_run. cbn [snd].
  apply andb_true_iff in Hok as [Hdist Hfiled].
  assert (Hnin : currentApplicationId s ∉ JsMap.keys (applications s)).
  { intros Hin%Hfresh. lia. }
  split_and!;
    cbn [applications currentApplicationId set_applications set_currentApplicationId].
  - unfold applications_ok.
    cbn [applications set_applications set_currentApplicationId].
    apply andb_true_iff. split; [by apply jm_distinct_keys_set|].
    by apply filed_under_id_set.
  - intros k. rewrite jm_keys_set, bool_decide_eq_false_2 by done.
    intros [Hk| ->%list_elem_of_singleton]%elem_of_app; [apply Hfresh in Hk|]; lia.
  - intros studentId taskId. unfold applications_of in *.
    cbn [applications set_applications set_currentApplicationId].
    rewrite jm_set_fresh by done. unfold JsMap.values.
    rewrite map_app, List.filter_app, length_app. cbn [map snd List.filter].
    fold (JsMap.values (applications s)).
    destruct (same_pair studentId taskId (new_application now ins s)) eqn:Hp.
    + apply andb_true_iff in Hp as [H1%bool_decide_eq_true H2%bool_decide_eq_true].
      cbn in H1, H2. subst. by rewrite Hnil.
    + specialize (Hone studentId taskId). cbn. lia.
Qed.
End ApplicationsInv.

Create HintDb preserves discriminated.
#[global] Hint Resolve updateUser_preserves createTask_preserves
  updateTask_preserves createPayment_preserves
  storage_createNotification_preserves awardBadgeToUser_preserves
  updateApplicationStatus_preserves reject_others_preserves : preserves.

Ltac preserves_auto :=
  repeat first [ solve [auto with preserves] | preserves_step ].

Section HandlersKeep.
Variable env : Env.

Lemma patch_user_keeps caller userId body :
  keeps applications_inv (patch_user caller userId body).
Proof.
  apply requireAuth_keeps; intros user. apply route_keeps. preserves_auto.
Qed.

Lemma post_task_keeps caller body :
  keeps applications_inv (post_task env caller body).
Proof.
  apply requireRole_keeps; intros user. apply route_keeps. preserves_auto.
Qed.

Lemma patch_task_keeps caller taskId body :
  keeps applications_inv (patch_task caller taskId body).
Proof.
  apply requireRole_keeps; intros user. apply route_keeps. preserves_auto.
Qed.

Lemma patch_application_status_keeps caller applicationId status :
  keeps applications_inv (patch_application_status env caller applicationId status).
Proof.
  apply requireRole_keeps; intros user. apply route_keeps. preserves_auto.
Qed.

Lemma post_payment_keeps caller body :
  keeps applications_inv (post_payment env caller body).
Proof.
  apply requireRole_keeps; intros user. apply route_keeps. preserves_auto.
Qed.

Lemma post_badge_award_keeps caller body :
  keeps applications_inv (post_badge_award env caller body).
Proof.
  apply requireRole_keeps; intros user. apply route_keeps. preserves_auto.
Qed.

Lemma post_payment_confirm_keeps caller body :
  keeps applications_inv (post_payment_confirm env caller body).
Proof.
  apply requireAuth_keeps; intros user. apply route_keeps. preserves_auto.
Qed.

(** The submission stores an application only behind the duplicate check. *)
Lemma post_application_keeps caller body :
  keeps applications_inv (post_application env caller body).
Proof.
  apply requireRole_keeps; intros user. intros s Hs. unfold route.
  destruct (parse_application_status _); cbn [negb]; [|done].
  run_store.
  destruct (List.find _ _) eqn:Hfind; [done|].
  apply find_none_filter in Hfind.
  run_store.
  match goal with |- context [set_applications ?apps ?s0] =>
    assert (Hs1 : applications_inv (set_applications apps s0))
      by (by apply (createApplication_preserves (now env)
                      (Application.mkInsert _ _ _ _) s Hs));
    set (s1 := set_applications apps s0) in *
  end.
  destruct (JsMap.get (tasks s1) _); run_store; [|done].
  by destruct (notification_fault env _).
Qed.
End HandlersKeep.

Lemma handle_keeps env call : keeps applications_inv (handle env call).
Proof.
  destruct call; cbn [handle];
    auto using patch_user_keeps, post_task_keeps, patch_task_keeps,
      post_application_keeps, patch_application_status_keeps,
      post_payment_keeps, post_badge_award_keeps, post_payment_confirm_keeps.
Qed.

Lemma run_keeps calls s : applications_inv s → applications_inv (run calls s).
Proof.
  revert s. induction calls as [|[env call] calls IH]; intros s Hs; [done|].
  cbn [run]. apply IH. by apply handle_keeps.
Qed.

Lemma applications_inv_new : applications_inv MemStorage.new.
Proof.
  split_and!.
  - reflexivity.
  - by intros k ?%elem_of_nil.
  - intros studentId taskId. vm_compute. lia.
Qed.

(** Every store the routes reach from the start has a well-formed
    applications map. *)
Lemma run_applications_ok calls : applications_ok (run calls MemStorage.new) = true.
Proof. apply (run_keeps calls _ applications_inv_new). Qed.

(** A second submission is answered 400 and writes nothing. *)
Lemma submit_twice_refused env user body s :
  User.role user = "student" →
  has_applied s (User.id user) (Application.i_taskId body) →
  let r := post_application env (Some user) body s in
  code (fst r) = 400
  ∧ snd r = s
  ∧ (parse_application_status (Application.i_status body) = true →
     json (fst r) = JMessage "You have already applied to this task").
Proof.
  intros Hrole Hdup. unfold post_application.
  rewrite requireRole_pass by (rewrite Hrole; repeat constructor).
  unfold route. destruct (parse_application_status _); cbn [negb]; [|done].
  run_store. by destruct (find_application_Some _ _ _ Hdup) as [a ->].
Qed.

(** C3.  Whatever requests the server has handled since it started, its
    store holds at most one application for every student and task; and a
    student's further submission for a task they have an application for is
    answered 400, with "You have already applied to this task" when its
    body is valid, and leaves the store as it was. *)
Theorem one_application_per_pair :
  (∀ calls studentId taskId,
     (length (applications_of (run calls MemStorage.new) studentId taskId)
      ≤ 1)%nat)
  ∧ (∀ env user body s,
       User.role user = "student" →
       has_applied s (User.id user) (Application.i_taskId body) →
       let r := post_application env (Some user) body s in
       code (fst r) = 400
       ∧ snd r = s
       ∧ (parse_application_status (Application.i_status body) = true →
          json (fst r) = JMessage "You have already applied to this task")).
Proof.
  split.
  - intros calls. apply (run_keeps calls MemStorage.new applications_inv_new).
  - apply submit_twice_refused.
Qed.

Lemma one_application_per_pair_witness :
  (length (applications_of
             (run [(env0, PostTask (Some bob) website);
                   (env0, PostApplication (Some alice) (apply_to 1));
                   (env0, PostApplication (Some alice) (apply_to 1))]
                MemStorage.new) 1 1) ≤ 1)%nat
  ∧ User.role alice = "student"
  ∧ has_applied posted (User.id alice) (Application.i_taskId (apply_to 1))
  ∧ post_application env0 (Some alice) (apply_to 1) posted
    = (mkResponse 400 (JMessage "You have already applied to this task"), posted).
Proof.
  destruct one_application_per_pair as [Hone Htwice].
  assert (Hdup : has_applied posted (User.id alice)
                   (Application.i_taskId (apply_to 1))).
  { exists alice_application. split_and!; [left | reflexivity..]. }
  split_and!; [apply Hone | reflexivity | exact Hdup |].
  destruct (Htwice env0 alice (apply_to 1) posted) as (Hcode & Hstore & Hjson);
    [reflexivity | exact Hdup |].
  destruct (post_application env0 (Some alice) (apply_to 1) posted)
    as [[c j] s']. cbn [fst snd code json] in *.
  by rewrite Hcode, Hstore, Hjson.
Defined.

(** ** Updating a user *)

Section UsersFrame.
Variable Q : JsMap.t User.t → Prop.

(** The methods that do not write users. *)
Lemma createTask_users now ins : preserves (on_users Q) (createTask now ins).
Proof. by intros s Hs. Qed.

Lemma updateTask_users id taskData : preserves (on_users Q) (updateTask id taskData).
Proof. intros s Hs. rewrite updateTask_run. by destruct (JsMap.get _ _). Qed.

Lemma createApplication_users now ins :
  preserves (on_users Q) (createApplication now ins).
Proof. by intros s Hs. Qed.

Lemma updateApplicationStatus_users id status :
  preserves (on_users Q) (updateApplicationStatus id status).
Proof.
  intros s Hs. rewrite updateApplicationStatus_run. by destruct (JsMap.get _ _).
Qed.

Lemma createPayment_users now ins : preserves (on_users Q) (createPayment now ins).
Proof. by intros s Hs. Qed.

Lemma awardBadgeToUser_users now ins :
  preserves (on_users Q) (awardBadgeToUser now ins).
Proof.
  intros s Hs. rewrite awardBadgeToUser_run. by destruct (List.find _ _).
Qed.

Lemma storage_createNotification_users env ins :
  preserves (on_users Q) (storage_createNotification env ins).
Proof.
  intros s Hs. rewrite storage_createNotification_run.
  by destruct (notification_fault _ _).
Qed.

Lemma reject_others_users env task applicationId others :
  preserves (on_users Q) (reject_others env task applicationId others).
Proof.
  intros s Hs. unfold on_users.
  by destruct (reject_others_frame env task applicationId others s)
    as (_ & -> & _).
Qed.
End UsersFrame.

#[global] Hint Resolve createTask_users updateTask_users createApplication_users
  updateApplicationStatus_users createPayment_users awardBadgeToUser_users
  storage_createNotification_users reject_others_users : preserves.

(** One update with a body that has no [id] and no [role] field. *)
Lemma patch_user_step caller userId body k id role :
  User.p_id body = None →
  User.p_role body = None →
  keeps (on_users (has_id_role k id role)) (patch_user caller userId body).
Proof.
  intros Hid Hrole s Hs. pose proof Hs as (u & Hk & Hi & Hr).
  unfold patch_user, requireAuth. destruct caller as [user|]; [|exact Hs].
  unfold route. destruct (_ && _); [exact Hs|].
  run_store.
  destruct (JsMap.get (users s) userId) as [user0|] eqn:Hget; [|exact Hs].
  run_store. unfold on_users, has_id_role. cbn [snd users set_users].
  rewrite jm_get_set. case_bool_decide as Heq; [|exact Hs].
  subst k. rewrite Hget in Hk. injection Hk as ->.
  eexists. split; [done|]. unfold User.spread. cbn. by rewrite Hid, Hrole.
Qed.

(** No other route writes users. *)
Lemma handle_keeps_users env call k id role :
  no_id_role call = true →
  keeps (on_users (has_id_role k id role)) (handle env call).
Proof.
  destruct call; cbn [handle no_id_role]; intros Hclean.
  - apply andb_true_iff in Hclean as [?%bool_decide_eq_true ?%bool_decide_eq_true].
    by apply patch_user_step.
  - apply requireRole_keeps; intros user. apply route_keeps. preserves_auto.
  - apply requireRole_keeps; intros user. apply route_keeps. preserves_auto.
  - apply requireRole_keeps; intros user. apply route_keeps. preserves_auto.
  - apply requireRole_keeps; intros user. apply route_keeps. preserves_auto.
  - apply requireRole_keeps; intros user. apply route_keeps. preserves_auto.
  - apply requireRole_keeps; intros user. apply route_keeps. preserves_auto.
  - apply requireAuth_keeps; intros user. apply route_keeps. preserves_auto.
Qed.

(** C6, as amended.  Through any sequence of requests in which no
    [PATCH /api/users/:id] body carries an [id] or a [role] field, every
    stored user keeps the id and the role it had, whoever calls and
    whatever else the bodies hold. *)
Theorem patch_user_keeps_id_role calls s k u :
  forallb (λ request, no_id_role (snd request)) calls = true →
  JsMap.get (users s) k = Some u →
  ∃ u', JsMap.get (users (run calls s)) k = Some u'
        ∧ User.id u' = User.id u ∧ User.role u' = User.role u.
Proof.
  intros Hclean Hk.
  assert (Hs : on_users (has_id_role k (User.id u) (User.role u)) s)
    by by exists u.
  clear Hk. revert s Hs.
  induction calls as [|[env call] calls IH]; intros s Hs; [exact Hs|].
  cbn [forallb snd] in Hclean. apply andb_true_iff in Hclean as [Hcall Hcalls].
  cbn [run]. apply (IH Hcalls). by apply handle_keeps_users.
Qed.

Lemma patch_user_keeps_id_role_witness :
  let rename :=
    User.mkPartial None None None None (Some "Alice A.") None None None None None in
  let calls :=
    [(env0, PatchUser (Some alice) 1 rename);
     (env0, PostTask (Some bob) website);
     (env0, PostApplication (Some alice) (apply_to 1))] in
  forallb (λ request, no_id_role (snd request)) calls = true
  ∧ JsMap.get (users registered) 1 = Some alice
  ∧ User.fullName <$> JsMap.get (users (run calls registered)) 1 = Some "Alice A."
  ∧ ∃ u', JsMap.get (users (run calls registered)) 1 = Some u'
          ∧ User.id u' = User.id alice ∧ User.role u' = User.role alice.
Proof.
  split_and!; [reflexivity..|].
  apply (patch_user_keeps_id_role _ registered 1 alice); reflexivity.
Defined.

(** C6, as stated, fails: a student who sends [{ role: "admin" }] for their
    own id is answered 200 and is an admin afterwards, and a body with an
    [id] field rewrites the id of the stored user. *)
Lemma patch_user_changes_role :
  let promote :=
    User.mkPartial None None None None None (Some "admin") None None None None in
  let renumber :=
    User.mkPartial (Some 7) None None None None None None None None None in
  User.role <$> JsMap.get (users registered) 1 = Some "student"
  ∧ code (fst (patch_user (Some alice) 1 promote registered)) = 200
  ∧ User.role
      <$> JsMap.get (users (snd (patch_user (Some alice) 1 promote registered))) 1
    = Some "admin"
  ∧ User.id
      <$> JsMap.get (users (snd (patch_user (Some alice) 1 renumber registered))) 1
    = Some 7.
Proof. vm_compute. done. Qed.

(** ** Awarding badges *)

Section Awards.
Implicit Types (s : MemStorage.t) (ins : UserBadge.insert).

Lemma same_award_eta ins :
  same_award (UserBadge.mkInsert (UserBadge.i_userId ins) (UserBadge.i_badgeId ins))
  = same_award ins.
Proof. reflexivity. Qed.

(** One award: the pair awarded has one association afterwards, the other
    pairs as many as before. *)
Lemma award_step now ins s :
  awards_inv s →
  let s' := snd (awardBadgeToUser now ins s) in
  awards_inv s'
  ∧ ∀ userId badgeId,
      length (awards_of s' userId badgeId)
      = if bool_decide ((userId, badgeId)
                        = (UserBadge.i_userId ins, UserBadge.i_badgeId ins))
        then 1%nat else length (awards_of s userId badgeId).
Proof.
  intros [Hfresh Hone]. rewrite awardBadgeToUser_run.
  destruct (List.find _ _) as [existing|] eqn:Hfind; cbn [snd].
  - split; [done|]. intros userId badgeId. case_bool_decide as Heq; [|done].
    injection Heq as -> ->.
    specialize (Hone (UserBadge.i_userId ins) (UserBadge.i_badgeId ins)).
    unfold awards_of in *. rewrite same_award_eta in *.
    destruct (List.filter _ _) eqn:Hfilter; [|cbn in *; lia].
    apply find_none_filter in Hfilter. congruence.
  - assert (Hnin : currentUserBadgeId s ∉ JsMap.keys (userBadges s)).
    { intros Hin%Hfresh. lia. }
    assert (Hcount : ∀ userId badgeId,
              length (awards_of
                        (set_userBadges
                           (JsMap.set (userBadges s) (currentUserBadgeId s)
                              (new_userBadge now ins s))
                           (set_currentUserBadgeId (currentUserBadgeId s + 1) s))
                        userId badgeId)
              = if bool_decide ((userId, badgeId)
                                = (UserBadge.i_userId ins, UserBadge.i_badgeId ins))
                then 1%nat else length (awards_of s userId badgeId)).
    { intros userId badgeId. unfold awards_of.
      cbn [userBadges set_userBadges set_currentUserBadgeId].
      rewrite jm_set_fresh by done. unfold JsMap.values.
      rewrite map_app, List.filter_app, length_app. cbn [map snd List.filter].
      fold (JsMap.values (userBadges s)).
      case_bool_decide as Heq.
      - injection Heq as -> ->. rewrite same_award_eta.
        apply find_none_filter in Hfind. rewrite Hfind.
        unfold same_award. cbn. by rewrite !bool_decide_eq_true_2.
      - replace (same_award _ (new_userBadge now ins s)) with false; [cbn; lia|].
        symmetry. apply not_true_is_false.
        intros [H1%bool_decide_eq_true H2%bool_decide_eq_true]%andb_true_iff.
        cbn in H1, H2. congruence. }
    split; [split|exact Hcount].
    + cbn [userBadges currentUserBadgeId set_userBadges set_currentUserBadgeId].
      intros k. rewrite jm_keys_set, bool_decide_eq_false_2 by done.
      intros [Hk| ->%list_elem_of_singleton]%elem_of_app;
        [apply Hfresh in Hk|]; lia.
    + intros userId badgeId. rewrite Hcount. case_bool_decide; [lia | apply Hone].
Qed.

Lemma award_all_count awards s :
  awards_inv s →
  ∀ userId badgeId,
    length (awards_of (award_all awards s) userId badgeId)
    = if bool_decide ((userId, badgeId) ∈ map award_pair awards)
      then 1%nat else length (awards_of s userId badgeId).
Proof.
  revert s. induction awards as [|[now ins] awards IH]; intros s Hs userId badgeId.
  - cbn [award_all map].
    by rewrite bool_decide_eq_false_2 by apply not_elem_of_nil.
  - cbn [award_all map]. destruct (award_step now ins s Hs) as [Hs1 Hcount].
    rewrite (IH _ Hs1), Hcount. unfold award_pair at 2. cbn [snd].
    destruct (decide ((userId, badgeId) ∈ map award_pair awards)) as [Hin|Hnin].
    + rewrite !bool_decide_eq_true_2; [done | by right | done].
    + rewrite (bool_decide_eq_false_2 _ Hnin). case_bool_decide as Heq.
      * rewrite bool_decide_eq_true_2; [done | rewrite Heq; left].
      * rewrite bool_decide_eq_false_2; [done|].
        by intros [?|?]%elem_of_cons.
Qed.

Lemma awards_inv_new : awards_inv MemStorage.new.
Proof.
  split.
  - by intros k ?%elem_of_nil.
  - intros userId badgeId. vm_compute. lia.
Qed.
End Awards.

(** C8.  Awarding a badge that the user holds returns the association found
    and writes nothing; hence after any sequence of awards to a fresh store
    each awarded (user, badge) pair has exactly one association, and no
    other pair has any. *)
Theorem award_badge_idempotent :
  (∀ now insertUserBadge s existing,
     List.find (same_award insertUserBadge) (JsMap.values (userBadges s))
     = Some existing →
     awardBadgeToUser now insertUserBadge s = (Ret existing, s)
     ∧ existing ∈ JsMap.values (userBadges s)
     ∧ UserBadge.userId existing = UserBadge.i_userId insertUserBadge
     ∧ UserBadge.badgeId existing = UserBadge.i_badgeId insertUserBadge)
  ∧ (∀ now insertUserBadge s,
       awards_of s (UserBadge.i_userId insertUserBadge)
         (UserBadge.i_badgeId insertUserBadge) ≠ [] →
       snd (awardBadgeToUser now insertUserBadge s) = s)
  ∧ (∀ awards userId badgeId,
       length (awards_of (award_all awards MemStorage.new) userId badgeId)
       = if bool_decide ((userId, badgeId) ∈ map award_pair awards)
         then 1%nat else 0%nat).
Proof.
  split_and!.
  - intros now ins s existing Hfind. rewrite awardBadgeToUser_run, Hfind.
    apply find_some in Hfind as [Hin Hsame]. rewrite <- list_elem_of_In in Hin.
    apply andb_true_iff in Hsame as [H1%bool_decide_eq_true H2%bool_decide_eq_true].
    done.
  - intros now ins s Hheld. rewrite awardBadgeToUser_run.
    destruct (List.find _ _) eqn:Hfind; [done|].
    apply find_none_filter in Hfind. unfold awards_of in Hheld.
    by rewrite same_award_eta in Hheld.
  - intros awards userId badgeId.
    by rewrite (award_all_count awards _ awards_inv_new).
Qed.

Lemma award_badge_idempotent_witness :
  let once := snd (awardBadgeToUser 1000 (UserBadge.mkInsert 1 4) registered) in
  let first := UserBadge.mk 1 1 4 1000 in
  List.find (same_award (UserBadge.mkInsert 1 4)) (JsMap.values (userBadges once))
  = Some first
  ∧ awardBadgeToUser 2000 (UserBadge.mkInsert 1 4) once = (Ret first, once)
  ∧ awards_of once 1 4 ≠ []
  ∧ snd (awardBadgeToUser 2000 (UserBadge.mkInsert 1 4) once) = once
  ∧ length (awards_of
              (award_all [(1000, UserBadge.mkInsert 1 4);
                          (2000, UserBadge.mkInsert 1 4);
                          (3000, UserBadge.mkInsert 3 4)] MemStorage.new) 1 4)
    = 1%nat.
Proof.
  destruct award_badge_idempotent as (Hsame & Hheld & Hcount).
  split_and!.
  - reflexivity.
  - apply Hsame. reflexivity.
  - done.
  - by apply Hheld.
  - by rewrite Hcount.
Defined.

(** ** The relay *)

Section RelayFacts.
Import Relay.
Implicit Types (st : Relay.t) (socket room : string) (event : Event).

Lemma received_emit socket event st c :
  received (emit socket event st) c
  = received st c ++ (if bool_decide (c = socket) then [event] else []).
Proof.
  unfold received, emit. cbn [outbox].
  destruct (decide (c = socket)) as [->|Hne].
  - rewrite lookup_insert_eq, bool_decide_eq_true_2 by done. done.
  - rewrite lookup_insert_ne, bool_decide_eq_false_2 by done.
    by rewrite app_nil_r.
Qed.

Lemma rooms_emit socket event st : rooms (emit socket event st) = rooms st.
Proof. reflexivity. Qed.

Lemma rooms_emit_each except event sockets st :
  rooms (emit_each except event sockets st) = rooms st.
Proof.
  revert st. induction sockets as [|id sockets IH]; intros st; [done|].
  cbn [emit_each]. rewrite IH. by case_bool_decide.
Qed.

(** Whether a connection is among the listed ones and is not excepted. *)
Lemma reached_cons (c id : string) (sockets : list string) (except : string) :
  (c ∈ id :: sockets ∧ c ≠ except)
  ↔ (c = id ∧ c ≠ except) ∨ (c ∈ sockets ∧ c ≠ except).
Proof. rewrite elem_of_cons. tauto. Qed.

(** The loop hands the event once to each listed connection but the
    excepted one, and to nobody else. *)
Lemma received_emit_each except event sockets st c :
  NoDup sockets →
  received (emit_each except event sockets st) c
  = received st c
    ++ (if bool_decide (c ∈ sockets ∧ c ≠ except) then [event] else []).
Proof.
  intros Hnd. revert st. induction Hnd as [|id sockets Hnin Hnd IH]; intros st.
  - cbn [emit_each]. rewrite bool_decide_eq_false_2, app_nil_r; [done|].
    by intros [?%elem_of_nil _].
  - cbn [emit_each]. rewrite IH.
    destruct (decide (id = except)) as [->|Hne].
    + rewrite (bool_decide_eq_true_2 (except = except)) by done.
      f_equal. apply (f_equal (λ b : bool, if b then [event] else [])).
      apply bool_decide_ext. rewrite reached_cons. tauto.
    + rewrite (bool_decide_eq_false_2 (id = except)) by done.
      rewrite received_emit, <- app_assoc. f_equal.
      destruct (decide (c = id)) as [->|Hc].
      * rewrite (bool_decide_eq_true_2 (id = id)) by done.
        rewrite (bool_decide_eq_false_2 (id ∈ sockets ∧ _)) by by intros [? _].
        rewrite bool_decide_eq_true_2; [done|]. split; [left | done].
      * rewrite (bool_decide_eq_false_2 (c = id)) by done. cbn [app].
        apply (f_equal (λ b : bool, if b then [event] else [])).
        apply bool_decide_ext. rewrite reached_cons. tauto.
Qed.

Lemma received_to_room_emit socket room event st c :
  received (to_room_emit socket room event st) c
  = received st c
    ++ (if bool_decide (c ∈ members st room ∧ c ≠ socket) then [event] else []).
Proof.
  unfold to_room_emit. rewrite received_emit_each by apply NoDup_elements.
  f_equal. apply (f_equal (λ b : bool, if b then [event] else [])).
  apply bool_decide_ext. by rewrite elem_of_elements.
Qed.
End RelayFacts.

(** C7.  When a connection publishes a chat message for an application, each
    connection gets appended to what it has received: the message, once, if
    it is in the application's room and is not the sender; the
    acknowledgement, if it is the sender; nothing otherwise.  The rooms are
    left as they were. *)
Theorem relay_forwards_to_others now socket applicationId message st :
  let st' := Relay.send_message now socket
               (Some (Relay.mkSendData applicationId (Some message))) st in
  Relay.rooms st' = Relay.rooms st
  ∧ ∀ c,
      Relay.received st' c
      = Relay.received st c
        ++ (if bool_decide (c ∈ Relay.members st (Relay.roomName applicationId)
                            ∧ c ≠ socket)
            then [Relay.receive_message (Some message)] else [])
        ++ (if bool_decide (c = socket)
            then [Relay.message_sent true (Message.id message) now] else []).
Proof.
  cbn [Relay.send_message Relay.applicationId Relay.message]. split.
  - unfold Relay.to_room_emit. by rewrite rooms_emit, rooms_emit_each.
  - intros c. by rewrite received_emit, received_to_room_emit, app_assoc.
Qed.

(** Two participants and a bystander: the message of the first reaches the
    second, and only the second. *)
Example relay_two_participants :
  let message := Message.mk 1 1 1 2 "When can you start?" 1000 false in
  let st := Relay.join_application 10 "socket-b" "1"
              (Relay.join_application 10 "socket-a" "1"
                 (Relay.join_application 10 "socket-c" "2" Relay.empty)) in
  let st' := Relay.send_message 20 "socket-a"
               (Some (Relay.mkSendData "1" (Some message))) st in
  Relay.received st' "socket-b"
  = [Relay.room_joined "application_1" true 10; Relay.receive_message (Some message)]
  ∧ Relay.received st' "socket-a"
    = [Relay.room_joined "application_1" true 10; Relay.message_sent true 1 20]
  ∧ Relay.received st' "socket-c" = [Relay.room_joined "application_2" true 10].
Proof. vm_compute. done. Qed.

(** * Properties of the whole server *)

Import Ledger Scene.


(** ** Sorting by a key *)

Lemma StronglySorted_impl {A} (R R' : A → A → Prop) l :
  (∀ a b, R a b → R' a b) → StronglySorted R l → StronglySorted R' l.
Proof.
  intros HR. induction 1 as [|a l Hl IH Ha]; constructor; [done|].
  eapply Forall_impl; [exact Ha|]. intros b. apply HR.
Qed.

Section SortFacts.
Context {A : Type} (key : A → Z) (compareFn : A → A → Z).
Hypothesis compare_key : ∀ a b, compareFn a b ≤ 0 ↔ key a ≤ key b.

Lemma sort_insert_perm a l : sort_insert compareFn a l ≡ₚ a :: l.
Proof.
  induction l as [|b l IH]; cbn; [done|].
  destruct (bool_decide (compareFn a b ≤ 0)); [done|].
  rewrite IH. apply Permutation_swap.
Qed.

Lemma js_sort_perm l : js_sort compareFn l ≡ₚ l.
Proof.
  induction l as [|a l IH]; cbn; [done|].
  rewrite sort_insert_perm. by rewrite IH.
Qed.

Lemma sort_insert_sorted a l :
  StronglySorted (λ x y, key x ≤ key y) l →
  StronglySorted (λ x y, key x ≤ key y) (sort_insert compareFn a l).
Proof.
  induction 1 as [|b l Hl IH Hb]; cbn.
  - repeat constructor.
  - destruct (decide (compareFn a b ≤ 0)) as [Hab|Hab].
    + rewrite bool_decide_eq_true_2 by done.
      apply compare_key in Hab.
      constructor; [by constructor|].
      constructor; [done|].
      eapply Forall_impl; [exact Hb|]. cbn. intros; lia.
    + rewrite bool_decide_eq_false_2 by done.
      constructor; [done|].
      rewrite sort_insert_perm. constructor; [|done].
      rewrite compare_key in Hab. lia.
Qed.

Lemma js_sort_sorted l :
  StronglySorted (λ x y, key x ≤ key y) (js_sort compareFn l).
Proof.
  induction l as [|a l IH]; cbn; [constructor|].
  by apply sort_insert_sorted.
Qed.

(** The sort is stable: elements of equal key keep their order. *)
Lemma sort_insert_stable a l k :
  List.filter (λ x, bool_decide (key x = k)) (sort_insert compareFn a l)
  = List.filter (λ x, bool_decide (key x = k)) (a :: l).
Proof.
  induction l as [|b l IH]; [done|].
  cbn [sort_insert].
  destruct (decide (compareFn a b ≤ 0)) as [Hab|Hab].
  - by rewrite bool_decide_eq_true_2 by done.
  - rewrite bool_decide_eq_false_2 by done.
    rewrite compare_key in Hab.
    cbn [List.filter] in *. rewrite IH.
    destruct (decide (key a = k)) as [Ha|Ha], (decide (key b = k)) as [Hb|Hb];
      rewrite ?(bool_decide_eq_true_2 _ Ha), ?(bool_decide_eq_false_2 _ Ha),
        ?(bool_decide_eq_true_2 _ Hb), ?(bool_decide_eq_false_2 _ Hb);
      try done.
    lia.
Qed.

Lemma js_sort_stable l k :
  List.filter (λ x, bool_decide (key x = k)) (js_sort compareFn l)
  = List.filter (λ x, bool_decide (key x = k)) l.
Proof.
  induction l as [|a l IH]; [done|].
  cbn [js_sort foldr]. rewrite sort_insert_stable.
  cbn [List.filter]. fold (js_sort compareFn l). by rewrite IH.
Qed.
End SortFacts.

(** ** The listings of messages and notifications *)

(** X1.  [getMessagesByApplicationId] returns, without touching the store, the
    messages of the application, each once, oldest first, messages of the
    same instant in the order of their creation. *)
Theorem messages_listed_oldest_first applicationId s :
  let stored :=
    List.filter
      (λ message, bool_decide (Message.applicationId message = applicationId))
      (JsMap.values (Store.messages s)) in
  ∃ listed,
    Store.getMessagesByApplicationId applicationId s = (Ret listed, s)
    ∧ StronglySorted (λ a b, Message.createdAt a ≤ Message.createdAt b) listed
    ∧ listed ≡ₚ stored
    ∧ ∀ instant,
        List.filter (λ m, bool_decide (Message.createdAt m = instant)) listed
        = List.filter (λ m, bool_decide (Message.createdAt m = instant)) stored.
Proof.
  intros stored. eexists. split; [reflexivity|].
  fold stored.
  assert (Hkey : ∀ a b : Message.t,
            Message.createdAt a - Message.createdAt b ≤ 0
            ↔ Message.createdAt a ≤ Message.createdAt b) by (intros; lia).
  split; [|split].
  - by apply js_sort_sorted.
  - apply js_sort_perm.
  - intros instant. by apply (js_sort_stable Message.createdAt).
Qed.

(** X2.  [getNotificationsByUserId] returns, without touching the store, the
    notifications of the user, each once, newest first, notifications of the
    same instant in the order of their creation. *)
Theorem notifications_listed_newest_first userId s :
  let stored :=
    List.filter
      (λ notification, bool_decide (Notification.userId notification = userId))
      (JsMap.values (notifications s)) in
  ∃ listed,
    Store.getNotificationsByUserId userId s = (Ret listed, s)
    ∧ StronglySorted
        (λ a b, Notification.createdAt b ≤ Notification.createdAt a) listed
    ∧ listed ≡ₚ stored
    ∧ ∀ instant,
        List.filter (λ n, bool_decide (Notification.createdAt n = instant)) listed
        = List.filter (λ n, bool_decide (Notification.createdAt n = instant)) stored.
Proof.
  intros stored. eexists. split; [reflexivity|].
  fold stored.
  set (key := λ n : Notification.t, - Notification.createdAt n).
  assert (Hkey : ∀ a b : Notification.t,
            Notification.createdAt b - Notification.createdAt a ≤ 0
            ↔ key a ≤ key b) by (unfold key; intros; lia).
  split; [|split].
  - eapply StronglySorted_impl; [|by apply (js_sort_sorted key)].
    unfold key. intros a b; cbn; lia.
  - apply js_sort_perm.
  - intros instant.
    pose proof (js_sort_stable key _ Hkey stored (- instant)) as Hst.
    erewrite (filter_ext _ (λ x, bool_decide (key x = - instant))), Hst.
    + apply filter_ext. intros n. apply bool_decide_ext. unfold key. lia.
    + intros n. apply bool_decide_ext. unfold key. lia.
Qed.

Import Ledger.

(** ** Consecutive ids *)

Section Numbered.
Context {V : Type}.
Implicit Types (m : JsMap.t V) (k c : Z) (v : V).

Lemma numbered_fresh m c : numbered m c → c ∉ JsMap.keys m.
Proof. intros [_ ->]. rewrite elem_of_seqZ. lia. Qed.

Lemma numbered_below m c k : numbered m c → k ∈ JsMap.keys m → 1 ≤ k < c.
Proof. intros [_ ->]. rewrite elem_of_seqZ. lia. Qed.

Lemma numbered_set_next m c v : numbered m c → numbered (JsMap.set m c v) (c + 1).
Proof.
  intros Hm. pose proof (numbered_fresh _ _ Hm) as Hc. destruct Hm as [Hc1 Hkeys].
  split; [lia|].
  rewrite jm_keys_set, bool_decide_eq_false_2 by done.
  replace (c + 1 - 1) with ((c - 1) + 1) by lia.
  rewrite seqZ_app by lia. rewrite Hkeys. f_equal.
  rewrite seqZ_cons by lia. rewrite seqZ_nil by lia. f_equal. lia.
Qed.

Lemma numbered_set_old m c k v v0 :
  JsMap.get m k = Some v0 → numbered m c → numbered (JsMap.set m k v) c.
Proof.
  intros Hget [Hc Hkeys]. split; [done|].
  rewrite jm_keys_set, bool_decide_eq_true_2 by by eapply jm_get_Some_keys.
  done.
Qed.

Lemma numbered_distinct m c : numbered m c → JsMap.distinct_keys m = true.
Proof.
  intros [_ Hkeys]. apply jm_distinct_keys_NoDup. rewrite Hkeys. apply NoDup_seqZ.
Qed.

(** An entry stays where it is when the next id is taken. *)
Lemma numbered_get_next m c k v v0 :
  numbered m c → JsMap.get m k = Some v0 →
  JsMap.get (JsMap.set m c v) k = Some v0.
Proof.
  intros Hm Hget. rewrite jm_get_set_ne; [done|].
  intros ->. by apply (numbered_fresh _ _ Hm), (jm_get_Some_keys _ _ v0).
Qed.
End Numbered.

(** ** Running the other methods of the store *)

Lemma createTask_run now ins s :
  createTask now ins s =
  (Ret (Task.mk (currentTaskId s) (Task.i_title ins) (Task.i_description ins)
          (Task.i_budget ins) (Task.i_deadline ins) (Task.i_requiredSkills ins)
          (Task.i_employerId ins) (Task.i_status ins) now),
   set_tasks
     (JsMap.set (tasks s) (currentTaskId s)
        (Task.mk (currentTaskId s) (Task.i_title ins) (Task.i_description ins)
           (Task.i_budget ins) (Task.i_deadline ins) (Task.i_requiredSkills ins)
           (Task.i_employerId ins) (Task.i_status ins) now))
     (set_currentTaskId (currentTaskId s + 1) s)).
Proof. reflexivity. Qed.

Lemma createBadge_run ins s :
  createBadge ins s =
  (Ret (Badge.mk (currentBadgeId s) (Badge.i_name ins) (Badge.i_description ins)
          (Badge.i_category ins) (Badge.i_level ins) (Badge.i_icon ins)),
   set_badges
     (JsMap.set (badges s) (currentBadgeId s)
        (Badge.mk (currentBadgeId s) (Badge.i_name ins) (Badge.i_description ins)
           (Badge.i_category ins) (Badge.i_level ins) (Badge.i_icon ins)))
     (set_currentBadgeId (currentBadgeId s + 1) s)).
Proof. reflexivity. Qed.

Lemma createUser_run now ins s :
  createUser now ins s =
  (Ret (User.mk (currentUserId s) (User.i_username ins) (User.i_password ins)
          (User.i_email ins) (User.i_fullName ins) (User.i_role ins)
          (User.i_profilePicture ins) (User.i_bio ins)
          (Some (default [] (User.i_skills ins))) now),
   set_users
     (JsMap.set (users s) (currentUserId s)
        (User.mk (currentUserId s) (User.i_username ins) (User.i_password ins)
           (User.i_email ins) (User.i_fullName ins) (User.i_role ins)
           (User.i_profilePicture ins) (User.i_bio ins)
           (Some (default [] (User.i_skills ins))) now))
     (set_currentUserId (currentUserId s + 1) s)).
Proof. reflexivity. Qed.

Lemma getNotification_run id s :
  Store.getNotification id s = (Ret (JsMap.get (notifications s) id), s).
Proof. reflexivity. Qed.

Lemma markNotificationAsRead_run id s :
  Store.markNotificationAsRead id s =
  match JsMap.get (notifications s) id with
  | None => (Throw ("Notification with ID " +:+ pretty id +:+ " not found"), s)
  | Some notification =>
      (Ret (notification_read notification),
       set_notifications
         (JsMap.set (notifications s) id (notification_read notification)) s)
  end.
Proof.
  unfold Store.markNotificationAsRead. rewrite bind_run, getNotification_run.
  by destruct (JsMap.get _ _).
Qed.

Lemma on_core_run {A} (m : M MemStorage.t A) s :
  Store.on_core m s = (fst (m (Store.core s)), Store.set_core (snd (m (Store.core s))) s).
Proof. unfold Store.on_core. by destruct (m (Store.core s)). Qed.

Lemma set_core_core s : Store.set_core (Store.core s) s = s.
Proof. by destruct s. Qed.

Lemma createMessage_run now ins s :
  Store.createMessage now ins s =
  (Ret (Message.mk (Store.currentMessageId s) (m_applicationId ins)
          (m_senderId ins) (m_receiverId ins) (m_content ins) now false),
   Store.set_messages
     (JsMap.set (Store.messages s) (Store.currentMessageId s)
        (Message.mk (Store.currentMessageId s) (m_applicationId ins)
           (m_senderId ins) (m_receiverId ins) (m_content ins) now false))
     (Store.set_currentMessageId (Store.currentMessageId s + 1) s)).
Proof. reflexivity. Qed.

Lemma createReport_run now ins s :
  Store.createReport now ins s =
  (Ret (Report.mk (Store.currentReportId s) (Report.i_reportedUserId ins)
          (Report.i_reportedTaskId ins) (Report.i_reporterId ins)
          (Report.i_reason ins) (Report.i_status ins) now),
   Store.set_reports
     (JsMap.set (Store.reports s) (Store.currentReportId s)
        (Report.mk (Store.currentReportId s) (Report.i_reportedUserId ins)
           (Report.i_reportedTaskId ins) (Report.i_reporterId ins)
           (Report.i_reason ins) (Report.i_status ins) now))
     (Store.set_currentReportId (Store.currentReportId s + 1) s)).
Proof. reflexivity. Qed.

Lemma updateReportStatus_run id status s :
  Store.updateReportStatus id status s =
  match JsMap.get (Store.reports s) id with
  | None => (Throw ("Report with ID " +:+ pretty id +:+ " not found"), s)
  | Some report =>
      (Ret (Report.with_status report status),
       Store.set_reports
         (JsMap.set (Store.reports s) id (Report.with_status report status)) s)
  end.
Proof.
  unfold Store.updateReportStatus, Store.getReport. rewrite bind_run.
  unfold gets at 1. cbv beta iota. by destruct (JsMap.get _ _).
Qed.

(** ** What every request keeps *)

Section Stable.
Context {S : Type} {P : S → Prop}.

Lemma stable_ret {A} (a : A) : stable P (ret a).
Proof. by intros s. Qed.

Lemma stable_throw {A} e : stable P (throw (A:=A) e).
Proof. by intros s. Qed.

Lemma stable_gets {A} (f : S → A) : stable P (gets f).
Proof. by intros s. Qed.

Lemma stable_bind {A B} (m : M S A) (k : A → M S B) :
  stable P m → (∀ a, stable P (k a)) → stable P (m ≫= k).
Proof.
  intros Hm Hk s Hs. specialize (Hm s Hs). rewrite bind_run.
  destruct (m s) as [[a|e] s1]; [by apply Hk | done].
Qed.

Lemma route_upholds {A} (body : M S (Reply A)) failure :
  stable P body → upholds P (Api.route body failure).
Proof.
  intros Hbody s Hs. specialize (Hbody s Hs). unfold Api.route.
  by destruct (body s) as [[r|e] s1].
Qed.

Lemma requireAuth_upholds {A} caller (next : User.t → Service S A) :
  (∀ user, upholds P (next user)) → upholds P (Api.requireAuth caller next).
Proof.
  intros Hnext. unfold Api.requireAuth. destruct caller; [apply Hnext | by intros s].
Qed.

Lemma requireRole_upholds {A} roles caller (next : User.t → Service S A) :
  (∀ user, upholds P (next user)) → upholds P (Api.requireRole roles caller next).
Proof.
  intros Hnext. unfold Api.requireRole. destruct caller; [|by intros s].
  destruct (bool_decide _); [apply Hnext | by intros s].
Qed.
End Stable.

Lemma preserves_stable {A} (P : MemStorage.t → Prop) (m : M MemStorage.t A) :
  preserves P m → stable P m.
Proof. done. Qed.

(** Splits a goal [stable P m] along the shape of [m]. *)
Ltac stable_step :=
  first
    [ apply stable_ret | apply stable_throw | apply stable_gets
    | apply stable_bind; [|intros ?]
    | match goal with
      | |- stable _ (if ?b then _ else _) => destruct b
      | |- stable _ (match ?x with _ => _ end) => destruct x
      | |- stable _ (let _ := _ in _) => cbv zeta
      | |- stable _ (Api.refuse _ _) => apply stable_ret
      | |- stable _ (Api.send _ _) => apply stable_ret
      end ].

Section Kept.
Variable Qpayments : JsMap.t Payment.t → Prop.
Variable Qbadges : JsMap.t Badge.t → Prop.
Variable Qawards : JsMap.t UserBadge.t → Prop.
Variable Qmessages : JsMap.t Message.t → Prop.
Hypothesis Qpayments_survives : survives_addition Qpayments.
Hypothesis Qbadges_survives : survives_addition Qbadges.
Hypothesis Qawards_survives : survives_addition Qawards.
Hypothesis Qmessages_survives : survives_addition Qmessages.

Local Notation "'kept'" := (kept_core Qpayments Qbadges Qawards).
Local Notation "'kept_all'" :=
  (kept_store Qpayments Qbadges Qawards Qmessages).

Ltac kept_fields :=
  cbn [snd users tasks applications payments badges userBadges notifications
       currentUserId currentTaskId currentApplicationId currentPaymentId
       currentBadgeId currentUserBadgeId currentNotificationId
       set_users set_tasks set_applications set_payments set_badges
       set_userBadges set_notifications set_currentUserId set_currentTaskId
       set_currentApplicationId set_currentPaymentId set_currentBadgeId
       set_currentUserBadgeId set_currentNotificationId].

Ltac kept_split :=
  unfold kept_core, numbered_core; kept_fields; split_and!;
  eauto using numbered_set_next, numbered_set_old, numbered_fresh.

Ltac kept_intro s :=
  intros s ((Hu & Ht & Ha & Hp & Hb & Hub & Hn) & HQp & HQb & HQa).

Lemma updateUser_kept id userData : preserves kept (updateUser id userData).
Proof.
  kept_intro s. rewrite updateUser_run.
  destruct (JsMap.get (users s) id) eqn:Hget; kept_split.
Qed.

Lemma createTask_kept now ins : preserves kept (createTask now ins).
Proof. kept_intro s. rewrite createTask_run. kept_split. Qed.

Lemma updateTask_kept id taskData : preserves kept (updateTask id taskData).
Proof.
  kept_intro s. rewrite updateTask_run.
  destruct (JsMap.get (tasks s) id) eqn:Hget; kept_split.
Qed.

Lemma createApplication_kept now ins : preserves kept (createApplication now ins).
Proof. kept_intro s. rewrite createApplication_run. kept_split. Qed.

Lemma updateApplicationStatus_kept id status :
  preserves kept (updateApplicationStatus id status).
Proof.
  kept_intro s. rewrite updateApplicationStatus_run.
  destruct (JsMap.get (applications s) id) eqn:Hget; kept_split.
Qed.

Lemma createPayment_kept now ins : preserves kept (createPayment now ins).
Proof. kept_intro s. rewrite createPayment_run. kept_split. Qed.

Lemma createBadge_kept ins : preserves kept (createBadge ins).
Proof. kept_intro s. rewrite createBadge_run. kept_split. Qed.

Lemma awardBadgeToUser_kept now ins : preserves kept (awardBadgeToUser now ins).
Proof.
  kept_intro s. rewrite awardBadgeToUser_run.
  destruct (List.find _ _); kept_split.
Qed.

Lemma storage_createNotification_kept env ins :
  preserves kept (storage_createNotification env ins).
Proof.
  kept_intro s. rewrite storage_createNotification_run.
  destruct (notification_fault _ _); [kept_split|].
  unfold notified. kept_split.
Qed.

Lemma markNotificationAsRead_kept id :
  preserves kept (Store.markNotificationAsRead id).
Proof.
  kept_intro s. rewrite markNotificationAsRead_run.
  destruct (JsMap.get (notifications s) id) eqn:Hget; kept_split.
Qed.

Lemma reject_others_kept env task applicationId others :
  preserves kept (reject_others env task applicationId others).
Proof.
  induction others as [|app rest IH]; cbn [reject_others].
  - apply preserves_ret.
  - apply preserves_bind; [|done].
    destruct (_ && _); [|apply preserves_ret].
    apply preserves_bind; [apply updateApplicationStatus_kept|intros _].
    apply preserves_bind; [apply storage_createNotification_kept|intros _].
    apply preserves_ret.
Qed.

Lemma notify_admins_kept env newReport admins :
  preserves kept (Api.notify_admins env newReport admins).
Proof.
  induction admins as [|admin rest IH]; cbn [Api.notify_admins].
  - apply preserves_ret.
  - apply preserves_bind; [apply storage_createNotification_kept|done].
Qed.

#[local] Hint Resolve updateUser_kept createTask_kept updateTask_kept
  createApplication_kept updateApplicationStatus_kept createPayment_kept
  createBadge_kept awardBadgeToUser_kept storage_createNotification_kept
  markNotificationAsRead_kept reject_others_kept notify_admins_kept : preserves.

Lemma handle_kept env call : keeps kept (handle env call).
Proof.
  destruct call; cbn [handle].
  - apply requireAuth_keeps; intros user. apply route_keeps. preserves_auto.
  - apply requireRole_keeps; intros user. apply route_keeps. preserves_auto.
  - apply requireRole_keeps; intros user. apply route_keeps. preserves_auto.
  - apply requireRole_keeps; intros user. apply route_keeps. preserves_auto.
  - apply requireRole_keeps; intros user. apply route_keeps. preserves_auto.
  - apply requireRole_keeps; intros user. apply route_keeps. preserves_auto.
  - apply requireRole_keeps; intros user. apply route_keeps. preserves_auto.
  - apply requireAuth_keeps; intros user. apply route_keeps. preserves_auto.
Qed.

Lemma post_badge_kept caller body : upholds kept (Api.post_badge caller body).
Proof.
  apply requireRole_upholds; intros user. apply route_upholds.
  apply stable_bind; [apply preserves_stable, createBadge_kept|intros ?].
  apply stable_ret.
Qed.

Lemma patch_notification_read_kept caller notificationId :
  upholds kept (Api.patch_notification_read caller notificationId).
Proof.
  apply requireAuth_upholds; intros user. apply route_upholds.
  apply stable_bind; [apply stable_gets|intros [n|]]; [|apply stable_ret].
  destruct (bool_decide _); [apply stable_ret|].
  apply stable_bind; [apply preserves_stable, markNotificationAsRead_kept|intros ?].
  apply stable_ret.
Qed.

(** The methods of the whole store. *)
Lemma on_core_kept {A} (m : M MemStorage.t A) :
  preserves kept m → stable kept_all (Store.on_core m).
Proof.
  intros Hm s (Hc & Hmsg & Hrep & HQ). rewrite on_core_run. cbn [snd].
  split_and!; try done. by apply Hm.
Qed.

Lemma set_core_kept c s : kept c → kept_all s → kept_all (Store.set_core c s).
Proof. intros Hc (_ & Hmsg & Hrep & HQ). by split_and!. Qed.

Lemma createMessage_kept now ins : stable kept_all (Store.createMessage now ins).
Proof.
  intros s (Hc & Hmsg & Hrep & HQ). rewrite createMessage_run. cbn [snd].
  split_and!; try done; cbn.
  - by apply numbered_set_next.
  - apply Qmessages_survives; [by apply numbered_fresh|done].
Qed.

Lemma createReport_kept now ins : stable kept_all (Store.createReport now ins).
Proof.
  intros s (Hc & Hmsg & Hrep & HQ). rewrite createReport_run. cbn [snd].
  split_and!; try done; cbn. by apply numbered_set_next.
Qed.

Lemma updateReportStatus_kept id status :
  stable kept_all (Store.updateReportStatus id status).
Proof.
  intros s (Hc & Hmsg & Hrep & HQ). rewrite updateReportStatus_run.
  destruct (JsMap.get (Store.reports s) id) eqn:Hget; cbn [snd]; [|done].
  split_and!; try done; cbn. by eapply numbered_set_old.
Qed.

Lemma post_message_kept env caller body :
  upholds kept_all (Api.post_message env caller body).
Proof.
  apply requireAuth_upholds; intros user. apply route_upholds. cbv zeta.
  apply stable_bind; [apply on_core_kept, preserves_gets|intros [application|]];
    [|apply stable_ret].
  apply stable_bind; [apply on_core_kept, preserves_gets|intros [task|]];
    [|apply stable_ret].
  destruct (Api.neither_student_nor_employer _ _ _); [apply stable_ret|].
  apply stable_bind; [apply createMessage_kept|intros newMessage].
  apply stable_bind; [|intros ?; apply stable_ret].
  apply on_core_kept, storage_createNotification_kept.
Qed.

Lemma post_report_kept env caller body :
  upholds kept_all (Api.post_report env caller body).
Proof.
  apply requireAuth_upholds; intros user. apply route_upholds.
  destruct (negb _); [apply stable_ret|]. cbv zeta.
  apply stable_bind; [apply createReport_kept|intros newReport].
  apply stable_bind; [apply on_core_kept, preserves_gets|intros admins].
  apply stable_bind; [|intros ?; apply stable_ret].
  apply on_core_kept, notify_admins_kept.
Qed.

Lemma patch_report_status_kept caller reportId status :
  upholds kept_all (Api.patch_report_status caller reportId status).
Proof.
  apply requireRole_upholds; intros user. apply route_upholds.
  destruct (negb _); [apply stable_ret|].
  apply stable_bind; [apply updateReportStatus_kept|intros ?].
  apply stable_ret.
Qed.

Lemma serve_kept env request s : kept_all s → kept_all (Api.serve env request s).
Proof.
  intros Hs. pose proof Hs as (Hc & _).
  destruct request; cbn [Api.serve].
  - apply set_core_kept; [by apply handle_kept|done].
  - by apply post_message_kept.
  - apply set_core_kept; [by apply post_badge_kept|done].
  - by apply post_report_kept.
  - by apply patch_report_status_kept.
  - apply set_core_kept; [by apply patch_notification_read_kept|done].
Qed.

Lemma serve_all_kept requests s :
  kept_all s → kept_all (Api.serve_all requests s).
Proof.
  revert s. induction requests as [|[env request] requests IH]; intros s Hs;
    [done|].
  cbn [Api.serve_all]. by apply IH, serve_kept.
Qed.
End Kept.


(** X3.  Ids are handed out consecutively.  In a store whose maps have the
    keys 1, 2, ... up to their counters, every sequence of requests leaves
    such a store: no id is reused and none is skipped. *)
Theorem ids_stay_consecutive requests s :
  numbered_store s → numbered_store (Api.serve_all requests s).
Proof.
  intros (Hc & Hm & Hr).
  destruct (serve_all_kept (λ _, True) (λ _, True) (λ _, True) (λ _, True)
              ltac:(done) ltac:(done) ltac:(done) ltac:(done) requests s)
    as ((Hc' & _) & Hm' & Hr' & _); [by unfold kept_store, kept_core; split_and!|].
  exact (conj Hc' (conj Hm' Hr')).
Qed.

Lemma ids_stay_consecutive_witness :
  numbered_store staffed
  ∧ numbered_store
      (Api.serve_all
         [(env1, Api.PostMessage (Some alice) hello);
          (env0, Api.PostReport (Some carol) complaint);
          (env0, Api.Core (PostPaymentConfirm (Some bob)
                             (mkConfirmBody (Some 1) (inject_Z 5000) true None)))]
         staffed).
Proof.
  assert (H : numbered_store staffed).
  { repeat split; vm_compute; congruence. }
  split; [exact H|]. apply ids_stay_consecutive, H.
Defined.

Lemma get_survives {V} k (v : V) :
  survives_addition (λ m, JsMap.get m k = Some v).
Proof.
  intros m k' v' Hk' Hget. rewrite jm_get_set_ne; [done|].
  intros ->. by apply Hk', (jm_get_Some_keys _ _ v).
Qed.

(** X4.  Payments, badges, awards and messages are only ever added.  From a
    store with consecutive ids, whatever requests follow, an entry of one of
    these four maps is found unchanged under its key. *)
Theorem records_never_altered requests s :
  numbered_store s →
  let s' := Api.serve_all requests s in
  (∀ k payment,
     JsMap.get (payments (Store.core s)) k = Some payment →
     JsMap.get (payments (Store.core s')) k = Some payment)
  ∧ (∀ k badge,
       JsMap.get (badges (Store.core s)) k = Some badge →
       JsMap.get (badges (Store.core s')) k = Some badge)
  ∧ (∀ k award,
       JsMap.get (userBadges (Store.core s)) k = Some award →
       JsMap.get (userBadges (Store.core s')) k = Some award)
  ∧ (∀ k message,
       JsMap.get (Store.messages s) k = Some message →
       JsMap.get (Store.messages s') k = Some message).
Proof.
  intros (Hc & Hm & Hr) s'. subst s'. split_and!; intros k v Hget.
  - destruct (serve_all_kept (λ m, JsMap.get m k = Some v) (λ _, True)
                (λ _, True) (λ _, True) (get_survives k v)
                ltac:(done) ltac:(done) ltac:(done) requests s)
      as ((_ & H & _) & _); [by unfold kept_store, kept_core; split_and!|done].
  - destruct (serve_all_kept (λ _, True) (λ m, JsMap.get m k = Some v)
                (λ _, True) (λ _, True) ltac:(done) (get_survives k v)
                ltac:(done) ltac:(done) requests s)
      as ((_ & _ & H & _) & _); [by unfold kept_store, kept_core; split_and!|done].
  - destruct (serve_all_kept (λ _, True) (λ _, True)
                (λ m, JsMap.get m k = Some v) (λ _, True) ltac:(done)
                ltac:(done) (get_survives k v) ltac:(done) requests s)
      as ((_ & _ & _ & H) & _); [by unfold kept_store, kept_core; split_and!|done].
  - destruct (serve_all_kept (λ _, True) (λ _, True) (λ _, True)
                (λ m, JsMap.get m k = Some v) ltac:(done) ltac:(done)
                ltac:(done) (get_survives k v) requests s)
      as (_ & _ & _ & H); [by unfold kept_store, kept_core; split_and!|done].
Qed.

Lemma records_never_altered_witness :
  numbered_store chatted
  ∧ JsMap.get (Store.messages chatted) 1
    = Some (Message.mk 1 1 1 2 "When can I start?" 2000 false)
  ∧ JsMap.get
      (Store.messages
         (Api.serve_all
            [(env0, Api.PostMessage (Some alice) hello);
             (env0, Api.PostReport (Some carol) complaint)] chatted)) 1
    = Some (Message.mk 1 1 1 2 "When can I start?" 2000 false).
Proof.
  assert (H : numbered_store chatted).
  { repeat split; vm_compute; congruence. }
  split; [exact H|]. split; [reflexivity|].
  by apply (records_never_altered _ chatted H).
Defined.


(** ** Marking a notification as read *)

Lemma jm_set_set {V} (m : JsMap.t V) k v v' :
  JsMap.set (JsMap.set m k v) k v' = JsMap.set m k v'.
Proof.
  induction m as [|[k0 v0] m IH]; cbn.
  - by rewrite bool_decide_eq_true_2.
  - destruct (decide (k = k0)) as [->|Hk].
    + rewrite bool_decide_eq_true_2 by done. cbn.
      by rewrite bool_decide_eq_true_2.
    + rewrite bool_decide_eq_false_2 by done. cbn.
      rewrite bool_decide_eq_false_2 by done. by rewrite IH.
Qed.

Lemma set_notifications_same s : set_notifications (notifications s) s = s.
Proof. by destruct s. Qed.

Lemma patch_notification_read_run user notificationId s :
  Api.patch_notification_read (Some user) notificationId s =
  match JsMap.get (notifications s) notificationId with
  | None => (Refused 404 "Notification not found", s)
  | Some n =>
      if bool_decide (Notification.userId n ≠ User.id user)
      then (Refused 403 "Forbidden", s)
      else (Sent 200 (notification_read n),
            set_notifications
              (JsMap.set (notifications s) notificationId (notification_read n)) s)
  end.
Proof.
  unfold Api.patch_notification_read, Api.requireAuth, Api.route.
  rewrite bind_run, getNotification_run. cbv beta iota.
  destruct (JsMap.get (notifications s) notificationId) as [n|] eqn:Hget; [|done].
  destruct (bool_decide (Notification.userId n ≠ User.id user)); [done|].
  rewrite bind_run, markNotificationAsRead_run, Hget. done.
Qed.

(** X5.  PATCH /api/notifications/:id/read changes nothing but the
    notifications, and of these it marks as read the one under the id
    given, when the caller is its addressee; every other notification, and
    that one for every other caller, stays as it is, and none is added or
    removed. *)
Theorem notification_read_marks_own caller notificationId s :
  let s' := snd (Api.patch_notification_read caller notificationId s) in
  s' = set_notifications (notifications s') s
  ∧ ∀ k, JsMap.get (notifications s') k
         = (λ n, if marks caller notificationId k n
                 then notification_read n else n)
           <$> JsMap.get (notifications s) k.
Proof.
  destruct caller as [user|]; cbn zeta.
  2:{ cbn. split; [by rewrite set_notifications_same|].
      intros k. destruct (JsMap.get (notifications s) k); reflexivity. }
  rewrite patch_notification_read_run.
  destruct (JsMap.get (notifications s) notificationId) as [n|] eqn:Hget.
  - destruct (decide (Notification.userId n = User.id user)) as [Hown|Hown].
    + rewrite bool_decide_eq_false_2 by (by intros ?). cbn [snd].
      split; [done|]. intros k. cbn [notifications set_notifications].
      rewrite jm_get_set. unfold marks.
      destruct (decide (notificationId = k)) as [->|Hk].
      * rewrite Hget. cbn.
        by rewrite !(bool_decide_eq_true_2 (k = k)), (bool_decide_eq_true_2 _ Hown).
      * rewrite (bool_decide_eq_false_2 (notificationId = k)) by done.
        rewrite (bool_decide_eq_false_2 (k = notificationId)) by (by intros ->).
        cbn. destruct (JsMap.get (notifications s) k); reflexivity.
    + rewrite bool_decide_eq_true_2 by done. cbn [snd].
      split; [by rewrite set_notifications_same|].
      intros k. unfold marks.
      destruct (decide (k = notificationId)) as [->|Hk].
      * rewrite Hget. cbn.
        by rewrite (bool_decide_eq_true_2 (notificationId = notificationId)),
          (bool_decide_eq_false_2 _ Hown).
      * rewrite (bool_decide_eq_false_2 (k = notificationId)) by done.
        cbn. destruct (JsMap.get (notifications s) k); reflexivity.
  - cbn [snd]. split; [by rewrite set_notifications_same|].
    intros k. unfold marks.
    destruct (decide (k = notificationId)) as [->|Hk].
    + by rewrite Hget.
    + rewrite (bool_decide_eq_false_2 (k = notificationId)) by done.
      cbn. destruct (JsMap.get (notifications s) k); reflexivity.
Qed.

(** X6.  Marking a notification again gives the answer and the store of the
    first time. *)
Theorem notification_read_again caller notificationId s :
  let mark := Api.patch_notification_read caller notificationId in
  mark (snd (mark s)) = mark s.
Proof.
  destruct caller as [user|]; cbn zeta; [|done].
  rewrite !patch_notification_read_run.
  destruct (JsMap.get (notifications s) notificationId) as [n|] eqn:Hget.
  - destruct (bool_decide (Notification.userId n ≠ User.id user)) eqn:Hown;
      cbn [snd].
    + by rewrite Hget, Hown.
    + cbn [notifications set_notifications]. rewrite jm_get_set_eq.
      cbn [notification_read Notification.userId]. rewrite Hown.
      by rewrite jm_set_set.
  - cbn [snd]. by rewrite Hget.
Qed.


(** ** Messages *)

Lemma on_core_getApplication_run id s :
  Store.on_core (getApplication id) s
  = (Ret (JsMap.get (applications (Store.core s)) id), s).
Proof. rewrite on_core_run, getApplication_run. cbn. by rewrite set_core_core. Qed.

Lemma on_core_getTask_run id s :
  Store.on_core (getTask id) s = (Ret (JsMap.get (tasks (Store.core s)) id), s).
Proof. rewrite on_core_run, getTask_run. cbn. by rewrite set_core_core. Qed.

Lemma post_message_run env user body s :
  Api.post_message env (Some user) body s =
  match JsMap.get (applications (Store.core s)) (m_applicationId body) with
  | None => (Refused 404 "Application not found", s)
  | Some application =>
      match JsMap.get (tasks (Store.core s)) (Application.taskId application) with
      | None => (Refused 404 "Task not found", s)
      | Some task =>
          if Api.neither_student_nor_employer application task user
          then (Refused 403 "Forbidden", s)
          else
            let newMessage := new_message (now env) (User.id user) body s in
            let s1 :=
              Store.set_messages
                (JsMap.set (Store.messages s) (Store.currentMessageId s) newMessage)
                (Store.set_currentMessageId (Store.currentMessageId s + 1) s) in
            if notification_fault env (message_notice body task newMessage)
            then (Refused 500 "Failed to create message", s1)
            else (Sent 201 newMessage,
                  Store.set_core
                    (notified (now env) (message_notice body task newMessage)
                       (Store.core s)) s1)
      end
  end.
Proof.
  unfold Api.post_message, Api.requireAuth, Api.route. cbv zeta.
  rewrite bind_run, on_core_getApplication_run. cbv beta iota.
  destruct (JsMap.get (applications _) _) as [application|]; [|done].
  rewrite bind_run, on_core_getTask_run. cbv beta iota.
  destruct (JsMap.get (tasks _) _) as [task|]; [|done].
  destruct (Api.neither_student_nor_employer _ _ _); [done|].
  rewrite bind_run, createMessage_run. cbv beta iota.
  rewrite bind_run, on_core_run, storage_createNotification_run.
  fold (new_message (now env) (User.id user) body s).
  fold (message_notice body task (new_message (now env) (User.id user) body s)).
  cbn [Store.core Store.set_messages Store.set_currentMessageId].
  by destruct (notification_fault env _).
Qed.

Lemma get_messages_run user applicationId s :
  Api.get_messages (Some user) applicationId s =
  match JsMap.get (applications (Store.core s)) applicationId with
  | None => (Refused 404 "Application not found", s)
  | Some application =>
      match JsMap.get (tasks (Store.core s)) (Application.taskId application) with
      | None => (Refused 404 "Task not found", s)
      | Some task =>
          if Api.neither_student_nor_employer application task user
             && bool_decide (User.role user ≠ "admin")
          then (Refused 403 "Forbidden", s)
          else (Sent 200
                  (js_sort (λ a b, Message.createdAt a - Message.createdAt b)
                     (List.filter
                        (λ message,
                           bool_decide (Message.applicationId message = applicationId))
                        (JsMap.values (Store.messages s)))), s)
      end
  end.
Proof.
  unfold Api.get_messages, Api.requireAuth, Api.route.
  rewrite bind_run, on_core_getApplication_run. cbv beta iota.
  destruct (JsMap.get (applications _) _) as [application|]; [|done].
  rewrite bind_run, on_core_getTask_run. cbv beta iota.
  destruct (JsMap.get (tasks _) _) as [task|]; [|done].
  by destruct (_ && _).
Qed.

(** X7.  POST /api/messages stores a message only for the student of the
    application or the employer of its task, under the next id, with the
    caller as its sender whatever sender the body names; the receiver is the
    one the body names.  Every other message of the store is as before. *)
Theorem message_from_participant env caller body s k message :
  let s' := snd (Api.post_message env caller body s) in
  JsMap.get (Store.messages s') k = Some message →
  JsMap.get (Store.messages s) k = Some message
  ∨ ∃ user application task,
      caller = Some user
      ∧ JsMap.get (applications (Store.core s)) (m_applicationId body)
        = Some application
      ∧ JsMap.get (tasks (Store.core s)) (Application.taskId application)
        = Some task
      ∧ (Application.studentId application = User.id user
         ∨ Task.employerId task = User.id user)
      ∧ k = Store.currentMessageId s
      ∧ message = new_message (now env) (User.id user) body s.
Proof.
  destruct caller as [user|]; cbn zeta; [|by left].
  rewrite post_message_run.
  destruct (JsMap.get (applications _) _) as [application|] eqn:Happ; [|by left].
  destruct (JsMap.get (tasks _) _) as [task|] eqn:Htask; [|by left].
  destruct (Api.neither_student_nor_employer _ _ _) eqn:Hpart; [by left|].
  assert (Hwho : Application.studentId application = User.id user
                 ∨ Task.employerId task = User.id user).
  { apply andb_false_iff in Hpart as [H%bool_decide_eq_false|H%bool_decide_eq_false].
    - left. by destruct (decide (Application.studentId application = User.id user)).
    - right. by destruct (decide (Task.employerId task = User.id user)). }
  cbv zeta.
  assert (Hcase : JsMap.get
            (JsMap.set (Store.messages s) (Store.currentMessageId s)
               (new_message (now env) (User.id user) body s)) k = Some message →
          JsMap.get (Store.messages s) k = Some message
          ∨ (k = Store.currentMessageId s
             ∧ message = new_message (now env) (User.id user) body s)).
  { rewrite jm_get_set. case_bool_decide as Hk; [|by left].
    intros [= <-]. by right. }
  destruct (notification_fault env _); cbn [snd Store.messages Store.set_core
    Store.set_messages Store.set_currentMessageId];
    intros [Hold|[-> ->]]%Hcase; [by left | right | by left | right];
    by exists user, application, task.
Qed.

Lemma message_from_participant_witness :
  let sent := Message.mk 1 1 1 2 "When can I start?" 2000 false in
  JsMap.get
    (Store.messages (snd (Api.post_message env1 (Some Sample.alice) hello staffed)))
    1 = Some sent
  ∧ (JsMap.get (Store.messages staffed) 1 = Some sent
     ∨ ∃ user application task,
         Some Sample.alice = Some user
         ∧ JsMap.get (applications (Store.core staffed)) (m_applicationId hello)
           = Some application
         ∧ JsMap.get (tasks (Store.core staffed)) (Application.taskId application)
           = Some task
         ∧ (Application.studentId application = User.id user
            ∨ Task.employerId task = User.id user)
         ∧ 1 = Store.currentMessageId staffed
         ∧ sent = new_message (now env1) (User.id user) hello staffed).
Proof.
  intros sent. split; [reflexivity|].
  apply (message_from_participant env1 (Some Sample.alice) hello staffed 1 sent).
  reflexivity.
Defined.

(** X8.  A user who is neither the student of an application nor the employer
    of its task cannot post to its conversation, admin or not: the answer is
    403 and the store is as before.  Reading the conversation is refused to
    them as well, unless they are an admin. *)
Theorem conversation_closed_to_outsiders env user body s application task :
  JsMap.get (applications (Store.core s)) (m_applicationId body)
  = Some application →
  JsMap.get (tasks (Store.core s)) (Application.taskId application) = Some task →
  Application.studentId application ≠ User.id user →
  Task.employerId task ≠ User.id user →
  Api.post_message env (Some user) body s = (Refused 403 "Forbidden", s)
  ∧ (User.role user ≠ "admin" →
     Api.get_messages (Some user) (m_applicationId body) s
     = (Refused 403 "Forbidden", s))
  ∧ (User.role user = "admin" →
     ∃ listed,
       Api.get_messages (Some user) (m_applicationId body) s
       = (Sent 200 listed, s)).
Proof.
  intros Happ Htask Hstudent Hemployer.
  rewrite post_message_run, get_messages_run, Happ, Htask.
  unfold Api.neither_student_nor_employer.
  rewrite !bool_decide_eq_true_2 by done. cbn [andb].
  split_and!; [done| |].
  - intros Hrole. by rewrite bool_decide_eq_true_2.
  - intros Hrole. rewrite bool_decide_eq_false_2 by (by intros ?). by eexists.
Qed.

Lemma conversation_closed_to_outsiders_witness :
  JsMap.get (applications (Store.core staffed)) (m_applicationId hello)
  = Some (Application.with_status Sample.alice_application "accepted")
  ∧ Api.post_message env0 (Some dave) hello staffed
    = (Refused 403 "Forbidden", staffed)
  ∧ Api.get_messages (Some Sample.mallory) 1 staffed
    = (Refused 403 "Forbidden", staffed)
  ∧ ∃ listed, Api.get_messages (Some dave) 1 staffed = (Sent 200 listed, staffed).
Proof.
  split; [reflexivity|].
  destruct (conversation_closed_to_outsiders env0 dave hello staffed
              (Application.with_status Sample.alice_application "accepted")
              (Task.spread Sample.website_task (Task.only_status "in-progress")))
    as (Hpost & _ & Hadmin); [reflexivity | reflexivity | by vm_compute
                              | by vm_compute |].
  destruct (conversation_closed_to_outsiders env0 Sample.mallory hello staffed
              (Application.with_status Sample.alice_application "accepted")
              (Task.spread Sample.website_task (Task.only_status "in-progress")))
    as (_ & Hread & _); [reflexivity | reflexivity | by vm_compute
                         | by vm_compute |].
  split_and!; [exact Hpost | by apply Hread | by apply Hadmin].
Defined.

(** X9.  A message posted is listed afterwards.  When a participant of a
    conversation posts to it, in a store with consecutive message ids and
    with no failure of the notification, the answer is 201 with the message
    as stored, and the listing of the conversation is the one before with
    that message added. *)
Theorem message_posted_then_listed env user body s application task :
  JsMap.get (applications (Store.core s)) (m_applicationId body)
  = Some application →
  JsMap.get (tasks (Store.core s)) (Application.taskId application) = Some task →
  Api.neither_student_nor_employer application task user = false →
  (∀ n, notification_fault env n = false) →
  numbered (Store.messages s) (Store.currentMessageId s) →
  let newMessage := new_message (now env) (User.id user) body s in
  ∃ s' before after,
    Api.post_message env (Some user) body s = (Sent 201 newMessage, s')
    ∧ Api.get_messages (Some user) (m_applicationId body) s = (Sent 200 before, s)
    ∧ Api.get_messages (Some user) (m_applicationId body) s' = (Sent 200 after, s')
    ∧ after ≡ₚ newMessage :: before.
Proof.
  intros Happ Htask Hpart Hfault Hnum newMessage.
  rewrite post_message_run, get_messages_run, Happ, Htask, Hpart. cbv zeta.
  rewrite Hfault. fold newMessage. cbn [andb].
  eexists _, _, _. split; [reflexivity|]. split; [reflexivity|].
  rewrite get_messages_run.
  cbn [Store.core Store.set_core Store.messages Store.set_messages
       Store.set_currentMessageId].
  rewrite applications_notified, tasks_notified, Happ, Htask, Hpart. cbn [andb].
  split; [reflexivity|].
  rewrite !js_sort_perm.
  rewrite jm_set_fresh by by apply numbered_fresh.
  unfold JsMap.values. rewrite map_app, List.filter_app. cbn [map snd List.filter].
  unfold newMessage at 1. cbn [new_message Message.applicationId].
  rewrite bool_decide_eq_true_2 by done.
  by rewrite Permutation_app_comm.
Qed.

Lemma message_posted_then_listed_witness :
  let first := Message.mk 1 1 1 2 "When can I start?" 2000 false in
  let second := Message.mk 2 1 2 1 "On Monday." 1000 false in
  numbered (Store.messages staffed) (Store.currentMessageId staffed)
  ∧ (∃ s', Api.post_message env1 (Some Sample.alice) hello staffed
           = (Sent 201 first, s'))
  ∧ Api.get_messages (Some Sample.bob) 1 chatted = (Sent 200 [second; first], chatted).
Proof.
  intros first second.
  assert (Hnum : numbered (Store.messages staffed) (Store.currentMessageId staffed))
    by (split; vm_compute; congruence).
  split; [exact Hnum|]. split; [|vm_compute; reflexivity].
  destruct (message_posted_then_listed env1 Sample.alice hello staffed
              (Application.with_status Sample.alice_application "accepted")
              (Task.spread Sample.website_task (Task.only_status "in-progress")))
    as (s' & before & after & Hpost & _);
    [reflexivity | reflexivity | reflexivity | done | exact Hnum |].
  by exists s'.
Defined.


(** ** Reports *)

Lemma jm_values_set_fresh {V} (m : JsMap.t V) k v :
  k ∉ JsMap.keys m → JsMap.values (JsMap.set m k v) = JsMap.values m ++ [v].
Proof.
  intros Hk. rewrite jm_set_fresh by done. unfold JsMap.values.
  by rewrite map_app.
Qed.

Lemma notify_admins_run env newReport admins c :
  (∀ n, notification_fault env n = false) →
  numbered (notifications c) (currentNotificationId c) →
  ∃ c', Api.notify_admins env newReport admins c = (Ret tt, c')
        ∧ JsMap.values (notifications c')
          = JsMap.values (notifications c)
            ++ report_notices (now env) (Report.id newReport)
                 (currentNotificationId c) admins.
Proof.
  intros Hfault. revert c.
  induction admins as [|admin rest IH]; intros c Hnum; cbn [Api.notify_admins].
  - exists c. split; [done|]. cbn. by rewrite app_nil_r.
  - rewrite bind_run, storage_createNotification_run, Hfault.
    destruct (IH (notified (now env)
                    (Notification.mkInsert (User.id admin) "new_report"
                       "A new report has been submitted"
                       [("reportId", JNum (Report.id newReport))]) c))
      as (c' & Hrun & Hvalues).
    { unfold notified. cbn. by apply numbered_set_next. }
    exists c'. split; [exact Hrun|]. rewrite Hvalues.
    unfold notified at 1 2.
    cbn [notifications currentNotificationId set_notifications
         set_currentNotificationId report_notices].
    rewrite jm_values_set_fresh by by apply numbered_fresh.
    by rewrite <- app_assoc.
Qed.

(** X10.  POST /api/reports files the report under the next id with the caller
    as reporter, whatever reporter the body names, and makes one
    notification for every admin among the users, in their order, after the
    notifications the store has; the answer is 201 with the report. *)
Theorem report_notifies_each_admin env user body s :
  Api.parse_report_status (Report.i_status body) = true →
  (∀ n, notification_fault env n = false) →
  numbered (notifications (Store.core s)) (currentNotificationId (Store.core s)) →
  let newReport := new_report (now env) (User.id user) body s in
  let admins :=
    List.filter (λ u, bool_decide (User.role u = "admin"))
      (JsMap.values (users (Store.core s))) in
  ∃ s', Api.post_report env (Some user) body s = (Sent 201 newReport, s')
        ∧ JsMap.get (Store.reports s') (Store.currentReportId s) = Some newReport
        ∧ JsMap.values (notifications (Store.core s'))
          = JsMap.values (notifications (Store.core s))
            ++ report_notices (now env) (Store.currentReportId s)
                 (currentNotificationId (Store.core s)) admins.
Proof.
  intros Hparse Hfault Hnum newReport admins.
  unfold Api.post_report, Api.requireAuth, Api.route.
  rewrite Hparse. cbn [negb]. cbv zeta.
  rewrite bind_run, createReport_run. cbv beta iota.
  cbn [Report.i_reportedUserId Report.i_reportedTaskId Report.i_reporterId
       Report.i_reason Report.i_status].
  change (Report.mk _ _ _ _ _ _ _) with newReport.
  rewrite bind_run, on_core_run. cbn [fst snd Store.getUsersByRole gets].
  cbn [Store.core Store.set_core Store.set_reports Store.set_currentReportId].
  fold admins.
  rewrite bind_run, on_core_run.
  destruct (notify_admins_run env newReport admins (Store.core s) Hfault Hnum)
    as (c' & Hrun & Hvalues).
  cbn [Store.core Store.set_core Store.set_reports Store.set_currentReportId].
  rewrite Hrun. cbn [fst snd].
  eexists. split; [reflexivity|].
  cbn [Store.core Store.reports Store.set_core]. split; [apply jm_get_set_eq|].
  exact Hvalues.
Qed.

Lemma report_notifies_each_admin_witness :
  Api.parse_report_status (Report.i_status complaint) = true
  ∧ numbered (notifications (Store.core staffed))
      (currentNotificationId (Store.core staffed))
  ∧ ∃ s', Api.post_report env1 (Some Sample.carol) complaint staffed
          = (Sent 201 (Report.mk 1 (Some 4) None 3 "Spam in the cover letter"
                         "pending" 2000), s')
          ∧ JsMap.values (notifications (Store.core s'))
            = JsMap.values (notifications (Store.core staffed))
              ++ [Notification.mk 5 5 "new_report"
                    "A new report has been submitted" false 2000
                    [("reportId", JNum 1)]].
Proof.
  assert (Hnum : numbered (notifications (Store.core staffed))
                   (currentNotificationId (Store.core staffed)))
    by (split; vm_compute; congruence).
  split; [reflexivity|]. split; [exact Hnum|].
  destruct (report_notifies_each_admin env1 Sample.carol complaint staffed)
    as (s' & Hpost & _ & Hvalues); [reflexivity | done | exact Hnum |].
  exists s'. split; [exact Hpost | exact Hvalues].
Defined.

Lemma patch_report_status_run user reportId status s :
  User.role user = "admin" →
  Api.patch_report_status (Some user) reportId status s =
  if bool_decide (status ∈ ["pending"; "resolved"; "rejected"])
  then match JsMap.get (Store.reports s) reportId with
       | None => (Refused 500 "Failed to update report status", s)
       | Some report =>
           (Sent 200 (Report.with_status report status),
            Store.set_reports
              (JsMap.set (Store.reports s) reportId
                 (Report.with_status report status)) s)
       end
  else (Refused 400 "Invalid status", s).
Proof.
  intros Hrole. unfold Api.patch_report_status, Api.requireRole, Api.route.
  rewrite Hrole, bool_decide_eq_true_2 by repeat constructor.
  destruct (bool_decide (status ∈ _)); cbn [negb]; [|done].
  rewrite bind_run, updateReportStatus_run.
  by destruct (JsMap.get _ _).
Qed.

(** X11.  PATCH /api/reports/:id/status for an id under which there is no
    report is answered 500 when the status is one of the three, not 404,
    and 400 when it is not; the store is as before. *)
Theorem unknown_report_is_server_error user reportId status s :
  User.role user = "admin" →
  JsMap.get (Store.reports s) reportId = None →
  Api.patch_report_status (Some user) reportId status s
  = (Refused (if bool_decide (status ∈ ["pending"; "resolved"; "rejected"])
              then 500 else 400)
       (if bool_decide (status ∈ ["pending"; "resolved"; "rejected"])
        then "Failed to update report status" else "Invalid status"), s).
Proof.
  intros Hrole Hget. rewrite patch_report_status_run, Hget by done.
  by destruct (bool_decide _).
Qed.

Lemma unknown_report_is_server_error_witness :
  User.role dave = "admin"
  ∧ JsMap.get (Store.reports staffed) 7 = None
  ∧ Api.patch_report_status (Some dave) 7 "resolved" staffed
    = (Refused 500 "Failed to update report status", staffed).
Proof.
  split; [reflexivity|]. split; [reflexivity|].
  by apply (unknown_report_is_server_error dave 7 "resolved" staffed).
Defined.

(** X12.  PATCH /api/reports/:id/status changes of the reports at most the one
    under the id given, by an admin, to one of the three statuses, and of
    that report the status only; it adds and removes none, and leaves the
    rest of the store alone. *)
Theorem report_status_by_admin_only caller reportId status s :
  let s' := snd (Api.patch_report_status caller reportId status s) in
  s' = Store.set_reports (Store.reports s') s
  ∧ ∀ k, JsMap.get (Store.reports s') k
         = (λ report,
              if bool_decide (k = reportId)
                 && bool_decide (User.role <$> caller = Some "admin")
                 && bool_decide (status ∈ ["pending"; "resolved"; "rejected"])
              then Report.with_status report status else report)
           <$> JsMap.get (Store.reports s) k.
Proof.
  assert (Hsame : ∀ s, s = Store.set_reports (Store.reports s) s)
    by (by intros []).
  assert (Hid : ∀ k (b : bool),
            b = false →
            JsMap.get (Store.reports s) k
            = (λ report, if b then Report.with_status report status else report)
              <$> JsMap.get (Store.reports s) k).
  { intros k b ->. destruct (JsMap.get (Store.reports s) k); reflexivity. }
  destruct caller as [user|]; cbn zeta.
  2:{ cbn [Api.patch_report_status Api.requireRole snd]. split; [apply Hsame|].
      intros k. apply Hid. cbn. by rewrite andb_false_r. }
  destruct (decide (User.role user = "admin")) as [Hrole|Hrole].
  - rewrite patch_report_status_run by done.
    cbn [fmap option_fmap option_map]. rewrite Hrole.
    rewrite (bool_decide_eq_true_2 (Some "admin" = Some "admin")) by done.
    destruct (bool_decide (status ∈ _)) eqn:Hstatus.
    2:{ cbn [snd]. split; [apply Hsame|]. intros k. apply Hid.
        by rewrite andb_false_r. }
    destruct (JsMap.get (Store.reports s) reportId) as [report|] eqn:Hget;
      cbn [snd].
    + split; [done|]. intros k. cbn [Store.reports Store.set_reports].
      rewrite jm_get_set.
      destruct (decide (reportId = k)) as [->|Hk].
      * rewrite !bool_decide_eq_true_2 by done. by rewrite Hget.
      * rewrite (bool_decide_eq_false_2 (reportId = k)) by done.
        rewrite (bool_decide_eq_false_2 (k = reportId)) by (by intros ->).
        by apply Hid.
    + split; [apply Hsame|]. intros k.
      destruct (decide (k = reportId)) as [->|Hk]; [by rewrite Hget|].
      apply Hid. by rewrite (bool_decide_eq_false_2 (k = reportId)).
  - unfold Api.patch_report_status, Api.requireRole.
    rewrite bool_decide_eq_false_2.
    2:{ intros [?|[]%elem_of_nil]%elem_of_cons; done. }
    cbn [snd]. split; [apply Hsame|]. intros k. apply Hid.
    rewrite (bool_decide_eq_false_2 (User.role <$> Some user = Some "admin")).
    + by rewrite andb_false_r.
    + cbn. by intros [= ?].
Qed.


(** Like [run_store], with the methods that create tasks, badges and
    awards. *)
Ltac run_more :=
  repeat (progress
            (run_store;
             rewrite ?awardBadgeToUser_run, ?createTask_run, ?createBadge_run;
             cbv beta iota zeta)).

(** ** Badges *)

Lemma jm_value_set {V} (m : JsMap.t V) k v : v ∈ JsMap.values (JsMap.set m k v).
Proof.
  apply jm_elem_values. exists k. apply jm_get_Some_elem, jm_get_set_eq.
Qed.

Lemma elem_of_List_filter {A} (f : A → bool) l x :
  x ∈ List.filter f l ↔ x ∈ l ∧ f x = true.
Proof. rewrite !list_elem_of_In. apply filter_In. Qed.

Lemma getUserBadges_listed userId s userBadge badge :
  userBadge ∈ JsMap.values (userBadges s) →
  UserBadge.userId userBadge = userId →
  JsMap.get (badges s) (UserBadge.badgeId userBadge) = Some badge →
  ∃ listed, Store.getUserBadges userId s = (Ret listed, s)
            ∧ (badge, UserBadge.awardedAt userBadge) ∈ listed.
Proof.
  intros Hin Huser Hbadge. eexists. split; [reflexivity|].
  apply list_elem_of_omap.
  exists (UserBadge.badgeId userBadge, UserBadge.awardedAt userBadge).
  split; [|by rewrite Hbadge].
  apply (list_elem_of_fmap_2
           (λ ub, (UserBadge.badgeId ub, UserBadge.awardedAt ub))).
  apply elem_of_List_filter. split; [done|]. by apply bool_decide_eq_true_2.
Qed.

(** X13.  A badge awarded is listed.  After POST /api/badges/award by an admin
    for a badge of the catalogue, whether or not the notification could be
    stored, GET /api/badges/user/:userId of the user lists the badge with
    the date of an award. *)
Theorem awarded_badge_is_listed env user body s badge :
  User.role user = "admin" →
  JsMap.get (badges s) (UserBadge.i_badgeId body) = Some badge →
  let s' := snd (post_badge_award env (Some user) body s) in
  ∃ listed awardedAt,
    Api.get_user_badges (UserBadge.i_userId body) s' = (Sent 200 listed, s')
    ∧ (badge, awardedAt) ∈ listed.
Proof.
  intros Hrole Hbadge s'.
  assert (Hs' : ∃ userBadge,
             userBadge ∈ JsMap.values (userBadges s')
             ∧ UserBadge.userId userBadge = UserBadge.i_userId body
             ∧ UserBadge.badgeId userBadge = UserBadge.i_badgeId body
             ∧ badges s' = badges s).
  { subst s'. unfold post_badge_award.
    rewrite requireRole_pass by (rewrite Hrole; repeat constructor).
    unfold route. run_more.
    destruct (List.find _ _) as [existing|] eqn:Hfind; run_more.
    - apply find_some in Hfind as [Hin Hsame].
      apply andb_true_iff in Hsame
        as [Hu%bool_decide_eq_true Hb%bool_decide_eq_true].
      rewrite Hbadge. run_store.
      exists existing. apply list_elem_of_In in Hin.
      by destruct (notification_fault env _).
    - cbn [badges set_userBadges set_currentUserBadgeId]. rewrite Hbadge.
      run_store.
      exists (new_userBadge (now env) body s).
      destruct (notification_fault env _); cbn [snd]; unfold notified;
        cbn [userBadges badges set_userBadges set_currentUserBadgeId
             set_notifications set_currentNotificationId];
        (split; [apply jm_value_set|done]). }
  destruct Hs' as (userBadge & Hin & Hu & Hb & Hbadges).
  destruct (getUserBadges_listed (UserBadge.i_userId body) s' userBadge badge)
    as (listed & Hrun & Hlisted); [done | done | by rewrite Hbadges, Hb |].
  exists listed, (UserBadge.awardedAt userBadge). split; [|done].
  unfold Api.get_user_badges, Api.route. by rewrite bind_run, Hrun.
Qed.

Lemma awarded_badge_is_listed_witness :
  User.role dave = "admin"
  ∧ JsMap.get (badges Sample.accepted) 4
    = Some (Badge.mk 4 "First Task Completed" "Completed your first task"
              "achievement" "beginner" "award")
  ∧ ∃ listed awardedAt,
      fst (Api.get_user_badges 1
             (snd (post_badge_award Sample.env_faulty (Some dave)
                     (UserBadge.mkInsert 1 4) Sample.accepted)))
      = Sent 200 listed
      ∧ (Badge.mk 4 "First Task Completed" "Completed your first task"
           "achievement" "beginner" "award", awardedAt) ∈ listed.
Proof.
  split; [reflexivity|]. split; [reflexivity|].
  destruct (awarded_badge_is_listed Sample.env_faulty dave (UserBadge.mkInsert 1 4)
              Sample.accepted
              (Badge.mk 4 "First Task Completed" "Completed your first task"
                 "achievement" "beginner" "award"))
    as (listed & awardedAt & Hget & Hin); [reflexivity | reflexivity |].
  exists listed, awardedAt. split; [exact (f_equal fst Hget) | exact Hin].
Defined.

(** X14.  POST /api/badges/award does not check that the badge exists.  When
    an admin awards a badge id the catalogue has not, in a store with
    consecutive award ids, the answer is 201 with an association of the
    user and that id which the store then holds, no notification is made,
    and the badges that GET /api/badges/user/:userId lists for any user
    in the store the call leaves are those it listed before the call. *)
Theorem award_of_unknown_badge_is_hidden env user body s :
  User.role user = "admin" →
  JsMap.get (badges s) (UserBadge.i_badgeId body) = None →
  numbered (userBadges s) (currentUserBadgeId s) →
  ∃ userBadge s',
    post_badge_award env (Some user) body s
    = (mkResponse 201 (JUserBadge userBadge), s')
    ∧ userBadge ∈ JsMap.values (userBadges s')
    ∧ UserBadge.userId userBadge = UserBadge.i_userId body
    ∧ UserBadge.badgeId userBadge = UserBadge.i_badgeId body
    ∧ notifications s' = notifications s
    ∧ ∀ userId,
        fst (Api.get_user_badges userId s') = fst (Api.get_user_badges userId s).
Proof.
  intros Hrole Hbadge Hnum. unfold post_badge_award.
  rewrite requireRole_pass by (rewrite Hrole; repeat constructor).
  unfold route. run_more.
  destruct (List.find _ _) as [existing|] eqn:Hfind; run_more.
  - rewrite Hbadge. run_store. exists existing, s.
    apply find_some in Hfind as [Hin Hsame].
    apply andb_true_iff in Hsame
      as [Hu%bool_decide_eq_true Hb%bool_decide_eq_true].
    apply list_elem_of_In in Hin. by split_and!.
  - cbn [badges set_userBadges set_currentUserBadgeId]. rewrite Hbadge.
    run_store. eexists _, _. split; [reflexivity|].
    cbn [userBadges notifications set_userBadges set_currentUserBadgeId].
    split_and!; [apply jm_value_set | done | done | done |].
    intros userId. unfold Api.get_user_badges, Api.route.
    rewrite !bind_run. cbn [Store.getUserBadges gets fst snd Api.send ret].
    cbn [userBadges badges set_userBadges set_currentUserBadgeId].
    apply (f_equal (Sent 200)).
    rewrite jm_values_set_fresh by by apply numbered_fresh.
    rewrite List.filter_app, map_app, omap_app.
    cbn [List.filter map new_userBadge UserBadge.userId UserBadge.badgeId
         UserBadge.awardedAt].
    destruct (bool_decide (UserBadge.i_userId body = userId));
      cbn [map omap list_omap];
      [change (UserBadge.badgeId (new_userBadge (now env) body s))
         with (UserBadge.i_badgeId body); rewrite Hbadge|];
      by rewrite app_nil_r.
Qed.

Lemma award_of_unknown_badge_is_hidden_witness :
  User.role dave = "admin"
  ∧ JsMap.get (badges Sample.accepted) 9 = None
  ∧ numbered (userBadges Sample.accepted) (currentUserBadgeId Sample.accepted)
  ∧ ∃ s', post_badge_award Sample.env0 (Some dave) (UserBadge.mkInsert 1 9)
            Sample.accepted
          = (mkResponse 201 (JUserBadge (UserBadge.mk 1 1 9 1000)), s')
          ∧ fst (Api.get_user_badges 1 s') = Sent 200 [].
Proof.
  assert (Hnum : numbered (userBadges Sample.accepted)
                   (currentUserBadgeId Sample.accepted))
    by (split; vm_compute; congruence).
  split; [reflexivity|]. split; [reflexivity|]. split; [exact Hnum|].
  destruct (award_of_unknown_badge_is_hidden Sample.env0 dave
              (UserBadge.mkInsert 1 9) Sample.accepted)
    as (userBadge & s' & Hpost & _ & _ & _ & _ & Hlist);
    [reflexivity | reflexivity | exact Hnum |].
  exists s'. split; [|by rewrite Hlist].
  rewrite Hpost. f_equal.
  assert (H := f_equal fst Hpost). cbn [fst] in H. by rewrite <- H.
Defined.

(** ** Looking a user up by name *)

Lemma find_snoc {A} (f : A → bool) l x :
  List.find f (l ++ [x])
  = match List.find f l with
    | Some y => Some y
    | None => if f x then Some x else None
    end.
Proof.
  induction l as [|y l IH]; cbn; [done|].
  by destruct (f y).
Qed.

(** X15.  Lookup by username or email ignores the case of letters, and the
    first user registered under a name wins.  After [createUser], in a store
    with consecutive user ids, the lookup of a name returns the user it
    returned before, if any, and else the new user when the name is the new
    user's up to case. *)
Theorem user_lookup_after_create toLowerCase now ins s name :
  numbered (users s) (currentUserId s) →
  let s' := snd (createUser now ins s) in
  fst (Store.getUserByUsername toLowerCase name s')
  = Ret (match fst (Store.getUserByUsername toLowerCase name s) with
         | Ret (Some user) => Some user
         | _ => if bool_decide (toLowerCase (User.i_username ins)
                                = toLowerCase name)
                then Some (new_user now ins s) else None
         end)
  ∧ fst (Store.getUserByEmail toLowerCase name s')
    = Ret (match fst (Store.getUserByEmail toLowerCase name s) with
           | Ret (Some user) => Some user
           | _ => if bool_decide (toLowerCase (User.i_email ins)
                                  = toLowerCase name)
                  then Some (new_user now ins s) else None
           end).
Proof.
  intros Hnum s'. subst s'. rewrite createUser_run.
  cbn [snd fst Store.getUserByUsername Store.getUserByEmail gets users set_users
       set_currentUserId].
  rewrite jm_values_set_fresh by by apply numbered_fresh.
  rewrite !find_snoc. fold (new_user now ins s).
  split; f_equal; by destruct (List.find _ _).
Qed.

Lemma user_lookup_after_create_witness :
  let erin := User.mkInsert "Erin" "secret" "Erin@Example.org" "Erin" "student"
                None None None in
  numbered (users Sample.registered) (currentUserId Sample.registered)
  ∧ fst (Store.getUserByUsername lower "ERIN"
           (snd (createUser 7 erin Sample.registered)))
    = Ret (Some (User.mk 5 "Erin" "secret" "Erin@Example.org" "Erin" "student"
                   None None (Some []) 7))
  ∧ fst (Store.getUserByEmail lower "ALICE@example.org"
           (snd (createUser 7 erin Sample.registered)))
    = Ret (Some Sample.alice).
Proof.
  intros erin.
  assert (Hnum : numbered (users Sample.registered)
                   (currentUserId Sample.registered))
    by (split; vm_compute; congruence).
  split; [exact Hnum|].
  destruct (user_lookup_after_create lower 7 erin Sample.registered "ERIN" Hnum)
    as [Hname _].
  destruct (user_lookup_after_create lower 7 erin Sample.registered
              "ALICE@example.org" Hnum) as [_ Hmail].
  split; [by rewrite Hname | by rewrite Hmail].
Defined.


(** ** Tasks *)

Lemma set_tasks_same s : set_tasks (tasks s) s = s.
Proof. by destruct s. Qed.

Lemma fmap_unchanged {A} (f : A → A) (o : option A) :
  (∀ a, o = Some a → f a = a) → f <$> o = o.
Proof. destruct o as [a|]; cbn; [|done]. intros H. by rewrite H. Qed.

(** X16.  PATCH /api/tasks/:id changes nothing but the tasks, and of these at
    most the one under the id given, which it overwrites with the fields of
    the body when the caller is an admin or the employer of that task; for
    every other caller every task stays as it is.  No task is added or
    removed. *)
Theorem task_edited_by_owner_or_admin caller taskId body s :
  let s' := snd (patch_task caller taskId body s) in
  s' = set_tasks (tasks s') s
  ∧ ∀ k, JsMap.get (tasks s') k
         = (λ task, if bool_decide (k = taskId) && may_edit caller task
                    then Task.spread task body else task)
           <$> JsMap.get (tasks s) k.
Proof.
  cbn zeta.
  assert (Hid : ∀ k,
            (∀ task, k = taskId → JsMap.get (tasks s) k = Some task →
                     may_edit caller task = false) →
            JsMap.get (tasks s) k
            = (λ task, if bool_decide (k = taskId) && may_edit caller task
                       then Task.spread task body else task)
              <$> JsMap.get (tasks s) k).
  { intros k Hk. symmetry. apply fmap_unchanged. intros task Hget.
    destruct (decide (k = taskId)) as [->|Hne].
    - by rewrite (Hk task eq_refl Hget), andb_false_r.
    - by rewrite (bool_decide_eq_false_2 (k = taskId)). }
  destruct caller as [user|].
  2:{ cbn [patch_task requireRole snd]. split; [by rewrite set_tasks_same|].
      intros k. by apply Hid. }
  unfold patch_task, requireRole.
  destruct (decide (User.role user ∈ ["employer"; "admin"])) as [Hrole|Hrole].
  2:{ rewrite bool_decide_eq_false_2 by done. cbn [snd].
      split; [by rewrite set_tasks_same|]. intros k. apply Hid.
      intros task _ _. unfold may_edit. apply orb_false_iff. split.
      - apply bool_decide_eq_false_2. intros Heq. apply Hrole. rewrite Heq.
        repeat constructor.
      - apply andb_false_iff. left. apply bool_decide_eq_false_2.
        intros Heq. apply Hrole. rewrite Heq. repeat constructor. }
  rewrite bool_decide_eq_true_2 by done. unfold route. run_store.
  destruct (JsMap.get (tasks s) taskId) as [task|] eqn:Hget; run_store.
  2:{ cbn [snd]. split; [by rewrite set_tasks_same|]. intros k. apply Hid.
      intros task ->. by rewrite Hget. }
  assert (Hmay : may_edit (Some user) task = negb (neither_owner_nor_admin task user)).
  { unfold may_edit, neither_owner_nor_admin.
    destruct (decide (User.role user = "admin")) as [Hadmin|Hadmin].
    - rewrite (bool_decide_eq_true_2 _ Hadmin).
      rewrite (bool_decide_eq_false_2 (User.role user ≠ "admin")) by (by intros ?).
      by rewrite andb_false_r.
    - rewrite (bool_decide_eq_false_2 _ Hadmin).
      rewrite (bool_decide_eq_true_2 (User.role user ≠ "admin")) by done.
      assert (Hemp : User.role user = "employer").
      { apply elem_of_cons in Hrole as [?|Hrole]; [done|].
        apply elem_of_cons in Hrole as [?|[]%elem_of_nil]; done. }
      rewrite (bool_decide_eq_true_2 _ Hemp). cbn [orb andb].
      rewrite andb_true_r.
      destruct (decide (Task.employerId task = User.id user)) as [He|He].
      + rewrite (bool_decide_eq_true_2 _ He).
        by rewrite bool_decide_eq_false_2 by (by intros ?).
      + rewrite (bool_decide_eq_false_2 _ He).
        by rewrite bool_decide_eq_true_2. }
  destruct (neither_owner_nor_admin task user) eqn:Hown; run_store.
  - cbn [snd]. split; [by rewrite set_tasks_same|]. intros k. apply Hid.
    intros task' -> Hget'. rewrite Hget in Hget'. injection Hget' as <-.
    by rewrite Hmay.
  - rewrite Hget. run_store. cbn [snd]. split; [done|].
    intros k. cbn [tasks set_tasks]. rewrite jm_get_set.
    destruct (decide (taskId = k)) as [<-|Hk].
    + rewrite bool_decide_eq_true_2 by done. rewrite Hget.
      cbn [fmap option_fmap option_map]. by rewrite Hmay.
    + rewrite (bool_decide_eq_false_2 (taskId = k)) by done.
      symmetry. apply fmap_unchanged. intros task' _.
      by rewrite (bool_decide_eq_false_2 (k = taskId)) by (by intros ->).
Qed.

(** X17.  POST /api/tasks stores a task only for an employer or an admin, under
    the next id, with the caller as its employer whatever employer the body
    names, and with the status the body names.  Every other task of the
    store is as before. *)
Theorem task_posted_for_caller env caller body s k task :
  let s' := snd (post_task env caller body s) in
  JsMap.get (tasks s') k = Some task →
  JsMap.get (tasks s) k = Some task
  ∨ ∃ user deadline,
      caller = Some user
      ∧ User.role user ∈ ["employer"; "admin"]
      ∧ tb_deadline body = Some deadline
      ∧ parse_task_status (tb_status body) = true
      ∧ k = currentTaskId s
      ∧ task = new_task (now env) (User.id user) deadline body s.
Proof.
  cbn zeta. destruct caller as [user|]; [|by left].
  unfold post_task, requireRole.
  destruct (decide (User.role user ∈ ["employer"; "admin"])) as [Hrole|Hrole].
  2:{ rewrite bool_decide_eq_false_2 by done. by left. }
  rewrite bool_decide_eq_true_2 by done. unfold route.
  destruct (tb_deadline body) as [deadline|] eqn:Hdeadline; [|by left].
  destruct (parse_task_status (tb_status body)) eqn:Hparse; cbn [negb];
    [|by left].
  cbv zeta. rewrite bind_run, createTask_run. cbv beta iota. rewrite ret_run.
  cbn [snd tasks set_tasks set_currentTaskId Task.i_title Task.i_description
       Task.i_budget Task.i_deadline Task.i_requiredSkills Task.i_employerId
       Task.i_status].
  fold (new_task (now env) (User.id user) deadline body s).
  rewrite jm_get_set. case_bool_decide as Hk; [|by left].
  intros [= <-]. right. by exists user, deadline.
Qed.

Lemma task_posted_for_caller_witness :
  let body := mkTaskBody "Logo" "Draw a logo." (inject_Z 900) (Some 50) [] 77
                "completed" in
  let task := Task.mk 2 "Logo" "Draw a logo." (inject_Z 900) 50 [] 2
                "completed" 1000 in
  JsMap.get (tasks (snd (post_task Sample.env0 (Some Sample.bob) body
                           Sample.accepted))) 2 = Some task
  ∧ (JsMap.get (tasks Sample.accepted) 2 = Some task
     ∨ ∃ user deadline,
         Some Sample.bob = Some user
         ∧ User.role user ∈ ["employer"; "admin"]
         ∧ tb_deadline body = Some deadline
         ∧ parse_task_status (tb_status body) = true
         ∧ 2 = currentTaskId Sample.accepted
         ∧ task = new_task (now Sample.env0) (User.id user) deadline body
                    Sample.accepted).
Proof.
  intros body task. split; [reflexivity|].
  apply (task_posted_for_caller Sample.env0 (Some Sample.bob) body
           Sample.accepted 2 task).
  reflexivity.
Defined.

(** ** Who can write what *)

(** X18.  A request of a caller who is neither employer nor admin, to any of
    the routes of the task and application flow but POST
    /api/payment-confirm, leaves the tasks and the payments as they are. *)
Theorem tasks_and_payments_closed env call user s :
  caller_of call = Some user →
  User.role user ∉ ["employer"; "admin"] →
  is_payment_confirm call = false →
  let s' := snd (handle env call s) in
  tasks s' = tasks s ∧ payments s' = payments s.
Proof.
  intros Hcaller Hrole Hconfirm. cbn zeta.
  assert (Hrefused : ∀ next : User.t → Handler,
            snd (requireRole ["employer"; "admin"] (Some user) next s) = s).
  { intros next. unfold requireRole. by rewrite bool_decide_eq_false_2. }
  destruct call; cbn [caller_of] in Hcaller; subst caller; cbn [handle];
    try discriminate Hconfirm.
  - unfold patch_user, requireAuth, route.
    destruct (_ && _); run_store; [done|].
    by destruct (JsMap.get (users s) userId).
  - unfold post_task. by rewrite Hrefused.
  - unfold patch_task. by rewrite Hrefused.
  - unfold post_application, requireRole.
    destruct (bool_decide (User.role user ∈ ["student"])); [|done].
    unfold route.
    destruct (parse_application_status _); cbn [negb]; run_store; [|done].
    destruct (List.find _ _); run_store; [done|].
    cbn [tasks set_applications set_currentApplicationId].
    destruct (JsMap.get (tasks s) _); run_store; [|done].
    by destruct (notification_fault env _).
  - unfold patch_application_status. by rewrite Hrefused.
  - unfold post_payment. by rewrite Hrefused.
  - unfold post_badge_award, requireRole.
    rewrite bool_decide_eq_false_2; [done|].
    intros Hin. apply Hrole. apply elem_of_cons in Hin as [->|[]%elem_of_nil].
    repeat constructor.
Qed.

Lemma tasks_and_payments_closed_witness :
  let call := PostApplication (Some Sample.mallory) (Sample.apply_to 1) in
  caller_of call = Some Sample.mallory
  ∧ (User.role Sample.mallory ∉ ["employer"; "admin"])
  ∧ tasks (snd (handle Sample.env0 call Sample.posted)) = tasks Sample.posted
  ∧ payments (snd (handle Sample.env0 call Sample.posted))
    = payments Sample.posted.
Proof.
  intros call.
  assert (Hrole : User.role Sample.mallory ∉ ["employer"; "admin"]).
  { intros [?|[?|[]%elem_of_nil]%elem_of_cons]%elem_of_cons; discriminate. }
  split; [reflexivity|]. split; [exact Hrole|].
  by apply (tasks_and_payments_closed Sample.env0 call Sample.mallory Sample.posted).
Defined.


(** ** Decisions and their notifications *)

(** X19.  A decision other than an acceptance is local.  PATCH
    /api/applications/:id/status with a status other than accepted leaves
    the tasks as they are and every application but the one under the id
    given. *)
Theorem decision_without_cascade env caller applicationId status s :
  status ≠ "accepted" →
  let s' := snd (patch_application_status env caller applicationId status s) in
  tasks s' = tasks s
  ∧ ∀ k, k ≠ applicationId →
         JsMap.get (applications s') k = JsMap.get (applications s) k.
Proof.
  intros Hstatus. cbn zeta. unfold patch_application_status, requireRole.
  destruct caller as [user|]; [|done].
  destruct (bool_decide (User.role user ∈ _)); [|done].
  unfold route. destruct (negb _); run_store; [done|].
  destruct (JsMap.get (applications s) applicationId) as [a|] eqn:Ha;
    run_store; [|done].
  destruct (JsMap.get (tasks s) _) as [t|]; run_store; [|done].
  destruct (neither_owner_nor_admin t user); run_store; [done|].
  rewrite Ha. run_store.
  rewrite (bool_decide_eq_false_2 (status = "accepted")) by done. run_store.
  destruct (notification_fault env _); run_store; cbn [snd]; unfold notified;
    cbn [tasks applications set_applications set_notifications
         set_currentNotificationId];
    (split; [done|]); intros k Hk; by rewrite jm_get_set_ne.
Qed.

Lemma decision_without_cascade_witness :
  let s' := snd (patch_application_status Sample.env0 (Some Sample.bob) 2
                   "rejected" Sample.posted) in
  "rejected" ≠ "accepted"
  ∧ Application.status <$> JsMap.get (applications s') 2 = Some "rejected"
  ∧ tasks s' = tasks Sample.posted
  ∧ JsMap.get (applications s') 1 = JsMap.get (applications Sample.posted) 1.
Proof.
  intros s'.
  destruct (decision_without_cascade Sample.env0 (Some Sample.bob) 2 "rejected"
              Sample.posted) as [Htasks Happs]; [done|].
  split; [done|]. split; [reflexivity|]. split; [exact Htasks|].
  by apply Happs.
Defined.

Lemma filter_filter_values_set {V} (p q : V → bool) (m : JsMap.t V) k v v0 :
  JsMap.get m k = Some v0 → q v = false → q v0 = false →
  List.filter q (List.filter p (JsMap.values (JsMap.set m k v)))
  = List.filter q (List.filter p (JsMap.values m)).
Proof.
  intros Hget Hv Hv0. unfold JsMap.values.
  induction m as [|[k' v'] m IH]; [done|].
  cbn [JsMap.get JsMap.set] in *.
  destruct (bool_decide (k = k')).
  - injection Hget as ->. cbn [map snd List.filter].
    destruct (p v), (p v0); cbn [List.filter]; by rewrite ?Hv, ?Hv0.
  - cbn [map snd List.filter]. destruct (p v'); cbn [List.filter];
      by rewrite IH.
Qed.

Section CascadeNotices.
Variable env : Env.
Hypothesis no_fault : ∀ n, notification_fault env n = false.

Lemma reject_others_notices task applicationId others c :
  numbered (notifications c) (currentNotificationId c) →
  (∀ app, app ∈ others → Application.id app ∈ JsMap.keys (applications c)) →
  let rejected :=
    List.filter
      (λ app, bool_decide (Application.id app ≠ applicationId)
              && bool_decide (Application.status app = "applied")) others in
  ∃ c', reject_others env task applicationId others c = (Ret tt, c')
        ∧ JsMap.values (notifications c')
          = JsMap.values (notifications c)
            ++ rejection_notices (now env) task (currentNotificationId c) rejected
        ∧ currentNotificationId c'
          = currentNotificationId c + Z.of_nat (length rejected)
        ∧ numbered (notifications c') (currentNotificationId c').
Proof.
  revert c. induction others as [|app rest IH]; intros c Hnum Hkeys;
    cbn [reject_others List.filter].
  - exists c. cbn. rewrite app_nil_r. split_and!; [done..|lia|done].
  - rewrite bind_run.
    destruct (bool_decide (Application.id app ≠ applicationId)
              && bool_decide (Application.status app = "applied")).
    + run_store.
      destruct (JsMap.get (applications c) (Application.id app)) as [x|] eqn:Hget.
      2:{ exfalso. apply jm_get_None_keys in Hget. apply Hget, Hkeys. left. }
      run_store. rewrite no_fault. run_store.
      match goal with |- context [reject_others _ _ _ _ ?c0] =>
        destruct (IH c0) as (c' & Hrun & Hvalues & Hcount & Hnum')
      end.
      { unfold notified. cbn. by apply numbered_set_next. }
      { intros app' Hin. unfold notified.
        cbn [applications set_applications set_notifications
             set_currentNotificationId].
        rewrite jm_keys_set, bool_decide_eq_true_2
          by by eapply jm_get_Some_keys.
        apply Hkeys. by right. }
      exists c'. split; [exact Hrun|].
      unfold notified in Hvalues, Hcount.
      cbn [notifications currentNotificationId set_applications
           set_notifications set_currentNotificationId] in Hvalues, Hcount.
      rewrite jm_values_set_fresh in Hvalues by by apply numbered_fresh.
      split_and!; [|cbn [length]; lia|done].
      rewrite Hvalues, <- app_assoc. done.
    + run_store.
      destruct (IH c) as (c' & Hrun & Hvalues & Hcount & Hnum');
        [done | intros app' Hin; apply Hkeys; by right |].
      by exists c'.
Qed.

End CascadeNotices.

(** X20.  Who is told of an acceptance.  Let a task be stored under its own
    id, in a store whose applications are each stored once, under their own
    id, and whose notification ids are consecutive.  When the employer of
    the task, or an admin, accepts an application for it, and every
    notification is stored, the answer is 200 with the application in
    status accepted, and the notifications made are one rejection for each
    other application for the task that was in status applied, in the
    order of the store, and then the acceptance for the student. *)
Theorem acceptance_notifies_everyone env user applicationId s a t :
  (∀ n, notification_fault env n = false) →
  User.role user ∈ ["employer"; "admin"] →
  applications_ok s = true →
  JsMap.get (applications s) applicationId = Some a →
  JsMap.get (tasks s) (Task.id t) = Some t →
  Application.taskId a = Task.id t →
  neither_owner_nor_admin t user = false →
  numbered (notifications s) (currentNotificationId s) →
  let rejected := rivals t applicationId s in
  ∃ s', patch_application_status env (Some user) applicationId "accepted" s
        = (mkResponse 200
             (JApplication
                (Application.mk (Application.id a) (Application.taskId a)
                   (Application.studentId a) (Application.coverLetter a)
                   "accepted" (Application.appliedAt a))),
           s')
        ∧ JsMap.values (notifications s')
          = JsMap.values (notifications s)
            ++ rejection_notices (now env) t (currentNotificationId s) rejected
            ++ [decision_notice (now env) t
                  (currentNotificationId s + Z.of_nat (length rejected))
                  a "accepted"].
Proof.
  intros no_fault Hrole Hok Ha Ht Hat Hown Hnum rejected.
  change (Application.mk _ _ _ _ _ _) with (Application.with_status a "accepted").
  apply andb_true_iff in Hok as [Hdist Hfiled].
  assert (Hid : Application.id a = applicationId).
  { rewrite filed_under_id_spec in Hfiled.
    apply (Hfiled applicationId a). by apply jm_get_Some_elem. }
  unfold patch_application_status.
  rewrite requireRole_pass by done. unfold route.
  rewrite bool_decide_eq_true_2 by (right; left). cbn [negb].
  run_store. rewrite Ha. run_store. rewrite Hat, Ht. run_store.
  rewrite Hown. run_store. rewrite Ha. run_store.
  rewrite (bool_decide_eq_true_2 ("accepted" = "accepted")) by done.
  run_store. cbn [tasks set_applications]. rewrite Ht. run_store.
  cbn [applications set_applications set_tasks].
  match goal with |- context [reject_others _ _ _ ?others ?c0] =>
    destruct (reject_others_notices env no_fault t applicationId others c0)
      as (c' & Hrun & Hvalues & Hcount & Hnum')
  end.
  { done. }
  { intros app [Hin _]%elem_of_List_filter.
    cbn [applications set_applications set_tasks].
    apply jm_elem_values in Hin as [k Hin].
    assert (Hfiled' : filed_under_id
              (JsMap.set (applications s) applicationId
                 (Application.with_status a "accepted")) = true)
      by (by apply filed_under_id_set).
    rewrite filed_under_id_spec in Hfiled'. rewrite (Hfiled' k app Hin).
    apply list_elem_of_fmap. by exists (k, app). }
  rewrite Hrun. run_store. rewrite no_fault. run_store.
  eexists. split; [reflexivity|].
  unfold notified, new_notification.
  cbn [notifications set_notifications set_currentNotificationId
       Notification.i_userId Notification.i_type Notification.i_content
       Notification.i_metadata].
  rewrite jm_values_set_fresh by by apply numbered_fresh.
  rewrite Hvalues, Hcount.
  cbn [notifications currentNotificationId set_applications set_tasks].
  rewrite (filter_filter_values_set _ _ _ _ _ a Ha).
  - fold (rivals t applicationId s). fold rejected.
    rewrite <- app_assoc. reflexivity.
  - cbn. rewrite Hid. by rewrite bool_decide_eq_false_2 by (by intros ?).
  - rewrite Hid. by rewrite bool_decide_eq_false_2 by (by intros ?).
Qed.

Lemma acceptance_notifies_everyone_witness :
  User.role Sample.bob ∈ ["employer"; "admin"]
  ∧ applications_ok Sample.posted = true
  ∧ neither_owner_nor_admin Sample.website_task Sample.bob = false
  ∧ numbered (notifications Sample.posted) (currentNotificationId Sample.posted)
  ∧ map Notification.userId (JsMap.values (notifications Sample.posted)) = [2; 2]
  ∧ map (λ n, (Notification.userId n, Notification.type n))
      (JsMap.values (notifications Sample.accepted))
    = [(2, "new_application"); (2, "new_application");
       (3, "application_rejected"); (1, "application_accepted")].
Proof.
  assert (Hrole : User.role Sample.bob ∈ ["employer"; "admin"]) by left.
  assert (Hnum : numbered (notifications Sample.posted)
                   (currentNotificationId Sample.posted))
    by (split; vm_compute; congruence).
  split_and!; [exact Hrole | reflexivity | reflexivity | exact Hnum
               | reflexivity |].
  destruct (acceptance_notifies_everyone Sample.env0 Sample.bob 1
              Sample.posted Sample.alice_application Sample.website_task)
    as (s' & Hrun & Hvalues);
    [done | exact Hrole | reflexivity | reflexivity | reflexivity | reflexivity
     | reflexivity | exact Hnum |].
  unfold Sample.accepted. cbn [run handle]. rewrite Hrun. cbn [snd].
  rewrite Hvalues. reflexivity.
Defined.

(** ** From a submission to the listings *)

(** X21.  An application submitted is listed.  After a student's first
    submission for a task that exists, with no failure of the notification,
    the answer is 201 with the application as stored, GET
    /api/applications/student lists it for the student, and GET
    /api/applications/task/:taskId lists it for the employer of the task. *)
Theorem application_submitted_then_listed env user employer body s task :
  User.role user = "student" →
  parse_application_status (Application.i_status body) = true →
  ¬ has_applied s (User.id user) (Application.i_taskId body) →
  JsMap.get (tasks s) (Application.i_taskId body) = Some task →
  Task.employerId task = User.id employer →
  (∀ n, notification_fault env n = false) →
  let created :=
    new_application (now env)
      (Application.mkInsert (Application.i_taskId body) (User.id user)
         (Application.i_coverLetter body) (Application.i_status body)) s in
  ∃ s' mine received,
    post_application env (Some user) body s
    = (mkResponse 201 (JApplication created), s')
    ∧ Api.get_applications_student (Some user) s' = (Sent 200 mine, s')
    ∧ created ∈ mine
    ∧ Api.get_applications_task (Some employer) (Application.i_taskId body) s'
      = (Sent 200 received, s')
    ∧ created ∈ received.
Proof.
  intros Hrole Hparse Hnew Htask Hemployer Hfault created.
  unfold post_application.
  rewrite requireRole_pass by (rewrite Hrole; repeat constructor).
  unfold route. rewrite Hparse. cbn [negb]. run_store.
  rewrite (find_application_None _ _ _ Hnew). run_store.
  cbn [tasks set_applications set_currentApplicationId]. rewrite Htask.
  run_store. rewrite Hfault. run_store. fold created.
  eexists _, _, _. split; [reflexivity|].
  unfold Api.get_applications_student, Api.get_applications_task,
    Api.requireRole, Api.requireAuth, Api.route.
  rewrite Hrole, bool_decide_eq_true_2 by repeat constructor.
  rewrite !bind_run.
  cbn [Store.getApplicationsByStudentId gets Api.send ret].
  split; [reflexivity|].
  rewrite getTask_run. cbv beta iota. rewrite tasks_notified.
  cbn [tasks set_applications set_currentApplicationId]. rewrite Htask.
  unfold neither_owner_nor_admin.
  rewrite (bool_decide_eq_false_2 (Task.employerId task ≠ User.id employer))
    by (by intros ?).
  cbn [andb]. rewrite bind_run, getApplicationsByTaskId_run. cbv beta iota.
  rewrite applications_notified.
  cbn [applications set_applications set_currentApplicationId ret].
  split_and!; [|reflexivity|].
  - apply elem_of_List_filter. split; [apply jm_value_set|].
    by apply bool_decide_eq_true_2.
  - apply elem_of_List_filter. split; [apply jm_value_set|].
    by apply bool_decide_eq_true_2.
Qed.

Lemma application_submitted_then_listed_witness :
  let body := Sample.apply_to 1 in
  let created := Application.mk 3 1 4 "I have built three websites like this one."
                   "applied" 1000 in
  User.role Sample.mallory = "student"
  ∧ ¬ has_applied Sample.posted (User.id Sample.mallory) 1
  ∧ JsMap.get (tasks Sample.posted) 1 = Some Sample.website_task
  ∧ ∃ s' mine received,
      post_application Sample.env0 (Some Sample.mallory) body Sample.posted
      = (mkResponse 201 (JApplication created), s')
      ∧ Api.get_applications_student (Some Sample.mallory) s' = (Sent 200 mine, s')
      ∧ created ∈ mine
      ∧ Api.get_applications_task (Some Sample.bob) 1 s' = (Sent 200 received, s')
      ∧ created ∈ received.
Proof.
  intros body created.
  assert (Hnew : ¬ has_applied Sample.posted (User.id Sample.mallory) 1).
  { intros (a & Hin & Hstudent & _). revert Hstudent.
    vm_compute in Hin.
    apply elem_of_cons in Hin as [->|Hin]; [discriminate|].
    apply elem_of_cons in Hin as [->|Hin]; [discriminate|].
    by apply elem_of_nil in Hin. }
  split; [reflexivity|]. split; [exact Hnew|]. split; [reflexivity|].
  apply (application_submitted_then_listed Sample.env0 Sample.mallory Sample.bob
           body Sample.posted Sample.website_task);
    [reflexivity | reflexivity | exact Hnew | reflexivity | reflexivity | done].
Defined.


(** ** The relay: joining, then sending *)

Lemma roomName_inj applicationId applicationId' :
  Relay.roomName applicationId = Relay.roomName applicationId' →
  applicationId = applicationId'.
Proof.
  unfold Relay.roomName. cbn. by intros [= H].
Qed.

Lemma members_join socket room room' st :
  Relay.members (Relay.join socket room st) room'
  = if bool_decide (room' = room) then {[socket]} ∪ Relay.members st room
    else Relay.members st room'.
Proof.
  unfold Relay.members, Relay.join. cbn [Relay.rooms].
  case_bool_decide as Hroom.
  - subst room'. by rewrite lookup_insert_eq.
  - by rewrite lookup_insert_ne.
Qed.

(** X22.  A connection that joins the room of an application is told so, and
    then receives a message another connection sends exactly when the
    message is for that application, or for one whose room it was in
    already.  The application ids are compared as the texts that the
    template literal of the room name makes of them: ids with different
    texts have different rooms. *)
Theorem relay_join_then_send now now' sender socket applicationId applicationId'
    message st :
  sender ≠ socket →
  Relay.received
    (Relay.send_message now' sender
       (Some (Relay.mkSendData applicationId' (Some message)))
       (Relay.join_application now socket applicationId st))
    socket
  = Relay.received st socket
    ++ [Relay.room_joined (Relay.roomName applicationId) true now]
    ++ (if bool_decide
             (applicationId' = applicationId
              ∨ socket ∈ Relay.members st (Relay.roomName applicationId'))
        then [Relay.receive_message (Some message)] else []).
Proof.
  intros Hne.
  cbn [Relay.send_message Relay.applicationId Relay.message].
  rewrite received_emit, received_to_room_emit.
  rewrite (bool_decide_eq_false_2 (socket = sender)) by (by intros ->).
  rewrite app_nil_r. unfold Relay.join_application.
  rewrite received_emit, (bool_decide_eq_true_2 (socket = socket)) by done.
  rewrite <- app_assoc. f_equal. f_equal.
  apply (f_equal (λ b : bool, if b then [Relay.receive_message (Some message)]
                              else [])).
  apply bool_decide_ext.
  change (Relay.members (Relay.emit ?a ?b ?c) ?r) with (Relay.members c r).
  rewrite members_join. case_bool_decide as Hroom.
  - apply roomName_inj in Hroom. split; [by left|]. intros _.
    split; [|by intros ->]. apply elem_of_union_l. by apply elem_of_singleton.
  - split.
    + intros [Hin _]. by right.
    + intros [->|Hin]; [done|]. split; [done|by intros ->].
Qed.

Lemma relay_join_then_send_witness :
  let message := Message.mk 1 1 1 2 "When can you start?" 1000 false in
  "socket-a" ≠ "socket-b"
  ∧ Relay.received
      (Relay.send_message 20 "socket-a" (Some (Relay.mkSendData "1" (Some message)))
         (Relay.join_application 10 "socket-b" "1" Relay.empty)) "socket-b"
    = [Relay.room_joined "application_1" true 10;
       Relay.receive_message (Some message)]
  ∧ Relay.received
      (Relay.send_message 20 "socket-a" (Some (Relay.mkSendData "12" (Some message)))
         (Relay.join_application 10 "socket-b" "1" Relay.empty)) "socket-b"
    = [Relay.room_joined "application_1" true 10].
Proof.
  intros message.
  assert (Hne : "socket-a" ≠ "socket-b") by done.
  split; [exact Hne|]. split.
  - rewrite (relay_join_then_send 10 20 "socket-a" "socket-b" "1" "1" message
               Relay.empty Hne).
    reflexivity.
  - rewrite (relay_join_then_send 10 20 "socket-a" "socket-b" "1" "12" message
               Relay.empty Hne).
    reflexivity.
Defined.

(** X23.  A payload without a message.  When the payload of [send_message]
    carries no message, the other connections of the room are sent the
    empty message all the same, and the sender is sent a [message_error]
    for the [TypeError] of reading [message.id]; when the
    payload itself cannot be destructured, nothing is sent but a
    [message_error] for that [TypeError] to the sender.  The rooms are left
    as they were. *)
Theorem relay_payload_without_message now socket st :
  (∀ applicationId c,
     let st' := Relay.send_message now socket
                  (Some (Relay.mkSendData applicationId None)) st in
     Relay.rooms st' = Relay.rooms st
     ∧ Relay.received st' c
       = Relay.received st c
         ++ (if bool_decide (c ∈ Relay.members st (Relay.roomName applicationId)
                             ∧ c ≠ socket)
             then [Relay.receive_message None] else [])
         ++ (if bool_decide (c = socket)
             then [Relay.message_error Relay.message_without_id now]
             else []))
  ∧ (∀ c,
       let st' := Relay.send_message now socket None st in
       Relay.rooms st' = Relay.rooms st
       ∧ Relay.received st' c
         = Relay.received st c
           ++ (if bool_decide (c = socket)
               then [Relay.message_error Relay.payload_not_destructurable now]
               else [])).
Proof.
  split.
  - intros applicationId c.
    cbn [Relay.send_message Relay.applicationId Relay.message]. split.
    + unfold Relay.to_room_emit. by rewrite rooms_emit, rooms_emit_each.
    + by rewrite received_emit, received_to_room_emit, app_assoc.
  - intros c. cbn [Relay.send_message]. split; [done|].
    by rewrite received_emit.
Qed.


(** ** The legacy payment, carried through *)

(** X24.  Let a task in progress be stored under its own id.  POST
    /api/payments by the employer of the task, or by an admin, for an
    application for it, with a body whose status is pending or completed
    and with the notification stored, records under the next payment id
    the payment with the application, the amount and the status of the
    body, completed or pending alike, marks the task completed, its other
    fields as they were, leaves the applications as they were and is
    answered 201 with the payment. *)
Theorem legacy_payment_completes_task env user body s application task :
  User.role user ∈ ["employer"; "admin"] →
  parse_payment_status (Payment.i_status body) = true →
  JsMap.get (applications s) (Payment.i_applicationId body) = Some application →
  JsMap.get (tasks s) (Task.id task) = Some task →
  Application.taskId application = Task.id task →
  neither_owner_nor_admin task user = false →
  Task.status task = "in-progress" →
  (∀ n, notification_fault env n = false) →
  let payment :=
    Payment.mk (currentPaymentId s) (Payment.i_applicationId body)
      (Payment.i_amount body) (Payment.i_status body) (now env) in
  ∃ s', post_payment env (Some user) body s
        = (mkResponse 201 (JPayment payment), s')
        ∧ JsMap.get (payments s') (currentPaymentId s) = Some payment
        ∧ JsMap.get (tasks s') (Task.id task)
          = Some (Task.mk (Task.id task) (Task.title task)
                    (Task.description task) (Task.budget task)
                    (Task.deadline task) (Task.requiredSkills task)
                    (Task.employerId task) "completed" (Task.createdAt task))
        ∧ applications s' = applications s.
Proof.
  intros Hrole Hparse Happ Htask Hat Hown Hstatus Hfault payment.
  unfold post_payment. rewrite requireRole_pass by done.
  unfold route. rewrite Hparse. cbn [negb]. run_store.
  rewrite Happ. run_store. rewrite Hat, Htask. run_store.
  rewrite Hown, Hstatus. run_store.
  rewrite (bool_decide_eq_false_2 ("in-progress" ≠ "in-progress"))
    by (by intros ?).
  run_store. cbn [tasks set_payments set_currentPaymentId].
  rewrite Htask. run_store. rewrite Hfault. run_store.
  eexists. split; [reflexivity|].
  unfold notified.
  cbn [payments tasks applications set_payments set_currentPaymentId set_tasks
       set_notifications set_currentNotificationId].
  split_and!; [apply jm_get_set_eq | apply jm_get_set_eq | done].
Qed.

Lemma legacy_payment_completes_task_witness :
  let body := Payment.mkInsert 1 (inject_Z 5000) "pending" in
  User.role Sample.bob ∈ ["employer"; "admin"]
  ∧ JsMap.get (tasks Sample.accepted) 1
    = Some (Task.mk 1 "Website" "Build the website of the chess club."
              (inject_Z 5000) 604800000 ["JavaScript"] 2 "in-progress" 1000)
  ∧ ∃ s', post_payment Sample.env0 (Some Sample.bob) body Sample.accepted
          = (mkResponse 201
               (JPayment (Payment.mk 1 1 (inject_Z 5000) "pending" 1000)), s')
          ∧ JsMap.get (payments s') 1
            = Some (Payment.mk 1 1 (inject_Z 5000) "pending" 1000)
          ∧ JsMap.get (tasks s') 1
            = Some (Task.mk 1 "Website" "Build the website of the chess club."
                      (inject_Z 5000) 604800000 ["JavaScript"] 2 "completed"
                      1000).
Proof.
  intros body.
  assert (Hrole : User.role Sample.bob ∈ ["employer"; "admin"]) by left.
  split; [exact Hrole|]. split; [reflexivity|].
  destruct (legacy_payment_completes_task Sample.env0 Sample.bob body
              Sample.accepted
              (Application.mk 1 1 1 "I have built three websites like this one."
                 "accepted" 1000)
              (Task.mk 1 "Website" "Build the website of the chess club."
                 (inject_Z 5000) 604800000 ["JavaScript"] 2 "in-progress" 1000))
    as (s' & Hpost & Hpayment & Htask & _);
    [exact Hrole | reflexivity | reflexivity | reflexivity | reflexivity
     | reflexivity | reflexivity | done |].
  exists s'. split_and!; [exact Hpost | exact Hpayment | exact Htask].
Defined.

(** ** Users and the catalogue of badges *)

Lemma set_users_same s : set_users (users s) s = s.
Proof. by destruct s. Qed.

(** X25.  PATCH /api/users/:id changes nothing but the users, and of these at
    most the one under the id given, which it overwrites with the fields of
    the body when the caller has that id or is an admin; for every other
    caller every user stays as it is.  No user is added or removed. *)
Theorem user_edited_by_self_or_admin caller userId body s :
  let s' := snd (patch_user caller userId body s) in
  s' = set_users (users s') s
  ∧ ∀ k, JsMap.get (users s') k
         = (λ user, if bool_decide (k = userId) && may_edit_user caller userId
                    then User.spread user body else user)
           <$> JsMap.get (users s) k.
Proof.
  cbn zeta.
  assert (Hid : ∀ k (b : bool),
            b = false →
            JsMap.get (users s) k
            = (λ user, if b then User.spread user body else user)
              <$> JsMap.get (users s) k).
  { intros k b ->. destruct (JsMap.get (users s) k); reflexivity. }
  destruct caller as [user|].
  2:{ cbn [patch_user requireAuth snd]. split; [by rewrite set_users_same|].
      intros k. apply Hid. cbn. by rewrite andb_false_r. }
  unfold patch_user, requireAuth, route.
  assert (Hmay : may_edit_user (Some user) userId
                 = negb (bool_decide (User.id user ≠ userId)
                         && bool_decide (User.role user ≠ "admin"))).
  { unfold may_edit_user.
    destruct (decide (User.id user = userId)) as [Hi|Hi],
      (decide (User.role user = "admin")) as [Hr|Hr];
      rewrite ?(bool_decide_eq_true_2 _ Hi), ?(bool_decide_eq_false_2 _ Hi),
        ?(bool_decide_eq_true_2 _ Hr), ?(bool_decide_eq_false_2 _ Hr);
      rewrite ?(bool_decide_eq_true_2 (User.id user ≠ userId)) by done;
      rewrite ?(bool_decide_eq_false_2 (User.id user ≠ userId)) by (by intros ?);
      rewrite ?(bool_decide_eq_true_2 (User.role user ≠ "admin")) by done;
      rewrite ?(bool_decide_eq_false_2 (User.role user ≠ "admin"))
        by (by intros ?);
      done. }
  rewrite Hmay.
  destruct (bool_decide (User.id user ≠ userId)
            && bool_decide (User.role user ≠ "admin")); cbn [negb]; run_store.
  - cbn [snd]. split; [by rewrite set_users_same|]. intros k. apply Hid.
    by rewrite andb_false_r.
  - destruct (JsMap.get (users s) userId) as [u|] eqn:Hget; run_store; cbn [snd].
    + split; [done|]. intros k. cbn [users set_users]. rewrite jm_get_set.
      rewrite andb_true_r.
      destruct (decide (userId = k)) as [<-|Hk].
      * rewrite bool_decide_eq_true_2 by done. by rewrite Hget.
      * rewrite (bool_decide_eq_false_2 (userId = k)) by done.
        rewrite (bool_decide_eq_false_2 (k = userId)) by (by intros ->).
        destruct (JsMap.get (users s) k); reflexivity.
    + split; [by rewrite set_users_same|]. intros k. rewrite andb_true_r.
      destruct (decide (k = userId)) as [->|Hk]; [by rewrite Hget|].
      apply Hid. by apply bool_decide_eq_false_2.
Qed.

(** X26.  A badge created is listed.  POST /api/badges by an admin, in a store
    with consecutive badge ids, is answered 201 with the badge under the
    next id, and GET /api/badges then lists the catalogue of before with the
    new badge at its end; from any other caller the catalogue stays as it
    is. *)
Theorem badge_created_then_listed caller body s :
  numbered (badges s) (currentBadgeId s) →
  let s' := snd (Api.post_badge caller body s) in
  let created := bool_decide (User.role <$> caller = Some "admin") in
  Api.get_badges s'
  = (Sent 200 (JsMap.values (badges s)
               ++ (if created then [new_badge body s] else [])), s')
  ∧ (created = true →
     fst (Api.post_badge caller body s) = Sent 201 (new_badge body s)).
Proof.
  intros Hnum. cbn zeta. unfold Api.get_badges, Api.post_badge, Api.requireRole.
  destruct caller as [user|]; cbn [fmap option_fmap option_map].
  2:{ rewrite bool_decide_eq_false_2 by done. cbn [snd]. split; [|done].
      unfold Api.route. rewrite bind_run. cbn. by rewrite app_nil_r. }
  destruct (decide (User.role user = "admin")) as [Hrole|Hrole].
  - rewrite Hrole, (bool_decide_eq_true_2 ("admin" ∈ ["admin"])) by left.
    rewrite (bool_decide_eq_true_2 (Some "admin" = Some "admin")) by done.
    unfold Api.route. rewrite !bind_run, createBadge_run. cbv beta iota.
    fold (new_badge body s). cbn [Api.send ret fst snd].
    split; [|done].
    cbn [Store.getAllBadges gets badges set_badges set_currentBadgeId].
    by rewrite jm_values_set_fresh by by apply numbered_fresh.
  - rewrite (bool_decide_eq_false_2 (User.role user ∈ ["admin"])).
    2:{ intros [?|[]%elem_of_nil]%elem_of_cons. done. }
    rewrite (bool_decide_eq_false_2 (Some (User.role user) = Some "admin"))
      by (by intros [= ?]).
    cbn [snd]. split; [|done].
    unfold Api.route. rewrite bind_run. cbn. by rewrite app_nil_r.
Qed.

Lemma badge_created_then_listed_witness :
  let body := Badge.mkInsert "Rust" "Rust programming skills" "skill"
                "beginner" "code" in
  numbered (badges Sample.accepted) (currentBadgeId Sample.accepted)
  ∧ fst (Api.get_badges (snd (Api.post_badge (Some dave) body Sample.accepted)))
    = Sent 200 (JsMap.values (badges Sample.accepted)
                ++ [Badge.mk 5 "Rust" "Rust programming skills" "skill"
                      "beginner" "code"])
  ∧ fst (Api.get_badges (snd (Api.post_badge (Some Sample.bob) body
                                Sample.accepted)))
    = Sent 200 (JsMap.values (badges Sample.accepted)).
Proof.
  intros body.
  assert (Hnum : numbered (badges Sample.accepted) (currentBadgeId Sample.accepted))
    by (split; vm_compute; congruence).
  split; [exact Hnum|].
  destruct (badge_created_then_listed (Some dave) body Sample.accepted Hnum)
    as [Hadmin _].
  destruct (badge_created_then_listed (Some Sample.bob) body Sample.accepted Hnum)
    as [Hother _].
  split; [by rewrite Hadmin | by rewrite Hother].
Defined.

(** ** Messages are never marked as read *)

Lemma all_unread_set_core c s : all_unread s → all_unread (Store.set_core c s).
Proof. done. Qed.

Lemma on_core_unread {A} (m : M MemStorage.t A) :
  stable all_unread (Store.on_core m).
Proof. intros s Hs. by rewrite on_core_run. Qed.

Lemma createMessage_unread now ins : stable all_unread (Store.createMessage now ins).
Proof.
  intros s Hs message. rewrite createMessage_run.
  cbn [snd Store.messages Store.set_messages Store.set_currentMessageId].
  intros [k Hin]%jm_elem_values.
  apply jm_elem_set in Hin as [[_ ->]|Hin]; [done|].
  apply Hs, jm_elem_values. by exists k.
Qed.

Lemma createReport_unread now ins : stable all_unread (Store.createReport now ins).
Proof. intros s Hs. by rewrite createReport_run. Qed.

Lemma updateReportStatus_unread id status :
  stable all_unread (Store.updateReportStatus id status).
Proof.
  intros s Hs. rewrite updateReportStatus_run. by destruct (JsMap.get _ _).
Qed.

Lemma serve_unread env request s :
  all_unread s → all_unread (Api.serve env request s).
Proof.
  intros Hs. destruct request; cbn [Api.serve]; try done.
  - revert s Hs. apply requireAuth_upholds; intros user. apply route_upholds.
    cbv zeta.
    apply stable_bind; [apply on_core_unread|intros [application|]];
      [|apply stable_ret].
    apply stable_bind; [apply on_core_unread|intros [task|]]; [|apply stable_ret].
    destruct (Api.neither_student_nor_employer _ _ _); [apply stable_ret|].
    apply stable_bind; [apply createMessage_unread|intros newMessage].
    apply stable_bind; [apply on_core_unread|intros ?; apply stable_ret].
  - revert s Hs. apply requireAuth_upholds; intros user. apply route_upholds.
    destruct (negb _); [apply stable_ret|]. cbv zeta.
    apply stable_bind; [apply createReport_unread|intros newReport].
    apply stable_bind; [apply on_core_unread|intros admins].
    apply stable_bind; [apply on_core_unread|intros ?; apply stable_ret].
  - revert s Hs. apply requireRole_upholds; intros user. apply route_upholds.
    destruct (negb _); [apply stable_ret|].
    apply stable_bind; [apply updateReportStatus_unread|intros ?].
    apply stable_ret.
Qed.

(** X27.  No route marks a message as read.  In a store whose messages are all
    unread, as in the store the server starts with, they are all unread
    after every sequence of requests: [markMessageAsRead] is never
    reached. *)
Theorem messages_stay_unread requests s :
  all_unread s → all_unread (Api.serve_all requests s).
Proof.
  revert s. induction requests as [|[env request] requests IH]; intros s Hs;
    [done|].
  cbn [Api.serve_all]. by apply IH, serve_unread.
Qed.

Lemma messages_stay_unread_witness :
  all_unread staffed
  ∧ all_unread chatted
  ∧ map Message.isRead (JsMap.values (Store.messages chatted)) = [false; false].
Proof.
  assert (Hstaffed : all_unread staffed) by (by intros message ?%elem_of_nil).
  split; [exact Hstaffed|]. split; [|reflexivity].
  apply (messages_stay_unread _ staffed Hstaffed).
Defined.


(** ** The profile form *)

Lemma split_comma_nonempty s : Profile.split_comma s ≠ [].
Proof.
  destruct s as [|c s]; cbn; [done|].
  destruct (bool_decide _); [done|]. by destruct (Profile.split_comma s).
Qed.

Lemma split_comma_no_comma s : no_comma s = true → Profile.split_comma s = [s].
Proof.
  induction s as [|c s IH]; cbn; [done|].
  intros [Hc Hs]%andb_true_iff. apply negb_true_iff in Hc. rewrite Hc.
  by rewrite IH.
Qed.

Lemma split_comma_append s t :
  no_comma s = true →
  Profile.split_comma (s +:+ String (Ascii.ascii_of_nat 44) t)
  = s :: Profile.split_comma t.
Proof.
  induction s as [|c s IH]; cbn.
  - done.
  - intros [Hc Hs]%andb_true_iff. apply negb_true_iff in Hc.
    change (Profile.split_comma
              (String c (s +:+ String (Ascii.ascii_of_nat 44) t))
            = String c s :: Profile.split_comma t).
    cbn [Profile.split_comma]. rewrite Hc. by rewrite IH.
Qed.

Lemma trim_space s : Profile.trim (String (Ascii.ascii_of_nat 32) s) = Profile.trim s.
Proof. reflexivity. Qed.

Lemma join_nonempty s rest : s ≠ "" → Profile.join ", " (s :: rest) ≠ "".
Proof. destruct s; [done|]. by destruct rest. Qed.

Lemma skills_of_joined skills :
  skills ≠ [] →
  forallb clean_skill skills = true →
  map Profile.trim (Profile.split_comma (Profile.join ", " skills)) = skills.
Proof.
  induction skills as [|s rest IH]; [done|]. intros _ Hclean.
  cbn [forallb] in Hclean. apply andb_true_iff in Hclean as [Hs Hrest].
  unfold clean_skill in Hs.
  apply andb_true_iff in Hs as [[Hne Hcomma]%andb_true_iff Htrim%bool_decide_eq_true].
  destruct rest as [|r rest].
  - cbn [Profile.join]. rewrite split_comma_no_comma by done. cbn.
    by rewrite Htrim.
  - change (Profile.join ", " (s :: r :: rest))
      with (s +:+ String (Ascii.ascii_of_nat 44)
                    (String (Ascii.ascii_of_nat 32) (Profile.join ", " (r :: rest)))).
    rewrite split_comma_append by done.
    cbn [map]. rewrite Htrim. f_equal.
    specialize (IH ltac:(done) Hrest).
    cbn [Profile.split_comma].
    rewrite bool_decide_eq_false_2 by done.
    destruct (Profile.split_comma (Profile.join ", " (r :: rest)))
      as [|piece pieces] eqn:Hsplit; [by apply split_comma_nonempty in Hsplit|].
    cbn [map] in *. by rewrite trim_space.
Qed.

Lemma filter_clean skills :
  forallb clean_skill skills = true →
  List.filter (λ skill, negb (bool_decide (skill = ""))) skills = skills.
Proof.
  induction skills as [|s rest IH]; [done|]. cbn [forallb List.filter].
  intros [Hs Hrest]%andb_true_iff.
  apply andb_true_iff in Hs as [[-> _]%andb_true_iff _]. by rewrite IH.
Qed.

Lemma skills_read_back skills :
  forallb clean_skill skills = true →
  Profile.skills_of_line (Some (Profile.join ", " skills)) = skills.
Proof.
  intros Hclean. cbn [Profile.skills_of_line].
  destruct skills as [|s rest]; [done|].
  rewrite bool_decide_eq_false_2.
  - rewrite skills_of_joined by done. by apply filter_clean.
  - apply join_nonempty. cbn [forallb] in Hclean.
    apply andb_true_iff in Hclean as [Hs _].
    apply andb_true_iff in Hs as [[Hne _]%andb_true_iff _].
    apply negb_true_iff in Hne. by apply bool_decide_eq_false in Hne.
Qed.

(** X28.  The line of skills reads back.  The text the profile form shows for
    the skills of a user, turned back into a list as the mutation does,
    is the list of the user, when no skill is empty, has a comma in it or
    has white space around it. *)
Theorem profile_skills_round_trip user skills :
  User.skills user = Some skills →
  forallb clean_skill skills = true →
  Profile.skills_of_line (Profile.skills (Profile.defaultValues (Some user)))
  = skills.
Proof.
  intros Hskills Hclean.
  cbn [Profile.defaultValues Profile.skills mbind option_bind].
  rewrite Hskills. by apply skills_read_back.
Qed.

Lemma profile_skills_round_trip_witness :
  User.skills erin = Some ["React"; "Node.js"]
  ∧ forallb clean_skill ["React"; "Node.js"] = true
  ∧ Profile.skills (Profile.defaultValues (Some erin)) = Some "React, Node.js"
  ∧ Profile.skills_of_line (Some "React, Node.js") = ["React"; "Node.js"].
Proof.
  split; [reflexivity|]. split; [reflexivity|]. split; [reflexivity|].
  apply (profile_skills_round_trip erin ["React"; "Node.js"]); reflexivity.
Defined.

(** X29.  Saving the profile untouched.  When a user whose skills read back
    opens the form of their profile and saves it as it is, PATCH
    /api/users/:id is answered 200 and the user is stored as before, but
    for the bio, which is the empty text when there was none. *)
Theorem profile_saved_untouched user skills s :
  JsMap.get (users s) (User.id user) = Some user →
  User.skills user = Some skills →
  forallb clean_skill skills = true →
  let body := Profile.mutation_body (Profile.defaultValues (Some user)) in
  let saved :=
    User.mk (User.id user) (User.username user) (User.password user)
      (User.email user) (User.fullName user) (User.role user)
      (User.profilePicture user) (Some (Profile.or_empty (User.bio user)))
      (User.skills user) (User.createdAt user) in
  patch_user (Some user) (User.id user) body s
  = (mkResponse 200 (JUser saved),
     set_users (JsMap.set (users s) (User.id user) saved) s).
Proof.
  intros Hget Hskills Hclean body saved.
  unfold patch_user, requireAuth, route.
  rewrite (bool_decide_eq_false_2 (User.id user ≠ User.id user))
    by (by intros ?).
  cbn [andb]. run_store. rewrite Hget. run_store.
  assert (Hsaved : User.spread user body = saved).
  { unfold body, saved, User.spread, Profile.mutation_body.
    cbn [User.p_id User.p_username User.p_password User.p_email User.p_fullName
         User.p_role User.p_profilePicture User.p_bio User.p_skills
         User.p_createdAt default from_option id].
    cbn [Profile.defaultValues Profile.fullName Profile.email Profile.bio
         Profile.skills fmap option_fmap option_map Profile.or_empty default
         from_option id mbind option_bind].
    rewrite Hskills, (skills_read_back skills Hclean). done. }
  by rewrite Hsaved.
Qed.

Lemma profile_saved_untouched_witness :
  let saved :=
    User.mk 1 "erin" "secret" "erin@example.org" "Erin" "student" None (Some "")
      (Some ["React"; "Node.js"]) 0 in
  JsMap.get (users erin_alone) (User.id erin) = Some erin
  ∧ User.bio erin = None
  ∧ forallb clean_skill ["React"; "Node.js"] = true
  ∧ patch_user (Some erin) 1
      (Profile.mutation_body (Profile.defaultValues (Some erin))) erin_alone
    = (mkResponse 200 (JUser saved),
       set_users (JsMap.set (users erin_alone) 1 saved) erin_alone).
Proof.
  intros saved. split; [reflexivity|]. split; [reflexivity|].
  split; [reflexivity|].
  apply (profile_saved_untouched erin ["React"; "Node.js"] erin_alone);
    reflexivity.
Defined.
